(** * SoilSense: the fertilizer recommendation pipeline

    A shallow embedding of the recommendation-derivation code of the backend:

    - [backend/ml/fertilizer_engine.py]   the allocation engine,
    - [backend/ml/fertilizer_prices.py]   the verified price table,
    - [backend/ml/soil_improvement.py]    the soil improvement advisor,
    - [backend/ml/crop_schedules.py]      the crop application scheduler,
    - [backend/routes/recommendations.py] repricing and the biofertilizer item.

    Python's [float] is IEEE 754 binary64; it is embedded as Rocq's primitive
    [float], whose operations are the same binary64 operations (round to
    nearest, ties to even).  Python's [int] is [Z].  A Python exception is
    [None] in the [option] monad.  A string is a Python [str] in UTF-8, one
    [ascii] per byte: [strip] removes Python's white space, also beyond
    ASCII; the words the code looks for in a text are ASCII.  A
    [numpy.float64] is a binary64 value as well; it differs from a Python
    [float] in [round] only, see [np_round] and [NumberType]. *)

From Stdlib Require Import ZArith List String Ascii Bool Lia Floats DecimalString.
From Stdlib Require Uint63.
Import ListNotations.
Set Warnings "-inexact-float".

(** ** The error monad: a raised exception is [None] *)

Definition bind {A B : Type} (m : option A) (k : A -> option B) : option B :=
  match m with
  | Some a => k a
  | None => None
  end.

Notation "x <- m ;; k" := (bind m (fun x => k))
  (at level 61, m at next level, right associativity).

(** ** Python numbers *)

Module PyNum.

(** A value that is an [int] on some paths and a [float] on others. *)
Inductive pynum : Type :=
| PyInt (z : Z)
| PyFloat (f : float).

(** [math.ceil(x)]: the least integer not below [x], as a Python [int];
    [ValueError] on NaN and [OverflowError] on an infinity.  The exact value
    of a finite float is [(-1)^s * m * 2^e]. *)
Definition py_ceil (x : float) : option Z :=
  match Prim2SF x with
  | S754_zero _ => Some 0%Z
  | S754_finite s m e =>
      let sm := (if s then Z.neg m else Z.pos m) in
      Some (match e with
            | Zneg k => (- ((- sm) / 2 ^ Z.pos k))%Z
            | _ => (sm * 2 ^ e)%Z
            end)
  | S754_infinity _ | S754_nan => None
  end.

(** [int(x)]: truncation toward zero; raises on NaN and on an infinity. *)
Definition py_int (x : float) : option Z :=
  match Prim2SF x with
  | S754_zero _ => Some 0%Z
  | S754_finite s m e =>
      let sm := (if s then Z.neg m else Z.pos m) in
      Some (match e with
            | Zneg k => Z.quot sm (2 ^ Z.pos k)
            | _ => (sm * 2 ^ e)%Z
            end)
  | S754_infinity _ | S754_nan => None
  end.

(** The float nearest to an integer (ties to even); an infinity when the
    integer is out of range. *)
Definition Z2float (z : Z) : float :=
  SF2Prim (binary_normalize prec emax z 0 false).

(** The conversion of an [int] operand in [float + int]: [OverflowError]
    when the integer is too large for a float. *)
Definition float_of_int (z : Z) : option float :=
  let f := Z2float z in
  if is_infinity f then None else Some f.

(** Quotient of [a] by [b > 0] rounded to the nearest integer, ties to even. *)
Definition rhe_div (a b : Z) : Z :=
  let q := (a / b)%Z in
  let r := (a mod b)%Z in
  match (2 * r ?= b)%Z with
  | Lt => q
  | Gt => (q + 1)%Z
  | Eq => if Z.even q then q else (q + 1)%Z
  end.

(** [round(x, ndigits)] on a finite non-zero float of sign [s] and magnitude
    [m * 2^e], for [0 <= ndigits]: the exact value is rounded to the nearest
    multiple of [10^-ndigits] (ties to even), and that decimal is converted
    to the nearest float.  CPython does this through a correctly rounded
    decimal string ([_Py_dg_dtoa] in mode 3, then [_Py_dg_strtod]). *)
Definition round_sf (s : bool) (m : positive) (e : Z) (ndigits : Z) : spec_float :=
  let scale := (10 ^ ndigits)%Z in
  let n := rhe_div (Z.pos m * scale * 2 ^ Z.max e 0) (2 ^ Z.max (- e) 0) in
  match n with
  | Z.pos k => SFdiv prec emax (S754_finite s k 0) (S754_finite false (Z.to_pos scale) 0)
  | _ => S754_zero s
  end.

(** [round(x, ndigits)] for a float [x]: zeros, infinities and NaN round to
    themselves. *)
Definition py_round (x : float) (ndigits : Z) : float :=
  match Prim2SF x with
  | S754_finite s m e => SF2Prim (round_sf s m e ndigits)
  | _ => x
  end.

(** [numpy.rint(x)]: the nearest integral float, ties to even, with the
    sign of [x]; a float whose exponent is not negative is integral. *)
Definition rint (x : float) : float :=
  match Prim2SF x with
  | S754_finite s m (Zneg k) =>
      SF2Prim (binary_normalize prec emax
                 (cond_Zopp s (rhe_div (Z.pos m) (2 ^ Z.pos k))) 0 s)
  | _ => x
  end.

(** [round(x, ndigits)] for a [numpy.float64] [x] and [0 < ndigits <= 22]:
    numpy multiplies by the float [10^ndigits], rounds to the nearest
    integral float and divides by [10^ndigits]; each of the three steps
    rounds to binary64, so the result can differ from [py_round]'s. *)
Definition np_round (x : float) (ndigits : Z) : float :=
  let f := Z2float (10 ^ ndigits) in
  (rint (x * f) / f)%float.

(** The pieces of an f-string, in order.  The decimal text Python prints for
    a float is not modelled: a formatted float is kept as the float. *)
Inductive fpart : Type :=
| FText (s : string)
| FFloat (f : float).

Definition fstring : Type := list fpart.

(** [str(z)] for an [int]. *)
Definition str_of_int (z : Z) : string := NilZero.string_of_int (Z.to_int z).

End PyNum.
Export PyNum.

(** ** Sign classes and order keys of binary64 values

    [Prim2SF] maps a float to its specification value: a zero, an infinity,
    NaN, or a finite [(-1)^s * m * 2^e]. *)

Module FloatSign.

Local Open Scope Z_scope.

(** Not NaN, with sign bit [s]. *)
Definition sf_signed (s : bool) (x : spec_float) : bool :=
  match x with
  | S754_zero s' | S754_infinity s' | S754_finite s' _ _ => Bool.eqb s s'
  | S754_nan => false
  end.

(** Not NaN and not zero, with sign bit [s]. *)
Definition sf_strict (s : bool) (x : spec_float) : bool :=
  match x with
  | S754_infinity s' | S754_finite s' _ _ => Bool.eqb s s'
  | _ => false
  end.

(** [0 <= x] *)
Definition sf_nonneg (x : spec_float) : bool :=
  match x with
  | S754_zero _ => true
  | S754_infinity s | S754_finite s _ _ => negb s
  | S754_nan => false
  end.

(** [x <= 0] *)
Definition sf_nonpos (x : spec_float) : bool :=
  match x with
  | S754_zero _ => true
  | S754_infinity s | S754_finite s _ _ => s
  | S754_nan => false
  end.

(** [0 < x] *)
Definition sf_pos (x : spec_float) : bool :=
  match x with
  | S754_infinity s | S754_finite s _ _ => negb s
  | _ => false
  end.

(** [x < 0] *)
Definition sf_neg (x : spec_float) : bool :=
  match x with
  | S754_infinity s | S754_finite s _ _ => s
  | _ => false
  end.

Definition sf_finite (x : spec_float) : bool :=
  match x with
  | S754_zero _ | S754_finite _ _ _ => true
  | _ => false
  end.

Definition sf_is_nan (x : spec_float) : bool :=
  match x with
  | S754_nan => true
  | _ => false
  end.

(** The value of a zero or finite float, in units of [2^emin]. *)
Definition sf_units (x : spec_float) : Z :=
  match x with
  | S754_finite s m e => cond_Zopp s (Z.pos m * 2 ^ (e - emin))
  | _ => 0
  end.

(** An order key for every float but NaN: the value in units of [2^emin],
    with the infinities beyond every finite value. *)
Definition sf_key (x : spec_float) : Z :=
  match x with
  | S754_infinity s => cond_Zopp s (2 ^ 2098)
  | _ => sf_units x
  end.

End FloatSign.
Export FloatSign.

(** ** Python string operations used by the pipeline *)

Module PyStr.

Local Open Scope string_scope.

(** [s.startswith(p)] *)
Definition startswith (s p : string) : bool := String.prefix p s.

(** [sub in s] *)
Fixpoint contains (sub s : string) : bool :=
  if String.prefix sub s then true
  else match s with
       | EmptyString => false
       | String _ rest => contains sub rest
       end.

(** [s.lower()], on ASCII letters. *)
Definition lower_ascii (c : ascii) : ascii :=
  let n := nat_of_ascii c in
  if (65 <=? n)%nat && (n <=? 90)%nat then ascii_of_nat (n + 32) else c.

Fixpoint lower (s : string) : string :=
  match s with
  | EmptyString => EmptyString
  | String c rest => String (lower_ascii c) (lower rest)
  end.

(** [s.split(sep)[0]] for a one-character separator: the text before the
    first separator, the whole text when there is none. *)
Fixpoint split_head (sep : ascii) (s : string) : string :=
  match s with
  | EmptyString => EmptyString
  | String c rest => if Ascii.eqb c sep then EmptyString else String c (split_head sep rest)
  end.

(** A string is a Python [str] in UTF-8, one [ascii] per byte.

    The ASCII characters [str.strip()] removes. *)
Definition is_space (c : ascii) : bool :=
  let n := nat_of_ascii c in
  ((9 <=? n)%nat && (n <=? 13)%nat) || ((28 <=? n)%nat && (n <=? 32)%nat).

(** The white space beyond ASCII that [str.strip()] removes as well, by its
    UTF-8 bytes: U+0085 and U+00A0 (two bytes). *)
Definition is_space2 (c1 c2 : ascii) : bool :=
  let n1 := nat_of_ascii c1 in
  let n2 := nat_of_ascii c2 in
  (n1 =? 194)%nat && ((n2 =? 133)%nat || (n2 =? 160)%nat).

(** U+1680, U+2000 to U+200A, U+2028, U+2029, U+202F, U+205F and U+3000
    (three bytes). *)
Definition is_space3 (c1 c2 c3 : ascii) : bool :=
  let n1 := nat_of_ascii c1 in
  let n2 := nat_of_ascii c2 in
  let n3 := nat_of_ascii c3 in
  ((n1 =? 225)%nat && (n2 =? 154)%nat && (n3 =? 128)%nat) ||
  ((n1 =? 226)%nat && (n2 =? 128)%nat &&
     (((128 <=? n3)%nat && (n3 <=? 138)%nat) ||
      (n3 =? 168)%nat || (n3 =? 169)%nat || (n3 =? 175)%nat)) ||
  ((n1 =? 226)%nat && (n2 =? 129)%nat && (n3 =? 159)%nat) ||
  ((n1 =? 227)%nat && (n2 =? 128)%nat && (n3 =? 128)%nat).

(** [s.lstrip()]: the white space characters at the start are dropped. *)
Fixpoint lstrip (s : string) : string :=
  match s with
  | EmptyString => EmptyString
  | String c1 r1 =>
      if is_space c1 then lstrip r1
      else
        match r1 with
        | String c2 r2 =>
            if is_space2 c1 c2 then lstrip r2
            else
              match r2 with
              | String c3 r3 => if is_space3 c1 c2 c3 then lstrip r3 else s
              | EmptyString => s
              end
        | EmptyString => s
        end
  end.

(** The string consists of white space characters only. *)
Fixpoint all_space (s : string) : bool :=
  match s with
  | EmptyString => true
  | String c1 r1 =>
      if is_space c1 then all_space r1
      else
        match r1 with
        | String c2 r2 =>
            if is_space2 c1 c2 then all_space r2
            else
              match r2 with
              | String c3 r3 => is_space3 c1 c2 c3 && all_space r3
              | EmptyString => false
              end
        | EmptyString => false
        end
  end.

(** [s.rstrip()]: the text is cut where only white space follows.  A
    white space character never starts inside another character's bytes,
    so the cut falls between two characters. *)
Fixpoint rstrip (s : string) : string :=
  match s with
  | EmptyString => EmptyString
  | String c rest => if all_space s then EmptyString else String c (rstrip rest)
  end.

(** [s.strip()] *)
Definition strip (s : string) : string := rstrip (lstrip s).

(** [sep.join(parts)] *)
Definition join (sep : string) (parts : list string) : string := String.concat sep parts.

End PyStr.

(** ** Line items ([backend/ml/fertilizer_engine.py], [backend/routes/recommendations.py])

    A line item is a Python dict.  The engine creates it with six keys; the
    repricing pass adds [price_per_50kg], [is_verified] and on one path
    [note]; the biofertilizer item also carries [application_stage].  A key
    that may be absent is an [option]. *)

Module Item.

(** The [price_per_50kg] entry: the table's integer price, or a text. *)
Inductive price_field : Type :=
| PriceInt (p : Z)
| PriceText (s : string).

Record LineItem : Type := mkLineItem {
  fertilizer : string;
  quantity_kg_per_hectare : float;
  quantity_kg_per_acre : float;
  quantity_total : option float;
  provides : fstring;
  cost : pynum;
  price_per_50kg : option price_field;
  is_verified : option bool;
  note : option string;
  application_stage : option string
}.

(** [fert['quantity_total'] = q] *)
Definition set_quantity_total (q : float) (it : LineItem) : LineItem :=
  mkLineItem (fertilizer it) (quantity_kg_per_hectare it) (quantity_kg_per_acre it)
    (Some q) (provides it) (cost it) (price_per_50kg it) (is_verified it)
    (note it) (application_stage it).

(** [fert['price_per_50kg'] = p] *)
Definition set_price_per_50kg (p : price_field) (it : LineItem) : LineItem :=
  mkLineItem (fertilizer it) (quantity_kg_per_hectare it) (quantity_kg_per_acre it)
    (quantity_total it) (provides it) (cost it) (Some p) (is_verified it)
    (note it) (application_stage it).

(** [fert['cost'] = c] *)
Definition set_cost (c : pynum) (it : LineItem) : LineItem :=
  mkLineItem (fertilizer it) (quantity_kg_per_hectare it) (quantity_kg_per_acre it)
    (quantity_total it) (provides it) c (price_per_50kg it) (is_verified it)
    (note it) (application_stage it).

(** [fert['is_verified'] = b] *)
Definition set_is_verified (b : bool) (it : LineItem) : LineItem :=
  mkLineItem (fertilizer it) (quantity_kg_per_hectare it) (quantity_kg_per_acre it)
    (quantity_total it) (provides it) (cost it) (price_per_50kg it) (Some b)
    (note it) (application_stage it).

(** [fert['note'] = s] *)
Definition set_note (s : string) (it : LineItem) : LineItem :=
  mkLineItem (fertilizer it) (quantity_kg_per_hectare it) (quantity_kg_per_acre it)
    (quantity_total it) (provides it) (cost it) (price_per_50kg it) (is_verified it)
    (Some s) (application_stage it).

(** The dict returned by [recommend_fertilizers]; the route later overwrites
    [total_cost] and appends to [fertilizers]. *)
Record Recommendations : Type := mkRecommendations {
  fertilizers : list LineItem;
  total_cost : float;
  application_timing : string;
  application_method : string
}.

End Item.
Export Item.

(** ** The allocation engine ([backend/ml/fertilizer_engine.py]) *)

Module FertilizerEngine.

Import PyStr.
Local Open Scope float_scope.

(** [class Fertilizer]: the percentages are stored as fractions. *)
Record Fertilizer : Type := mkFertilizer {
  name : string;
  n_percent : float;
  p_percent : float;
  k_percent : float;
  cost_per_kg : float
}.

(** [Fertilizer.__init__]: the integer arguments are divided by 100 (true
    division); [cost_per_kg] is kept, as the float equal to the integer. *)
Definition Fertilizer_init (nm : string) (n p k c : float) : Fertilizer :=
  mkFertilizer nm (n / 100) (p / 100) (k / 100) c.

Definition FERTILIZERS : list Fertilizer :=
  [ Fertilizer_init "Urea" 46 0 0 6;
    Fertilizer_init "DAP (Diammonium Phosphate)" 18 46 0 27;
    Fertilizer_init "MOP (Muriate of Potash)" 0 0 60 17;
    Fertilizer_init "SSP (Single Super Phosphate)" 0 16 0 8;
    Fertilizer_init "NPK 10-26-26" 10 26 26 22;
    Fertilizer_init "NPK 12-32-16" 12 32 16 24;
    Fertilizer_init "NPK 14-35-14" 14 35 14 25;
    Fertilizer_init "NPK 17-17-17" 17 17 17 20;
    Fertilizer_init "NPK 19-19-19" 19 19 19 21;
    Fertilizer_init "NPK 20-20-0-13" 20 20 0 18;
    Fertilizer_init "NPK 28-28-0" 28 28 0 23 ].

(** [next(f for f in FERTILIZERS if pred(f))]: [StopIteration] when no
    product satisfies the predicate. *)
Definition next_fertilizer (pred : Fertilizer -> bool) : option Fertilizer :=
  List.find pred FERTILIZERS.

(** The local variables of [recommend_fertilizers] that the three steps
    read and update. *)
Record EngineState : Type := mkEngineState {
  recommendations : list LineItem;
  total_cost_acc : float;
  n_remaining : float;
  p_remaining : float;
  k_remaining : float
}.

(** The dict literal each step appends.  [round] is CPython's here, as it
    is when the engine is called with Python floats; [NumberType] has the
    engine with the number type as an argument. *)
Definition engine_item (nm : string) (needed_kg field_area_hectares : float)
    (prov : fstring) (cost_kg : float) : LineItem :=
  mkLineItem nm
    (py_round needed_kg 2)
    (py_round (needed_kg * 0.4047) 2)
    (Some (py_round (needed_kg * field_area_hectares) 2))
    prov
    (PyFloat (py_round (needed_kg * cost_kg) 2))
    None None None None.

(** Step 1: DAP for phosphorus; it also supplies some nitrogen. *)
Definition dap_step (field_area_hectares : float) (st : EngineState) : option EngineState :=
  if 0 <? p_remaining st then
    dap <- next_fertilizer (fun f => startswith (name f) "DAP") ;;
    let dap_needed_kg := p_remaining st / p_percent dap in
    let n_from_dap := dap_needed_kg * n_percent dap in
    Some (mkEngineState
      (recommendations st ++
        [engine_item "DAP (Diammonium Phosphate)" dap_needed_kg field_area_hectares
           [FFloat (py_round n_from_dap 1); FText " kg N + ";
            FFloat (py_round (p_remaining st) 1); FText " kg P₂O₅"]
           (cost_per_kg dap)])
      (total_cost_acc st + dap_needed_kg * cost_per_kg dap)
      (n_remaining st - n_from_dap)
      0
      (k_remaining st))
  else Some st.

(** Step 2: MOP for potassium. *)
Definition mop_step (field_area_hectares : float) (st : EngineState) : option EngineState :=
  if 0 <? k_remaining st then
    mop <- next_fertilizer (fun f => startswith (name f) "MOP") ;;
    let mop_needed_kg := k_remaining st / k_percent mop in
    Some (mkEngineState
      (recommendations st ++
        [engine_item "MOP (Muriate of Potash)" mop_needed_kg field_area_hectares
           [FFloat (py_round (k_remaining st) 1); FText " kg K₂O"]
           (cost_per_kg mop)])
      (total_cost_acc st + mop_needed_kg * cost_per_kg mop)
      (n_remaining st)
      (p_remaining st)
      0)
  else Some st.

(** Step 3: Urea for the nitrogen still owed. *)
Definition urea_step (field_area_hectares : float) (st : EngineState) : option EngineState :=
  if 0 <? n_remaining st then
    urea <- next_fertilizer (fun f => String.eqb (name f) "Urea") ;;
    let urea_needed_kg := n_remaining st / n_percent urea in
    Some (mkEngineState
      (recommendations st ++
        [engine_item "Urea" urea_needed_kg field_area_hectares
           [FFloat (py_round (n_remaining st) 1); FText " kg N"]
           (cost_per_kg urea)])
      (total_cost_acc st + urea_needed_kg * cost_per_kg urea)
      0
      (p_remaining st)
      (k_remaining st))
  else Some st.

(** [_get_application_timing] *)
Definition _get_application_timing (n p k : float) : string :=
  let timing := [] in
  let timing :=
    if (0 <? p) || (0 <? k)
    then timing ++ ["**Basal Application** (at sowing/planting): Apply all DAP and MOP"%string]
    else timing in
  let timing :=
    if 0 <? n
    then timing ++ ["**Basal Application** (at sowing): 25-30% of Urea"%string;
                    "**First Top Dressing** (3-4 weeks after sowing): 35-40% of Urea"%string;
                    "**Second Top Dressing** (6-7 weeks after sowing): 30-35% of Urea"%string]
    else timing in
  join " | " timing.

(** [_get_application_method]: the literal, stripped. *)
Definition _get_application_method : string :=
"**Application Methods:**
- **Broadcasting**: Spread fertilizer evenly before final plowing
- **Drilling**: Place fertilizer in rows 5-7 cm deep alongside seeds
- **Band Placement**: Apply in bands 5 cm away from plant rows
- **Top Dressing**: Broadcast nitrogen fertilizer and irrigate immediately

**Important Notes:**
- Apply fertilizers on moist soil
- Incorporate fertilizers into soil to prevent loss
- Avoid direct contact with seeds
- Irrigate after top dressing to activate nutrients"%string.

(** [FertilizerRecommendationEngine.recommend_fertilizers].  The running
    [total_cost] starts as the integer 0, here the float 0. *)
Definition recommend_fertilizers
    (required_n required_p required_k field_area_hectares : float) : option Recommendations :=
  let st0 := mkEngineState [] 0 required_n required_p required_k in
  st1 <- dap_step field_area_hectares st0 ;;
  st2 <- mop_step field_area_hectares st1 ;;
  st3 <- urea_step field_area_hectares st2 ;;
  Some (mkRecommendations
          (recommendations st3)
          (py_round (total_cost_acc st3) 2)
          (_get_application_timing required_n required_p required_k)
          _get_application_method).

End FertilizerEngine.

(** ** The verified price table ([backend/ml/fertilizer_prices.py]) *)

Module FertilizerPrices.

Local Open Scope string_scope.
Local Open Scope Z_scope.

Record PriceEntry : Type := mkPriceEntry {
  entry_price_per_50kg : Z;
  npk_composition : string;
  nitrogen_percent : Z;
  phosphorus_percent : Z;
  potassium_percent : Z
}.

(** The dict literal, in source order; its keys are pairwise distinct. *)
Definition FERTILIZER_PRICES_INR : list (string * PriceEntry) :=
  [ ("Urea",           mkPriceEntry 266  "46-0-0"     46 0  0);
    ("DAP",            mkPriceEntry 1350 "18-46-0"    18 46 0);
    ("MOP",            mkPriceEntry 1700 "0-0-60"     0  0  60);
    ("NPK 10:26:26",   mkPriceEntry 1450 "10-26-26"   10 26 26);
    ("NPK 12:32:16",   mkPriceEntry 1500 "12-32-16"   12 32 16);
    ("NPK 17:17:17",   mkPriceEntry 1425 "17-17-17"   17 17 17);
    ("NPK 20:20:0:13", mkPriceEntry 1200 "20-20-0-13" 20 20 0);
    ("SSP",            mkPriceEntry 450  "0-16-0"     0  16 0) ].

(** [d[key]] when [key in d], on a dict given by its items. *)
Fixpoint dict_get {V : Type} (d : list (string * V)) (key : string) : option V :=
  match d with
  | [] => None
  | (k, v) :: rest => if String.eqb key k then Some v else dict_get rest key
  end.

(** [key in d] *)
Definition dict_mem {V : Type} (d : list (string * V)) (key : string) : bool :=
  match dict_get d key with
  | Some _ => true
  | None => false
  end.

End FertilizerPrices.

(** ** The soil improvement advisor ([backend/ml/soil_improvement.py]) *)

Module SoilImprovement.

Local Open Scope string_scope.
Local Open Scope list_scope.
Local Open Scope float_scope.

(** One advisory: a dict with four text entries. *)
Record Improvement : Type := mkImprovement {
  issue : string;
  recommendation : string;
  quantity : string;
  purpose : string
}.

(** [calculate_lime_requirement]; [int] raises when the product overflows
    to an infinity. *)
Definition calculate_lime_requirement (ph : float) : option Z :=
  let target_ph := 6.5 in
  let ph_increase_needed := target_ph - ph in
  if ph_increase_needed <=? 0 then Some 0%Z
  else
    lime_kg <- py_int (ph_increase_needed * 1000) ;;
    Some (Z.min (Z.max lime_kg 500) 3000).

(** [calculate_gypsum_requirement] *)
Definition calculate_gypsum_requirement (ph : float) : Z :=
  if ph <=? 7.5 then 0%Z
  else if 8.5 <? ph then 750%Z
  else if 8.0 <? ph then 500%Z
  else 350%Z.

Definition lime_improvement (lime_qty : Z) : Improvement :=
  mkImprovement
    "Acidic Soil (pH < 5.5)"
    "Agricultural Lime (CaCO₃)"
    (str_of_int lime_qty ++ " kg/ha")%string
    "Raise pH to neutral range (6.0-7.0), improve nutrient availability".

Definition gypsum_improvement (gypsum_qty : Z) : Improvement :=
  mkImprovement
    "Alkaline Soil (pH > 7.5)"
    "Gypsum (CaSO₄·2H₂O)"
    (str_of_int gypsum_qty ++ " kg/ha")%string
    "Lower pH, improve phosphorus availability, reduce sodicity".

Definition salinity_improvement : Improvement :=
  mkImprovement
    "High Salinity (EC > 2.0 dS/m)"
    "Gypsum + Leaching"
    "500-750 kg/ha + 7.5cm irrigation"
    "Displace sodium, improve soil structure, leach excess salts".

Definition low_oc_improvement : Improvement :=
  mkImprovement
    "Low Organic Matter (OC < 0.5%)"
    "Farmyard Manure (FYM) or Compost"
    "8-10 tonnes/ha"
    "Improve soil structure, water retention, microbial activity".

Definition moderate_oc_improvement : Improvement :=
  mkImprovement
    "Moderate Organic Matter"
    "Farmyard Manure (FYM) or Vermicompost"
    "5-7 tonnes/ha"
    "Maintain soil health, enhance nutrient cycling".

Definition low_p_improvement : Improvement :=
  mkImprovement
    "Very Low Phosphorus"
    "Rock Phosphate or Bone Meal"
    "300-400 kg/ha"
    "Long-term P availability, especially in acidic soils".

Definition green_manure_improvement : Improvement :=
  mkImprovement
    "Multiple Soil Health Issues"
    "Green Manure (Dhaincha/Sunhemp)"
    "20-25 kg seed/ha"
    "Add organic matter, fix nitrogen, break pest cycles".

Definition maintenance_improvement : Improvement :=
  mkImprovement
    "Soil Health Maintenance"
    "Farmyard Manure (FYM)"
    "3-5 tonnes/ha"
    "Maintain optimal soil conditions, sustained productivity".

(** The truth value of a float: zero is false, everything else true. *)
Definition float_truthy (x : float) : bool := negb (x =? 0).

(** The pH rule (an [if]/[elif]). *)
Definition ph_rule (ph : float) (improvements : list Improvement) : option (list Improvement) :=
  if ph <? 5.5 then
    lime_qty <- calculate_lime_requirement ph ;;
    Some (improvements ++ [lime_improvement lime_qty])
  else if 7.5 <? ph then
    let gypsum_qty := calculate_gypsum_requirement ph in
    Some (improvements ++ [gypsum_improvement gypsum_qty])
  else Some improvements.

(** [if ec and ec > 2.0] *)
Definition ec_rule (ec : option float) (improvements : list Improvement) : list Improvement :=
  match ec with
  | Some e => if float_truthy e && (2.0 <? e) then improvements ++ [salinity_improvement]
              else improvements
  | None => improvements
  end.

(** The organic carbon rule (an [if]/[elif]). *)
Definition oc_rule (organic_carbon : option float) (improvements : list Improvement)
    : list Improvement :=
  match organic_carbon with
  | Some oc =>
      if oc <? 0.5 then improvements ++ [low_oc_improvement]
      else if (0.5 <=? oc) && (oc <? 0.75) then improvements ++ [moderate_oc_improvement]
      else improvements
  | None => improvements
  end.

(** [if phosphorus is not None and phosphorus < 10] *)
Definition phosphorus_rule (phosphorus : option float) (improvements : list Improvement)
    : list Improvement :=
  match phosphorus with
  | Some p => if p <? 10 then improvements ++ [low_p_improvement] else improvements
  | None => improvements
  end.

(** [if len(improvements) >= 2] *)
Definition green_manure_rule (improvements : list Improvement) : list Improvement :=
  if (2 <=? List.length improvements)%nat then improvements ++ [green_manure_improvement]
  else improvements.

(** [if not improvements] *)
Definition maintenance_rule (improvements : list Improvement) : list Improvement :=
  match improvements with
  | [] => improvements ++ [maintenance_improvement]
  | _ => improvements
  end.

(** The list accumulated by the threshold rules, before the two closing
    rules look at it. *)
Definition threshold_rules (ph : float) (ec organic_carbon phosphorus : option float)
    : option (list Improvement) :=
  improvements <- ph_rule ph [] ;;
  let improvements := ec_rule ec improvements in
  let improvements := oc_rule organic_carbon improvements in
  let improvements := phosphorus_rule phosphorus improvements in
  Some improvements.

(** [get_soil_improvements]; [nitrogen] and [potassium] are accepted and
    not read. *)
Definition get_soil_improvements (ph : float)
    (ec organic_carbon nitrogen phosphorus potassium : option float)
    : option (list Improvement) :=
  improvements <- threshold_rules ph ec organic_carbon phosphorus ;;
  let improvements := green_manure_rule improvements in
  let improvements := maintenance_rule improvements in
  Some improvements.

End SoilImprovement.

(** ** The crop application scheduler ([backend/ml/crop_schedules.py]) *)

Module CropSchedules.

Import PyStr.
Local Open Scope string_scope.

(** One stage: a dict; [quantity_percent] is an [int] in most stages and a
    [float] in two. *)
Record Stage : Type := mkStage {
  stage : string;
  time : string;
  stage_fertilizer : string;
  quantity_percent : pynum;
  stage_note : string
}.

Definition get_rice_schedule : list Stage :=
  [ mkStage "Basal (At transplanting)" "Day 0" "DAP + MOP" (PyInt 100)
      "Apply 1 day before transplanting";
    mkStage "First Top Dressing" "20-25 days after transplanting" "Urea" (PyInt 50)
      "Apply during active tillering stage";
    mkStage "Second Top Dressing" "40-45 days after transplanting" "Urea" (PyInt 50)
      "Apply before panicle initiation" ].

Definition get_wheat_schedule : list Stage :=
  [ mkStage "Basal (At sowing)" "Day 0" "DAP + MOP + Urea (33%)" (PyInt 33)
      "Apply with seed drill or broadcast before sowing";
    mkStage "Crown Root Initiation" "21 days after sowing" "Urea" (PyInt 33)
      "First irrigation + fertilizer application";
    mkStage "Late Jointing/Booting" "40-45 days after sowing" "Urea" (PyInt 34)
      "Second irrigation + final N application" ].

Definition get_maize_schedule : list Stage :=
  [ mkStage "Basal (At sowing)" "Day 0" "DAP + MOP" (PyInt 100)
      "Apply 5-7cm below and beside seed";
    mkStage "Knee-High Stage" "25-30 days after sowing" "Urea" (PyInt 50)
      "Side dress before first irrigation";
    mkStage "Pre-Tasseling" "45-50 days after sowing" "Urea" (PyInt 50)
      "Apply before flowering for good cob development" ].

Definition get_cotton_schedule : list Stage :=
  [ mkStage "Basal (At sowing)" "Day 0" "DAP + MOP + Urea (25%)" (PyInt 25)
      "Apply in furrows before sowing";
    mkStage "Square Formation" "30-35 days after sowing" "Urea" (PyFloat 37.5)
      "Apply with first irrigation";
    mkStage "Flowering Stage" "60-65 days after sowing" "Urea" (PyFloat 37.5)
      "Apply during peak flowering" ].

Definition get_sugarcane_schedule : list Stage :=
  [ mkStage "Basal (At planting)" "Day 0" "DAP + MOP" (PyInt 100)
      "Apply in furrows, mix with soil";
    mkStage "Tillering Stage" "30-40 days after planting" "Urea" (PyInt 50)
      "Apply and earthing up";
    mkStage "Grand Growth" "90-120 days after planting" "Urea" (PyInt 50)
      "Apply before rapid cane elongation" ].

Definition get_potato_schedule : list Stage :=
  [ mkStage "Basal (At planting)" "Day 0" "DAP + MOP + Urea (33%)" (PyInt 33)
      "Apply in furrows, cover with soil";
    mkStage "Earthing Up" "25-30 days after planting" "Urea" (PyInt 33)
      "Apply and earth up ridges";
    mkStage "Tuber Bulking" "45-50 days after planting" "Urea + MOP" (PyInt 34)
      "Final application for tuber development" ].

Definition get_tomato_schedule : list Stage :=
  [ mkStage "Basal (Before transplanting)" "Day -1" "DAP + MOP" (PyInt 100)
      "Apply and incorporate into beds";
    mkStage "Vegetative Growth" "15-20 days after transplanting" "Urea" (PyInt 33)
      "Apply around plants, avoid stem contact";
    mkStage "Flowering & Fruiting" "35-40 days after transplanting" "Urea" (PyInt 67)
      "Split into 2 applications during fruit development" ].

Definition get_default_schedule : list Stage :=
  [ mkStage "Basal (At sowing/planting)" "Day 0" "DAP + MOP" (PyInt 100)
      "Apply before or at planting";
    mkStage "First Top Dressing" "3-4 weeks after planting" "Urea" (PyInt 50)
      "Apply during active vegetative growth";
    mkStage "Second Top Dressing" "6-7 weeks after planting" "Urea" (PyInt 50)
      "Apply before flowering/fruiting" ].

(** [get_application_schedule] *)
Definition get_application_schedule (crop_name : string) (total_n total_p total_k : float)
    : list Stage :=
  let crop_lower := lower crop_name in
  if contains "rice" crop_lower || contains "paddy" crop_lower then get_rice_schedule
  else if contains "wheat" crop_lower then get_wheat_schedule
  else if contains "maize" crop_lower || contains "corn" crop_lower then get_maize_schedule
  else if contains "cotton" crop_lower then get_cotton_schedule
  else if contains "sugarcane" crop_lower then get_sugarcane_schedule
  else if contains "potato" crop_lower then get_potato_schedule
  else if contains "tomato" crop_lower then get_tomato_schedule
  else get_default_schedule.

End CropSchedules.

(** ** Repricing and the biofertilizer item ([backend/routes/recommendations.py]) *)

Module Recommendations.

Import PyStr FertilizerEngine FertilizerPrices SoilImprovement CropSchedules.
Local Open Scope string_scope.
Local Open Scope list_scope.
Local Open Scope float_scope.

(** The text stored as the price of a product the table does not list. *)
Definition PRICE_NOT_AVAILABLE : string := "Govt. price not available".

(** [fert['fertilizer'].split('(')[0].strip()] *)
Definition base_name (display_name : string) : string :=
  strip (split_head "("%char display_name).

(** The body of the repricing loop for one line item, with the running
    total it reads and updates.  [math.ceil] runs before the table is
    looked at, on every item. *)
Definition reprice_item (field_area : float) (fert : LineItem)
    (recalculated_total_cost : float) : option (LineItem * float) :=
  let fert_name := base_name (fertilizer fert) in
  let fert :=
    match quantity_total fert with
    | Some _ => fert
    | None => set_quantity_total (quantity_kg_per_hectare fert * field_area) fert
    end in
  let quantity_total_kg :=
    match quantity_total fert with
    | Some q => q
    | None => quantity_kg_per_hectare fert * field_area
    end in
  bags_required <- py_ceil (quantity_total_kg / 50) ;;
  match dict_get FERTILIZER_PRICES_INR fert_name with
  | Some entry =>
      let price := entry_price_per_50kg entry in
      let fert := set_price_per_50kg (PriceInt price) fert in
      let fert := set_cost (PyInt (bags_required * price)) fert in
      let fert := set_is_verified true fert in
      cost_as_float <- float_of_int (bags_required * price) ;;
      Some (fert, recalculated_total_cost + cost_as_float)
  | None =>
      let fert := set_price_per_50kg (PriceText PRICE_NOT_AVAILABLE) fert in
      let fert := set_cost (PyInt 0) fert in
      let fert := set_is_verified false fert in
      let fert := set_note "Price not verified by Govt of India" fert in
      Some (fert, recalculated_total_cost)
  end.

(** [for fert in fertilizer_recommendations['fertilizers']: ...] *)
Fixpoint reprice_loop (field_area : float) (ferts : list LineItem)
    (recalculated_total_cost : float) : option (list LineItem * float) :=
  match ferts with
  | [] => Some ([], recalculated_total_cost)
  | fert :: rest =>
      r <- reprice_item field_area fert recalculated_total_cost ;;
      rs <- reprice_loop field_area rest (snd r) ;;
      Some (fst r :: fst rs, snd rs)
  end.

(** The dict appended when the soil is low in organic carbon. *)
Definition biofertilizer_item (field_area : float) : LineItem :=
  mkLineItem
    "Biofertilizer (Rhizobium/Azotobacter)"
    2.0
    0.81
    (Some (2.0 * field_area))
    [FText "Nitrogen fixing, Organic carbon boost"]
    (PyInt 0)
    (Some (PriceText PRICE_NOT_AVAILABLE))
    (Some false)
    None
    (Some "Seed Treatment").

(** [soil_data.organic_carbon is not None and soil_data.organic_carbon < 0.75] *)
Definition biofertilizer_condition (organic_carbon : option float) : bool :=
  match organic_carbon with
  | Some oc => oc <? 0.75
  | None => false
  end.

(** Lines 137-185 of [generate_recommendation]: the repricing loop, then
    the conditional biofertilizer item, then the total cost is replaced.
    Returns the updated dict and [biofertilizer_needed]. *)
Definition price_fertilizers (fertilizer_recommendations : Recommendations)
    (field_area : float) (organic_carbon : option float)
    : option (Recommendations * bool) :=
  let recalculated_total_cost := 0.0 in
  r <- reprice_loop field_area (fertilizers fertilizer_recommendations)
         recalculated_total_cost ;;
  let ferts := fst r in
  let recalculated_total_cost := snd r in
  let biofertilizer_needed := biofertilizer_condition organic_carbon in
  let ferts :=
    if biofertilizer_needed then ferts ++ [biofertilizer_item field_area] else ferts in
  Some (mkRecommendations ferts recalculated_total_cost
          (application_timing fertilizer_recommendations)
          (application_method fertilizer_recommendations),
        biofertilizer_needed).

(** The fields of the farmer and soil records the computation reads. *)
Record Farmer : Type := mkFarmer {
  crop_name : string;
  field_area : float
}.

Record SoilData : Type := mkSoilData {
  nitrogen : float;
  phosphorus : float;
  potassium : float;
  ph : float;
  ec : option float;
  organic_carbon : option float
}.

(** What the route stores beside the recommendation. *)
Record AdditionalData : Type := mkAdditionalData {
  soil_improvements : list Improvement;
  application_schedule : list Stage;
  fertilizer_details : list LineItem;
  biofertilizer_recommended : bool
}.

(** The computation of [generate_recommendation] from the predicted
    requirements on: the engine, the advisor, the scheduler, repricing.  The
    database, the predictor, the weather lookup and the reasoning text are
    outside the model; the predictor's result is an argument, here as
    Python floats ([NumberType.generate_recommendation_as] takes the number
    type as an argument). *)
Definition generate_recommendation (farmer : Farmer) (soil_data : SoilData)
    (required_n required_p required_k : float)
    : option (Recommendations * AdditionalData) :=
  fertilizer_recommendations <-
    recommend_fertilizers required_n required_p required_k (field_area farmer) ;;
  soil_improvements <-
    get_soil_improvements (ph soil_data) (ec soil_data) (organic_carbon soil_data)
      (Some (nitrogen soil_data)) (Some (phosphorus soil_data))
      (Some (potassium soil_data)) ;;
  let application_schedule :=
    get_application_schedule (crop_name farmer) required_n required_p required_k in
  priced <- price_fertilizers fertilizer_recommendations (field_area farmer)
              (organic_carbon soil_data) ;;
  Some (fst priced,
        mkAdditionalData soil_improvements application_schedule
          (fertilizers (fst priced)) (snd priced)).

End Recommendations.

(** ** Observations on results, used to state the properties *)

Module Observe.

Import FertilizerEngine Recommendations.
Local Open Scope string_scope.
Local Open Scope float_scope.

Definition DAP_NAME : string := "DAP (Diammonium Phosphate)".
Definition MOP_NAME : string := "MOP (Muriate of Potash)".
Definition UREA_NAME : string := "Urea".

(** Some line item of the list carries this display name. *)
Definition emits (display_name : string) (ferts : list LineItem) : bool :=
  existsb (fun it => String.eqb (fertilizer it) display_name) ferts.

(** The locals of [recommend_fertilizers] before step 1. *)
Definition initial_state (required_n required_p required_k : float) : EngineState :=
  mkEngineState [] 0 required_n required_p required_k.

(** The float a cost entry stands for when it is added to a float total. *)
Definition cost_to_float (c : pynum) : float :=
  match c with
  | PyInt z => Z2float z
  | PyFloat f => f
  end.

Definition verified (it : LineItem) : bool :=
  match is_verified it with
  | Some true => true
  | _ => false
  end.

(** Left-to-right float sum of the costs of the verified items, from [acc]. *)
Definition sum_verified_costs (acc : float) (ferts : list LineItem) : float :=
  fold_left (fun a it => a + cost_to_float (cost it)) (filter verified ferts) acc.

(** Kilograms of DAP per hectare that meet a phosphorus requirement, and
    the nitrogen that much DAP carries (DAP is 18-46-0). *)
Definition dap_needed_kg (required_p : float) : float := required_p / 0.46.
Definition n_from_dap (required_p : float) : float := dap_needed_kg required_p * 0.18.

(** The nitrogen still owed when step 3 is reached. *)
Definition nitrogen_after_dap (required_n required_p : float) : float :=
  if 0 <? required_p then required_n - n_from_dap required_p else required_n.

(** The three line items the engine can append. *)
Definition dap_item (field_area required_p : float) : LineItem :=
  engine_item DAP_NAME (dap_needed_kg required_p) field_area
    [FFloat (py_round (n_from_dap required_p) 1); FText " kg N + ";
     FFloat (py_round required_p 1); FText " kg P₂O₅"] 27.

Definition mop_item (field_area required_k : float) : LineItem :=
  engine_item MOP_NAME (required_k / 0.6) field_area
    [FFloat (py_round required_k 1); FText " kg K₂O"] 17.

Definition urea_item (field_area n_owed : float) : LineItem :=
  engine_item UREA_NAME (n_owed / 0.46) field_area
    [FFloat (py_round n_owed 1); FText " kg N"] 6.

(** The items of a run, step by step. *)
Definition engine_items (required_n required_p required_k field_area : float)
    : list LineItem :=
  (if 0 <? required_p then [dap_item field_area required_p] else []) ++
  (if 0 <? required_k then [mop_item field_area required_k] else []) ++
  (if 0 <? nitrogen_after_dap required_n required_p
   then [urea_item field_area (nitrogen_after_dap required_n required_p)] else []).

(** The result of Scenario A (an empty result if the engine raised). *)
Definition scenario_A : Recommendations :=
  match recommend_fertilizers 120 60 30 1 with
  | Some r => r
  | None => mkRecommendations [] 0 "" ""
  end.

(** The quantity the repricing loop prices an item at: the item's total,
    computed from the per-hectare quantity when the key is absent. *)
Definition priced_quantity (field_area : float) (it : LineItem) : float :=
  match quantity_total it with
  | Some q => q
  | None => quantity_kg_per_hectare it * field_area
  end.

(** What the repricing loop leaves of the item [it], as [it']. *)
Definition repriced (field_area : float) (it it' : LineItem) : Prop :=
  exists bags : Z,
    py_ceil (priced_quantity field_area it / 50) = Some bags /\
    fertilizer it' = fertilizer it /\
    quantity_kg_per_hectare it' = quantity_kg_per_hectare it /\
    quantity_total it' = Some (priced_quantity field_area it) /\
    match FertilizerPrices.dict_get FertilizerPrices.FERTILIZER_PRICES_INR
            (base_name (fertilizer it)) with
    | Some entry =>
        price_per_50kg it' = Some (PriceInt (FertilizerPrices.entry_price_per_50kg entry)) /\
        cost it' = PyInt (bags * FertilizerPrices.entry_price_per_50kg entry) /\
        is_verified it' = Some true
    | None =>
        price_per_50kg it' = Some (PriceText PRICE_NOT_AVAILABLE) /\
        cost it' = PyInt 0 /\
        is_verified it' = Some false
    end.

(** The loop body raises on [it]: [math.ceil] of a NaN or an infinity, or a
    cost too large to be added to the float total. *)
Definition reprice_raises (field_area : float) (it : LineItem) : Prop :=
  py_ceil (priced_quantity field_area it / 50) = None \/
  exists (bags : Z) (entry : FertilizerPrices.PriceEntry),
    py_ceil (priced_quantity field_area it / 50) = Some bags /\
    FertilizerPrices.dict_get FertilizerPrices.FERTILIZER_PRICES_INR
      (base_name (fertilizer it)) = Some entry /\
    float_of_int (bags * FertilizerPrices.entry_price_per_50kg entry) = None.

(** Scenario F: a product the price table does not list, 100 kg on one
    hectare. *)
Definition unlisted_item : LineItem :=
  engine_item "NPK 29-5-5" 100 1 [] 0.


(** An item the repricing loop has priced from the table. *)
Definition priced_from_table (it it' : LineItem) : Prop :=
  fertilizer it' = fertilizer it /\
  is_verified it' = Some true /\
  exists z : Z, price_per_50kg it' = Some (PriceInt z).

(** The display name is one of the engine's three, and its base name is a
    key of the price table. *)
Definition engine_name_listed (it : LineItem) : Prop :=
  (fertilizer it = DAP_NAME \/ fertilizer it = MOP_NAME \/ fertilizer it = UREA_NAME) /\
  FertilizerPrices.dict_mem FertilizerPrices.FERTILIZER_PRICES_INR
    (base_name (fertilizer it)) = true.

(** The crop words [get_application_schedule] looks for, in the order of
    its branches. *)
Definition crop_keywords : list string :=
  ["rice"; "paddy"; "wheat"; "maize"; "corn"; "cotton"; "sugarcane"; "potato"; "tomato"].

(** What a stage says about the split: fertilizer class, percentage, time. *)
Definition stage_split (s : CropSchedules.Stage) : string * pynum * string :=
  (CropSchedules.stage_fertilizer s, CropSchedules.quantity_percent s, CropSchedules.time s).

(** An advisory that only a threshold rule can produce: its issue is
    neither of the two closing advisories'. *)
Definition threshold_issue (i : SoilImprovement.Improvement) : bool :=
  negb (String.eqb (SoilImprovement.issue i)
          (SoilImprovement.issue SoilImprovement.green_manure_improvement)) &&
  negb (String.eqb (SoilImprovement.issue i)
          (SoilImprovement.issue SoilImprovement.maintenance_improvement)).

End Observe.

(** ** The nutrient predictor's result and narrative ([backend/ml/inference.py]) *)

Module Inference.

Local Open Scope string_scope.
Local Open Scope list_scope.
Local Open Scope float_scope.

(** [max(0, x)]: the second argument replaces the first only when it is
    greater; the integer 0 is the float 0 here. *)
Definition max0 (x : float) : float := if 0 <? x then x else 0.

(** The end of [predict_nutrients]: the model's three outputs, clamped.
    The trained model and its encoders are outside the embedding; the
    model's output is the argument. *)
Definition predict_nutrients (prediction : float * float * float) : float * float * float :=
  let '(out_n, out_p, out_k) := prediction in
  let required_n := max0 out_n in
  let required_p := max0 out_p in
  let required_k := max0 out_k in
  (required_n, required_p, required_k).

(** [format(x, '.1f')]: the exact value rounded to one decimal (ties to
    even) and printed in positional notation. *)
Definition format_1f (x : float) : string :=
  match Prim2SF x with
  | S754_zero s => if s then "-0.0" else "0.0"
  | S754_infinity s => if s then "-inf" else "inf"
  | S754_nan => "nan"
  | S754_finite s m e =>
      let tenths := rhe_div (Z.pos m * 10 * 2 ^ Z.max e 0) (2 ^ Z.max (- e) 0) in
      (if s then "-" else "") ++ str_of_int (tenths / 10) ++ "." ++ str_of_int (tenths mod 10)
  end.

(** The soil values [generate_reasoning] reads from its dict; the route
    fills nitrogen, phosphorus, potassium and pH with floats, and [ec] with
    a float or [None]. *)
Record SoilValues : Type := mkSoilValues {
  sv_nitrogen : float;
  sv_phosphorus : float;
  sv_potassium : float;
  sv_ph : float;
  sv_ec : option float
}.

Definition nitrogen_line (nitrogen : float) : string :=
  if nitrogen <? 20 then
    "- Nitrogen level (" ++ format_1f nitrogen ++
    " mg/kg) is LOW. Soil requires significant nitrogen supplementation."
  else if nitrogen <? 30 then
    "- Nitrogen level (" ++ format_1f nitrogen ++
    " mg/kg) is MODERATE. Some nitrogen fertilization recommended."
  else
    "- Nitrogen level (" ++ format_1f nitrogen ++
    " mg/kg) is HIGH. Minimal nitrogen needed.".

Definition phosphorus_line (phosphorus : float) : string :=
  if phosphorus <? 15 then
    "- Phosphorus level (" ++ format_1f phosphorus ++
    " mg/kg) is LOW. Adequate P fertilization is critical."
  else if phosphorus <? 25 then
    "- Phosphorus level (" ++ format_1f phosphorus ++
    " mg/kg) is MODERATE. Balanced P application needed."
  else
    "- Phosphorus level (" ++ format_1f phosphorus ++
    " mg/kg) is HIGH. Maintenance dose sufficient.".

Definition potassium_line (potassium : float) : string :=
  if potassium <? 15 then
    "- Potassium level (" ++ format_1f potassium ++
    " mg/kg) is LOW. K fertilizer essential for crop quality."
  else if potassium <? 25 then
    "- Potassium level (" ++ format_1f potassium ++
    " mg/kg) is MODERATE. Standard K dose recommended."
  else
    "- Potassium level (" ++ format_1f potassium ++
    " mg/kg) is HIGH. Reduced K application acceptable.".

Definition acidic_line (ph : float) : string :=
  "- Soil pH (" ++ format_1f ph ++
  ") is ACIDIC. Consider liming to improve nutrient availability.".

Definition alkaline_line (ph : float) : string :=
  "- Soil pH (" ++ format_1f ph ++ ") is ALKALINE. May affect phosphorus availability.".

Definition neutral_line (ph : float) : string :=
  "- Soil pH (" ++ format_1f ph ++ ") is NEUTRAL. Optimal for nutrient uptake.".

Definition ph_line (ph : float) : string :=
  if ph <? 5.5 then acidic_line ph
  else if 7.5 <? ph then alkaline_line ph
  else neutral_line ph.

Definition ec_high_line (ec : float) : string :=
  "- Electrical Conductivity (" ++ format_1f ec ++
  " dS/m) is HIGH. Saline stress may occur; potassium helps tolerance.".

(** [if ec and ec > 2.0: reasoning_parts.append(...)] *)
Definition ec_lines (ec : option float) : list string :=
  match ec with
  | Some e => if SoilImprovement.float_truthy e && (2.0 <? e) then [ec_high_line e] else []
  | None => []
  end.

(** The list [reasoning_parts] at the end of [generate_reasoning]. *)
Definition reasoning_parts (soil_data : SoilValues) (crop season : string)
    (required_n required_p required_k : float) : list string :=
  ([ ("**Soil Analysis for " ++ crop ++ " (" ++ season ++ " season)**
")%string;
     nitrogen_line (sv_nitrogen soil_data);
     phosphorus_line (sv_phosphorus soil_data);
     potassium_line (sv_potassium soil_data);
     ph_line (sv_ph soil_data) ]
   ++ ec_lines (sv_ec soil_data)
   ++ [ "
**Recommended Nutrients (kg/ha):**"%string;
        ("- Nitrogen (N): " ++ format_1f required_n ++ " kg/ha")%string;
        ("- Phosphorus (P₂O₅): " ++ format_1f required_p ++ " kg/ha")%string;
        ("- Potassium (K₂O): " ++ format_1f required_k ++ " kg/ha")%string ])%list.

(** [NutrientPredictor.generate_reasoning] *)
Definition generate_reasoning (soil_data : SoilValues) (crop season : string)
    (required_n required_p required_k : float) : string :=
  PyStr.join "
" (reasoning_parts soil_data crop season required_n required_p required_k).

End Inference.

(** ** The engine and the route on the caller's number type

    What [round(x, ndigits)] computes depends on the type of [x]: on a
    Python [float] it is CPython's correctly rounded [py_round], on a
    [numpy.float64] it is numpy's [np_round].  A caller that passes Python
    floats to [recommend_fertilizers] gets [FertilizerEngine]'s results.  The
    route passes what [predict_nutrients] returns, entries of a numpy array
    wherever they are positive, so every value the engine and the route
    round there is a [numpy.float64].  No other operation of the code
    depends on the type: comparison, arithmetic, [math.ceil] and the
    conversions behave alike on both.  The definitions of this module are
    those of [FertilizerEngine], [Observe] and [Recommendations] with the
    type as an argument. *)

Module NumberType.

Import PyStr FertilizerEngine FertilizerPrices SoilImprovement CropSchedules.
Import Recommendations Observe.
Local Open Scope string_scope.
Local Open Scope list_scope.
Local Open Scope float_scope.

Inductive float_type : Type :=
| python_float
| numpy_float64.

(** [round(x, ndigits)] on a value of the type. *)
Definition round_as (ty : float_type) (x : float) (ndigits : Z) : float :=
  match ty with
  | python_float => py_round x ndigits
  | numpy_float64 => np_round x ndigits
  end.

(** The dict literal each step appends. *)
Definition engine_item_as (ty : float_type) (nm : string)
    (needed_kg field_area_hectares : float) (prov : fstring) (cost_kg : float) : LineItem :=
  mkLineItem nm
    (round_as ty needed_kg 2)
    (round_as ty (needed_kg * 0.4047) 2)
    (Some (round_as ty (needed_kg * field_area_hectares) 2))
    prov
    (PyFloat (round_as ty (needed_kg * cost_kg) 2))
    None None None None.

(** Step 1: DAP for phosphorus; it also supplies some nitrogen. *)
Definition dap_step_as (ty : float_type) (field_area_hectares : float) (st : EngineState)
    : option EngineState :=
  if 0 <? p_remaining st then
    dap <- next_fertilizer (fun f => startswith (name f) "DAP") ;;
    let dap_needed_kg := p_remaining st / p_percent dap in
    let n_from_dap := dap_needed_kg * n_percent dap in
    Some (mkEngineState
      (recommendations st ++
        [engine_item_as ty "DAP (Diammonium Phosphate)" dap_needed_kg field_area_hectares
           [FFloat (round_as ty n_from_dap 1); FText " kg N + ";
            FFloat (round_as ty (p_remaining st) 1); FText " kg P₂O₅"]
           (cost_per_kg dap)])
      (total_cost_acc st + dap_needed_kg * cost_per_kg dap)
      (n_remaining st - n_from_dap)
      0
      (k_remaining st))
  else Some st.

(** Step 2: MOP for potassium. *)
Definition mop_step_as (ty : float_type) (field_area_hectares : float) (st : EngineState)
    : option EngineState :=
  if 0 <? k_remaining st then
    mop <- next_fertilizer (fun f => startswith (name f) "MOP") ;;
    let mop_needed_kg := k_remaining st / k_percent mop in
    Some (mkEngineState
      (recommendations st ++
        [engine_item_as ty "MOP (Muriate of Potash)" mop_needed_kg field_area_hectares
           [FFloat (round_as ty (k_remaining st) 1); FText " kg K₂O"]
           (cost_per_kg mop)])
      (total_cost_acc st + mop_needed_kg * cost_per_kg mop)
      (n_remaining st)
      (p_remaining st)
      0)
  else Some st.

(** Step 3: Urea for the nitrogen still owed. *)
Definition urea_step_as (ty : float_type) (field_area_hectares : float) (st : EngineState)
    : option EngineState :=
  if 0 <? n_remaining st then
    urea <- next_fertilizer (fun f => String.eqb (name f) "Urea") ;;
    let urea_needed_kg := n_remaining st / n_percent urea in
    Some (mkEngineState
      (recommendations st ++
        [engine_item_as ty "Urea" urea_needed_kg field_area_hectares
           [FFloat (round_as ty (n_remaining st) 1); FText " kg N"]
           (cost_per_kg urea)])
      (total_cost_acc st + urea_needed_kg * cost_per_kg urea)
      0
      (p_remaining st)
      (k_remaining st))
  else Some st.

(** [FertilizerRecommendationEngine.recommend_fertilizers] on requirements
    of the type.  The running [total_cost] starts as the integer 0, here the
    float 0, which either rounding leaves as it is. *)
Definition recommend_fertilizers_as (ty : float_type)
    (required_n required_p required_k field_area_hectares : float) : option Recommendations :=
  let st0 := mkEngineState [] 0 required_n required_p required_k in
  st1 <- dap_step_as ty field_area_hectares st0 ;;
  st2 <- mop_step_as ty field_area_hectares st1 ;;
  st3 <- urea_step_as ty field_area_hectares st2 ;;
  Some (mkRecommendations
          (recommendations st3)
          (round_as ty (total_cost_acc st3) 2)
          (_get_application_timing required_n required_p required_k)
          _get_application_method).

(** The three line items the engine can append, and the items of a run,
    as in [Observe]. *)
Definition dap_item_as (ty : float_type) (field_area required_p : float) : LineItem :=
  engine_item_as ty DAP_NAME (dap_needed_kg required_p) field_area
    [FFloat (round_as ty (n_from_dap required_p) 1); FText " kg N + ";
     FFloat (round_as ty required_p 1); FText " kg P₂O₅"] 27.

Definition mop_item_as (ty : float_type) (field_area required_k : float) : LineItem :=
  engine_item_as ty MOP_NAME (required_k / 0.6) field_area
    [FFloat (round_as ty required_k 1); FText " kg K₂O"] 17.

Definition urea_item_as (ty : float_type) (field_area n_owed : float) : LineItem :=
  engine_item_as ty UREA_NAME (n_owed / 0.46) field_area
    [FFloat (round_as ty n_owed 1); FText " kg N"] 6.

Definition engine_items_as (ty : float_type)
    (required_n required_p required_k field_area : float) : list LineItem :=
  (if 0 <? required_p then [dap_item_as ty field_area required_p] else []) ++
  (if 0 <? required_k then [mop_item_as ty field_area required_k] else []) ++
  (if 0 <? nitrogen_after_dap required_n required_p
   then [urea_item_as ty field_area (nitrogen_after_dap required_n required_p)] else []).

(** The computation of [generate_recommendation] from the predicted
    requirements on, with requirements of the type. *)
Definition generate_recommendation_as (ty : float_type) (farmer : Farmer)
    (soil_data : SoilData) (required_n required_p required_k : float)
    : option (Recommendations * AdditionalData) :=
  fertilizer_recommendations <-
    recommend_fertilizers_as ty required_n required_p required_k (field_area farmer) ;;
  soil_improvements <-
    get_soil_improvements (ph soil_data) (ec soil_data) (organic_carbon soil_data)
      (Some (nitrogen soil_data)) (Some (phosphorus soil_data))
      (Some (potassium soil_data)) ;;
  let application_schedule :=
    get_application_schedule (crop_name farmer) required_n required_p required_k in
  priced <- price_fertilizers fertilizer_recommendations (field_area farmer)
              (organic_carbon soil_data) ;;
  Some (fst priced,
        mkAdditionalData soil_improvements application_schedule
          (fertilizers (fst priced)) (snd priced)).

End NumberType.

(** ** What the route stores ([backend/routes/recommendations.py]) *)

Module StoredRecord.

Import FertilizerEngine Recommendations NumberType.
Local Open Scope string_scope.
Local Open Scope list_scope.
Local Open Scope float_scope.

(** [sum(xs)] over floats: from the integer 0, left to right, one binary64
    addition per item.  This is what [sum] does on numpy.float64 items,
    which the route sums (on a list of Python floats [sum] compensates the
    rounding errors from Python 3.12 on). *)
Definition py_sum (xs : list float) : float := fold_left (fun acc x => acc + x) xs 0.

(** [x or default] on an optional float: the default replaces [None] and
    zero. *)
Definition or_default (x : option float) (default : float) : float :=
  match x with
  | Some v => if SoilImprovement.float_truthy v then v else default
  | None => default
  end.

(** The keyword arguments [generate_recommendation] passes to
    [predict_nutrients]. *)
Record PredictorInput : Type := mkPredictorInput {
  in_nitrogen : float;
  in_phosphorus : float;
  in_potassium : float;
  in_ph : float;
  in_ec : float;
  in_moisture : float
}.

(** The soil record as stored: every measurement may be missing. *)
Record SoilRow : Type := mkSoilRow {
  row_nitrogen : option float;
  row_phosphorus : option float;
  row_potassium : option float;
  row_ph : option float;
  row_ec : option float;
  row_moisture : option float;
  row_organic_carbon : option float
}.

(** The HTTP errors [generate_recommendation] raises itself. *)
Inductive http_error : Type :=
| NotFound_farmer
| NotFound_soil_data
| BadRequest_missing_values.

(** Lines 27-68: the two lookups, the check that N, P, K and pH are
    present, and the predictor's arguments with the defaults for EC and
    moisture.  The database is outside the embedding: the results of the
    two lookups are arguments. *)
Definition predictor_input (farmer : option Farmer) (soil_data : option SoilRow)
    : http_error + (Farmer * SoilRow * PredictorInput) :=
  match farmer with
  | None => inl NotFound_farmer
  | Some farmer =>
      match soil_data with
      | None => inl NotFound_soil_data
      | Some row =>
          match row_nitrogen row, row_phosphorus row, row_potassium row, row_ph row with
          | Some n, Some p, Some k, Some ph_value =>
              inr (farmer, row,
                   mkPredictorInput n p k ph_value
                     (or_default (row_ec row) 1.0)
                     (or_default (row_moisture row) 30.0))
          | _, _, _, _ => inl BadRequest_missing_values
          end
      end
  end.

(** The columns of the stored recommendation that are computed from the
    engine's result; [reasoning] (free text and JSON) is left out. *)
Record StoredFields : Type := mkStoredFields {
  fertilizer_name : string;
  stored_quantity_kg_per_hectare : float;
  stored_quantity_kg_per_acre : float;
  stored_application_timing : string;
  stored_application_method : string;
  estimated_cost : float
}.

(** Lines 80-82: computed from the engine's items, before repricing and
    before the biofertilizer item is appended. *)
Definition fertilizer_names (engine_result : Recommendations) : string :=
  PyStr.join ", " (map fertilizer (fertilizers engine_result)).

Definition total_quantity_per_hectare (engine_result : Recommendations) : float :=
  py_sum (map quantity_kg_per_hectare (fertilizers engine_result)).

(** Lines 197-210: the record, from the engine's result and the priced
    result, with values of the type.  With no item the sum is the integer
    0, which [round] returns as it is; so do both roundings of the float
    0. *)
Definition stored_fields (ty : float_type) (engine_result priced : Recommendations)
    : StoredFields :=
  let total_quantity_per_acre := total_quantity_per_hectare engine_result * 0.4047 in
  mkStoredFields
    (fertilizer_names engine_result)
    (round_as ty (total_quantity_per_hectare engine_result) 2)
    (round_as ty total_quantity_per_acre 2)
    (application_timing priced)
    (application_method priced)
    (total_cost priced).

(** [generate_recommendation] from the predicted requirements to the stored
    columns and the additional data, with requirements of the type: the
    route runs it on [numpy_float64]. *)
Definition generate_recommendation_stored_as (ty : float_type) (farmer : Farmer)
    (soil_data : SoilData) (required_n required_p required_k : float)
    : option (StoredFields * AdditionalData) :=
  engine_result <-
    recommend_fertilizers_as ty required_n required_p required_k (field_area farmer) ;;
  result <-
    generate_recommendation_as ty farmer soil_data required_n required_p required_k ;;
  Some (stored_fields ty engine_result (fst result), snd result).

(** The same on Python floats, with [FertilizerEngine]'s engine. *)
Definition generate_recommendation_stored (farmer : Farmer) (soil_data : SoilData)
    (required_n required_p required_k : float)
    : option (StoredFields * AdditionalData) :=
  engine_result <-
    recommend_fertilizers required_n required_p required_k (field_area farmer) ;;
  result <- generate_recommendation farmer soil_data required_n required_p required_k ;;
  Some (stored_fields python_float engine_result (fst result), snd result).

End StoredRecord.

(** ** Further observations, used to state properties beyond the claims *)

Module Observe2.

Import FertilizerEngine Recommendations Observe.
Local Open Scope string_scope.
Local Open Scope list_scope.
Local Open Scope float_scope.

(** The engine's running cost total after the three steps. *)
Definition engine_total (required_n required_p required_k : float) : float :=
  let t := 0 in
  let t := if 0 <? required_p then t + dap_needed_kg required_p * 27 else t in
  let t := if 0 <? required_k then t + required_k / 0.6 * 17 else t in
  if 0 <? nitrogen_after_dap required_n required_p
  then t + nitrogen_after_dap required_n required_p / 0.46 * 6
  else t.

(** What an engine item says apart from its total quantity. *)
Definition per_hectare_fields (it : LineItem) : string * float * float * fstring * pynum :=
  (fertilizer it, quantity_kg_per_hectare it, quantity_kg_per_acre it, provides it, cost it).

(** The quantity an item carries as its total, NaN when the key is absent. *)
Definition total_or_nan (it : LineItem) : float :=
  match quantity_total it with
  | Some q => q
  | None => nan
  end.

(** The percentage of a stage as a float. *)
Definition percent_to_float (s : CropSchedules.Stage) : float :=
  cost_to_float (CropSchedules.quantity_percent s).

(** The stage applies Urea. *)
Definition applies_urea (s : CropSchedules.Stage) : bool :=
  PyStr.contains "Urea" (CropSchedules.stage_fertilizer s).

(** The percentages of the stages that apply Urea, added up. *)
Definition urea_percent_total (schedule : list CropSchedules.Stage) : float :=
  StoredRecord.py_sum (map percent_to_float (filter applies_urea schedule)).

(** The advisory is the lime, the gypsum, an organic matter advisory. *)
Definition is_lime (i : SoilImprovement.Improvement) : bool :=
  String.eqb (SoilImprovement.issue i) "Acidic Soil (pH < 5.5)".

Definition is_gypsum (i : SoilImprovement.Improvement) : bool :=
  String.eqb (SoilImprovement.issue i) "Alkaline Soil (pH > 7.5)".

Definition is_salinity (i : SoilImprovement.Improvement) : bool :=
  String.eqb (SoilImprovement.issue i) "High Salinity (EC > 2.0 dS/m)".

Definition is_organic_matter (i : SoilImprovement.Improvement) : bool :=
  String.eqb (SoilImprovement.issue i) "Low Organic Matter (OC < 0.5%)" ||
  String.eqb (SoilImprovement.issue i) "Moderate Organic Matter".

Definition BIO_NAME : string := "Biofertilizer (Rhizobium/Azotobacter)".

(** A farmer and a soil record for examples: one hectare of Basmati rice
    on an acidic, saline soil low in organic carbon. *)
Definition scenario_farmer : Farmer := mkFarmer "Basmati Rice" 1.
Definition scenario_soil : SoilData := mkSoilData 18 12 30 5.0 (Some 2.5) (Some 0.4).

(** The mantissa [m] at exponent [e] stands for a value below [2^K], with
    the exponent itself at most [K]. *)
Definition within (K m e : Z) : Prop :=
  (e <= K /\ Zdigits2 m + e <= K)%Z.


End Observe2.

(** * Properties *)

Import PyStr FertilizerEngine FertilizerPrices SoilImprovement CropSchedules.
Import Recommendations Observe.
Local Open Scope string_scope.
Local Open Scope list_scope.
Local Open Scope float_scope.

(** ** Scenario A of the allocation engine *)

(** C1.  For required_n = 120, required_p = 60, required_k = 30 and a field
    of 1 hectare the engine returns exactly three line items, DAP, MOP, Urea
    in this order, with per-hectare quantities 130.43 = round(60/0.46, 2),
    50.0 = round(30/0.60, 2) and 209.83 = round((120 - (60/0.46)*0.18)/0.46, 2);
    the Urea quantity is computed from the unrounded remaining nitrogen,
    which is 96.52 to two decimals, and DAP supplies 23.48 kg N to two
    decimals. *)
Theorem scenario_A_allocation :
  exists st1 r dap mop urea,
    dap_step 1 (initial_state 120 60 30) = Some st1 /\
    recommend_fertilizers 120 60 30 1 = Some r /\
    fertilizers r = [dap; mop; urea] /\
    fertilizer dap = DAP_NAME /\
    quantity_kg_per_hectare dap = 130.43 /\
    quantity_kg_per_hectare dap = py_round (60 / 0.46) 2 /\
    fertilizer mop = MOP_NAME /\
    quantity_kg_per_hectare mop = 50.0 /\
    quantity_kg_per_hectare mop = py_round (30 / 0.60) 2 /\
    fertilizer urea = UREA_NAME /\
    quantity_kg_per_hectare urea = 209.83 /\
    quantity_kg_per_hectare urea = py_round (n_remaining st1 / 0.46) 2 /\
    n_remaining st1 = 120 - (60 / 0.46) * 0.18 /\
    py_round (n_remaining st1) 2 = 96.52 /\
    py_round ((60 / 0.46) * 0.18) 2 = 23.48.
Proof.
  eexists; eexists; eexists; eexists; eexists.
  split; [vm_compute; reflexivity|].
  split; [vm_compute; reflexivity|].
  split; [reflexivity|].
  repeat split; vm_compute; reflexivity.
Qed.

(** ** The crop application scheduler *)

(** C9.  The schedule does not depend on the nutrient totals: for one crop
    name, any two triples of totals give the same ordered list of stages. *)
Theorem schedule_ignores_totals :
  forall (crop : string) (n p k n' p' k' : float),
    get_application_schedule crop n p k = get_application_schedule crop n' p' k'.
Proof.
  intros. unfold get_application_schedule. reflexivity.
Qed.

Lemma default_when_no_keyword (crop : string) (n p k : float) :
  forallb (fun kw => negb (contains kw (lower crop))) crop_keywords = true ->
  get_application_schedule crop n p k = get_default_schedule.
Proof.
  unfold crop_keywords, get_application_schedule. cbn [forallb].
  intros H.
  repeat (apply andb_prop in H; destruct H as [?H H]).
  repeat match goal with
         | Hk : negb _ = true |- _ => apply negb_true_iff in Hk; rewrite Hk
         end.
  reflexivity.
Qed.

(** C8.  The scheduler looks for the crop words in the lower-cased name, in
    the order rice/paddy, wheat, maize/corn, cotton, sugarcane, potato,
    tomato, and the first group found decides; a name with none of the words
    gets the generic three-stage schedule (all P and K at basal, nitrogen
    50/50 at 3-4 and 6-7 weeks after planting); names that agree up to case
    get the same schedule; "Basmati Rice" gets the rice schedule, which is
    not the generic one. *)
Theorem schedule_dispatch :
  forall (crop : string) (n p k : float),
    let has := fun kw => contains kw (lower crop) in
    let sched := get_application_schedule crop n p k in
    (has "rice" || has "paddy" = true -> sched = get_rice_schedule) /\
    (has "rice" || has "paddy" = false -> has "wheat" = true ->
       sched = get_wheat_schedule) /\
    (has "rice" || has "paddy" || has "wheat" = false ->
       has "maize" || has "corn" = true -> sched = get_maize_schedule) /\
    (has "rice" || has "paddy" || has "wheat" || has "maize" || has "corn" = false ->
       has "cotton" = true -> sched = get_cotton_schedule) /\
    (has "rice" || has "paddy" || has "wheat" || has "maize" || has "corn"
       || has "cotton" = false ->
       has "sugarcane" = true -> sched = get_sugarcane_schedule) /\
    (has "rice" || has "paddy" || has "wheat" || has "maize" || has "corn"
       || has "cotton" || has "sugarcane" = false ->
       has "potato" = true -> sched = get_potato_schedule) /\
    (has "rice" || has "paddy" || has "wheat" || has "maize" || has "corn"
       || has "cotton" || has "sugarcane" || has "potato" = false ->
       has "tomato" = true -> sched = get_tomato_schedule) /\
    (forallb (fun kw => negb (has kw)) crop_keywords = true ->
       sched = get_default_schedule) /\
    (forall crop', lower crop' = lower crop ->
       get_application_schedule crop' n p k = sched) /\
    map stage_split get_default_schedule =
      [ ("DAP + MOP", PyInt 100, "Day 0");
        ("Urea", PyInt 50, "3-4 weeks after planting");
        ("Urea", PyInt 50, "6-7 weeks after planting") ] /\
    get_application_schedule "Basmati Rice" n p k = get_rice_schedule /\
    get_application_schedule "BASMATI RICE" n p k = get_rice_schedule /\
    get_rice_schedule <> get_default_schedule.
Proof.
  intros crop n p k has sched. subst has sched.
  unfold get_application_schedule.
  repeat match goal with |- _ /\ _ => split end.
  - intros ->. reflexivity.
  - intros -> ->. reflexivity.
  - intros H1 H2.
    repeat (apply orb_false_elim in H1; destruct H1 as [H1 ?H]).
    rewrite H1, H, H0, H2. reflexivity.
  - intros H1 H2.
    repeat (apply orb_false_elim in H1; destruct H1 as [H1 ?H]).
    rewrite H1, H3, H0, H2. cbn. rewrite H, H4. reflexivity.
  - intros H1 H2.
    repeat (apply orb_false_elim in H1; destruct H1 as [H1 ?H]).
    rewrite H1, H4, H3, H0, H5, H, H2. reflexivity.
  - intros H1 H2.
    repeat (apply orb_false_elim in H1; destruct H1 as [H1 ?H]).
    rewrite H1, H5, H4, H3, H6, H0, H, H2. reflexivity.
  - intros H1 H2.
    repeat (apply orb_false_elim in H1; destruct H1 as [H1 ?H]).
    rewrite H1, H6, H5, H4, H7, H3, H0, H, H2. reflexivity.
  - apply (default_when_no_keyword crop n p k).
  - intros crop' ->. reflexivity.
  - reflexivity.
  - reflexivity.
  - reflexivity.
  - discriminate.
Qed.

(** The dispatch at a crop with none of the words, at one found through a
    later branch, and at "Basmati Rice". *)
Lemma schedule_dispatch_witness :
  get_application_schedule "Millet" 120 60 30 = get_default_schedule /\
  get_application_schedule "Sweet Corn" 120 60 30 = get_maize_schedule /\
  get_application_schedule "Basmati Rice" 120 60 30 = get_rice_schedule.
Proof.
  pose proof (schedule_dispatch "Millet" 120 60 30) as HM.
  pose proof (schedule_dispatch "Sweet Corn" 120 60 30) as HC.
  cbv zeta in HM, HC.
  destruct HM as (_ & _ & _ & _ & _ & _ & _ & HM & _ & _ & HR & _).
  destruct HC as (_ & _ & HC & _).
  split; [apply HM; reflexivity|].
  split; [apply HC; reflexivity|].
  exact HR.
Defined.

(** ** The soil improvement advisor *)

Section ThresholdRules.

Let P (l : list Improvement) : Prop := Forall (fun i => threshold_issue i = true) l.

Lemma P_snoc (l : list Improvement) (i : Improvement) :
  P l -> threshold_issue i = true -> P (l ++ [i]).
Proof.
  intros Hl Hi. apply Forall_app. split; [exact Hl | constructor; [exact Hi | constructor]].
Qed.

Lemma ph_rule_threshold (ph : float) (l l' : list Improvement) :
  P l -> ph_rule ph l = Some l' -> P l'.
Proof.
  unfold ph_rule. intros Hl.
  destruct (ph <? 5.5).
  - destruct (calculate_lime_requirement ph) as [q|]; cbn; [|discriminate].
    intros [= <-]. apply P_snoc; [exact Hl | reflexivity].
  - destruct (7.5 <? ph); intros [= <-]; [apply P_snoc; [exact Hl | reflexivity] | exact Hl].
Qed.

Lemma ec_rule_threshold (ec : option float) (l : list Improvement) :
  P l -> P (ec_rule ec l).
Proof.
  unfold ec_rule. intros Hl. destruct ec as [e|]; [|exact Hl].
  destruct (float_truthy e && (2.0 <? e)); [apply P_snoc; [exact Hl | reflexivity] | exact Hl].
Qed.

Lemma oc_rule_threshold (oc : option float) (l : list Improvement) :
  P l -> P (oc_rule oc l).
Proof.
  unfold oc_rule. intros Hl. destruct oc as [c|]; [|exact Hl].
  destruct (c <? 0.5); [apply P_snoc; [exact Hl | reflexivity]|].
  destruct ((0.5 <=? c) && (c <? 0.75)); [apply P_snoc; [exact Hl | reflexivity] | exact Hl].
Qed.

Lemma phosphorus_rule_threshold (p : option float) (l : list Improvement) :
  P l -> P (phosphorus_rule p l).
Proof.
  unfold phosphorus_rule. intros Hl. destruct p as [v|]; [|exact Hl].
  destruct (v <? 10); [apply P_snoc; [exact Hl | reflexivity] | exact Hl].
Qed.

Lemma threshold_rules_issues (ph : float) (ec oc p : option float) (l : list Improvement) :
  threshold_rules ph ec oc p = Some l -> Forall (fun i => threshold_issue i = true) l.
Proof.
  unfold threshold_rules. destruct (ph_rule ph []) as [l0|] eqn:E; cbn; [|discriminate].
  intros [= <-].
  apply phosphorus_rule_threshold, oc_rule_threshold, ec_rule_threshold.
  apply (ph_rule_threshold ph [] l0); [constructor | exact E].
Qed.

End ThresholdRules.

Lemma threshold_rules_raise (ph : float) (ec oc p : option float) :
  threshold_rules ph ec oc p = None ->
  (ph <? 5.5) = true /\ calculate_lime_requirement ph = None.
Proof.
  unfold threshold_rules, ph_rule.
  destruct (ph <? 5.5).
  - destruct (calculate_lime_requirement ph); cbn; [discriminate | auto].
  - destruct (7.5 <? ph); cbn; discriminate.
Qed.

Ltac break_in :=
  repeat match goal with
         | H : In _ (_ ++ _) |- _ => apply in_app_or in H; destruct H as [H|H]
         | H : In _ (_ :: _) |- _ => destruct H as [H|H]
         | H : In _ [] |- _ => destruct H
         end.

Lemma not_threshold_not_in (i : Improvement) (l : list Improvement) :
  Forall (fun j => threshold_issue j = true) l -> threshold_issue i = false -> ~ In i l.
Proof.
  intros Hl Hi Hin. rewrite Forall_forall in Hl. specialize (Hl i Hin). congruence.
Qed.

(** C7.  Either the call raises, which happens only inside the lime rule
    (pH below 5.5 and the lime computation raising), or it returns the list
    [triggered] accumulated by the threshold rules followed by the
    green-manure advisory exactly when [triggered] has at least 2 entries
    and by the maintenance advisory exactly when [triggered] is empty; the
    green-manure advisory is in the result iff at least 2 rules triggered,
    the maintenance advisory is in it iff none did (it is then the whole
    result), and the returned list is never empty. *)
Theorem advisor_closing_rules :
  forall (ph : float) (ec oc n p k : option float),
    ((ph <? 5.5) = true /\ calculate_lime_requirement ph = None /\
     get_soil_improvements ph ec oc n p k = None)
    \/
    exists triggered result : list Improvement,
      threshold_rules ph ec oc p = Some triggered /\
      get_soil_improvements ph ec oc n p k = Some result /\
      result = triggered
               ++ (if (2 <=? List.length triggered)%nat then [green_manure_improvement] else [])
               ++ (match triggered with [] => [maintenance_improvement] | _ => [] end) /\
      (In green_manure_improvement result <-> (2 <= List.length triggered)%nat) /\
      (In maintenance_improvement result <-> triggered = []) /\
      (In maintenance_improvement result -> result = [maintenance_improvement]) /\
      result <> [].
Proof.
  intros ph ec oc n p k.
  unfold get_soil_improvements.
  destruct (threshold_rules ph ec oc p) as [l|] eqn:E.
  - right. exists l. eexists. split; [reflexivity|]. split; [reflexivity|].
    pose proof (threshold_rules_issues _ _ _ _ _ E) as Hl.
    pose proof (not_threshold_not_in green_manure_improvement l Hl eq_refl) as Hg.
    pose proof (not_threshold_not_in maintenance_improvement l Hl eq_refl) as Hm.
    unfold green_manure_rule, maintenance_rule.
    destruct l as [|a [|b l]]; cbn [List.length Nat.leb app];
      repeat split; try (cbn; lia); try discriminate; try reflexivity; intros H;
      try (left; reflexivity);
      try (do 2 right; apply in_or_app; right; left; reflexivity);
      exfalso; break_in; try discriminate;
      try (apply Hm; rewrite <- H; cbn; auto; fail);
      try (apply Hg; rewrite <- H; cbn; auto; fail);
      try (apply Hm; cbn; auto; fail);
      try (apply Hg; cbn; auto; fail);
      try (cbn in H; lia).
  - left. apply threshold_rules_raise in E. destruct E as [E1 E2]. auto.
Qed.

(** ** The steps of the allocation engine, resolved against the catalog *)

Lemma dap_step_eq (a : float) (st : EngineState) :
  dap_step a st =
  Some (if 0 <? p_remaining st
        then mkEngineState
               (recommendations st ++ [dap_item a (p_remaining st)])
               (total_cost_acc st + dap_needed_kg (p_remaining st) * 27)
               (n_remaining st - n_from_dap (p_remaining st))
               0
               (k_remaining st)
        else st).
Proof.
  unfold dap_step. destruct (0 <? p_remaining st); reflexivity.
Qed.

Lemma mop_step_eq (a : float) (st : EngineState) :
  mop_step a st =
  Some (if 0 <? k_remaining st
        then mkEngineState
               (recommendations st ++ [mop_item a (k_remaining st)])
               (total_cost_acc st + k_remaining st / 0.6 * 17)
               (n_remaining st)
               (p_remaining st)
               0
        else st).
Proof.
  unfold mop_step. destruct (0 <? k_remaining st); reflexivity.
Qed.

Lemma urea_step_eq (a : float) (st : EngineState) :
  urea_step a st =
  Some (if 0 <? n_remaining st
        then mkEngineState
               (recommendations st ++ [urea_item a (n_remaining st)])
               (total_cost_acc st + n_remaining st / 0.46 * 6)
               0
               (p_remaining st)
               (k_remaining st)
        else st).
Proof.
  unfold urea_step. destruct (0 <? n_remaining st); reflexivity.
Qed.

(** The engine never raises, and its items are [engine_items]. *)
Lemma recommend_fertilizers_items (n p k a : float) :
  exists r : Recommendations,
    recommend_fertilizers n p k a = Some r /\
    fertilizers r = engine_items n p k a.
Proof.
  unfold recommend_fertilizers, engine_items, nitrogen_after_dap.
  rewrite dap_step_eq. cbn [bind p_remaining].
  rewrite mop_step_eq. cbn [bind]. rewrite urea_step_eq. cbn [bind].
  destruct (0 <? p); cbn [bind k_remaining n_remaining recommendations app];
    destruct (0 <? k); cbn [bind k_remaining n_remaining recommendations app];
    match goal with |- context [0 <? ?x] => destruct (0 <? x) end;
    eexists; (split; [reflexivity|]); reflexivity.
Qed.

(** ** Repricing *)

Lemma float_of_int_Some (z : Z) (f : float) :
  float_of_int z = Some f -> f = Z2float z.
Proof.
  unfold float_of_int. destruct (is_infinity (Z2float z)); [discriminate|].
  intros [= <-]. reflexivity.
Qed.

Lemma reprice_item_Some (a : float) (it it' : LineItem) (t t' : float) :
  reprice_item a it t = Some (it', t') ->
  repriced a it it' /\
  t' = (if verified it' then t + cost_to_float (cost it') else t) /\
  (verified it' = false -> cost it' = PyInt 0).
Proof.
  unfold reprice_item, repriced, priced_quantity.
  destruct it as [nm qh qa qt pv c pr ver nt stg]. cbn [fertilizer quantity_total quantity_kg_per_hectare].
  destruct qt as [q|]; cbn [quantity_total set_quantity_total quantity_kg_per_hectare].
  - destruct (py_ceil (q / 50)) as [bags|]; cbn [bind]; [|discriminate].
    destruct (dict_get FERTILIZER_PRICES_INR (base_name nm)) as [entry|].
    + destruct (float_of_int (bags * entry_price_per_50kg entry)) as [cf|] eqn:Ec;
        cbn [bind]; [|discriminate].
      intros [= <- <-]. apply float_of_int_Some in Ec. subst cf.
      split; [exists bags; cbn; auto 10|]. split; [reflexivity | discriminate].
    + intros [= <- <-]. split; [exists bags; cbn; auto 10|]. split; reflexivity.
  - destruct (py_ceil (qh * a / 50)) as [bags|]; cbn [bind]; [|discriminate].
    destruct (dict_get FERTILIZER_PRICES_INR (base_name nm)) as [entry|].
    + destruct (float_of_int (bags * entry_price_per_50kg entry)) as [cf|] eqn:Ec;
        cbn [bind]; [|discriminate].
      intros [= <- <-]. apply float_of_int_Some in Ec. subst cf.
      split; [exists bags; cbn; auto 10|]. split; [reflexivity | discriminate].
    + intros [= <- <-]. split; [exists bags; cbn; auto 10|]. split; reflexivity.
Qed.

Lemma reprice_item_None (a : float) (it : LineItem) (t : float) :
  reprice_item a it t = None -> reprice_raises a it.
Proof.
  unfold reprice_item, reprice_raises, priced_quantity.
  destruct it as [nm qh qa qt pv c pr ver nt stg]. cbn [fertilizer quantity_total quantity_kg_per_hectare].
  destruct qt as [q|]; cbn [quantity_total set_quantity_total quantity_kg_per_hectare].
  - destruct (py_ceil (q / 50)) as [bags|]; cbn [bind]; [|auto].
    destruct (dict_get FERTILIZER_PRICES_INR (base_name nm)) as [entry|]; [|discriminate].
    destruct (float_of_int (bags * entry_price_per_50kg entry)) as [cf|] eqn:Ec;
      cbn [bind]; [discriminate|].
    intros _. right. exists bags, entry. auto.
  - destruct (py_ceil (qh * a / 50)) as [bags|]; cbn [bind]; [|auto].
    destruct (dict_get FERTILIZER_PRICES_INR (base_name nm)) as [entry|]; [|discriminate].
    destruct (float_of_int (bags * entry_price_per_50kg entry)) as [cf|] eqn:Ec;
      cbn [bind]; [discriminate|].
    intros _. right. exists bags, entry. auto.
Qed.

Lemma sum_verified_costs_cons (t : float) (it : LineItem) (l : list LineItem) :
  sum_verified_costs t (it :: l) =
  sum_verified_costs (if verified it then t + cost_to_float (cost it) else t) l.
Proof.
  unfold sum_verified_costs. cbn [filter]. destruct (verified it); reflexivity.
Qed.

Lemma reprice_loop_spec (a : float) (ferts : list LineItem) :
  forall t0 : float,
    match reprice_loop a ferts t0 with
    | Some (ferts', total) =>
        Forall2 (repriced a) ferts ferts' /\
        total = sum_verified_costs t0 ferts' /\
        Forall (fun it' => verified it' = false -> cost it' = PyInt 0) ferts'
    | None => Exists (reprice_raises a) ferts
    end.
Proof.
  induction ferts as [|it rest IH]; intros t0; cbn [reprice_loop].
  - repeat split; constructor.
  - destruct (reprice_item a it t0) as [[it' t1]|] eqn:E1; cbn [bind fst snd].
    + apply reprice_item_Some in E1. destruct E1 as (Hr & Ht & Hu).
      specialize (IH t1).
      destruct (reprice_loop a rest t1) as [[rest' t2]|]; cbn [bind fst snd].
      * destruct IH as (IH1 & IH2 & IH3).
        split; [constructor; assumption|].
        split; [rewrite sum_verified_costs_cons, <- Ht; exact IH2|].
        constructor; assumption.
      * apply Exists_cons_tl. exact IH.
    + apply Exists_cons_hd. apply (reprice_item_None a it t0 E1).
Qed.

Lemma repricing_sum (a : float) (ferts : list LineItem) :
  match reprice_loop a ferts 0.0 with
  | Some (ferts', total) => total = sum_verified_costs 0.0 ferts'
  | None => True
  end.
Proof.
  pose proof (reprice_loop_spec a ferts 0.0) as H.
  destruct (reprice_loop a ferts 0.0) as [[ferts' total]|]; [|exact I].
  destruct H as (_ & H & _). exact H.
Qed.



(** ** Binary64 facts: signs, order, subtraction *)

Section Binary64.

Local Open Scope float_scope.

Lemma ltb_0_pos (x : float) : (0 <? x) = sf_pos (Prim2SF x).
Proof. rewrite ltb_spec. destruct (Prim2SF x) as [s|s| |s m e]; try destruct s; reflexivity. Qed.

Lemma leb_0_nonneg (x : float) : (0 <=? x) = sf_nonneg (Prim2SF x).
Proof. rewrite leb_spec. destruct (Prim2SF x) as [s|s| |s m e]; try destruct s; reflexivity. Qed.

Lemma ltb_neg_0 (x : float) : (x <? 0) = sf_neg (Prim2SF x).
Proof. rewrite ltb_spec. destruct (Prim2SF x) as [s|s| |s m e]; try destruct s; reflexivity. Qed.

Lemma leb_nonpos_0 (x : float) : (x <=? 0) = sf_nonpos (Prim2SF x).
Proof. rewrite leb_spec. destruct (Prim2SF x) as [s|s| |s m e]; try destruct s; reflexivity. Qed.

Lemma eqb_0_zero (x : float) :
  (x =? 0) = match Prim2SF x with S754_zero _ => true | _ => false end.
Proof. rewrite eqb_spec. destruct (Prim2SF x) as [s|s| |s m e]; try destruct s; reflexivity. Qed.

Local Open Scope Z_scope.

(** shifting keeps a mantissa non-negative *)
Lemma shr_1_nonneg (mrs : shr_record) : 0 <= shr_m mrs -> 0 <= shr_m (shr_1 mrs).
Proof.
  destruct mrs as [m r s]. cbn [shr_m].
  destruct m as [|p|p]; [| destruct p | ]; cbn; lia.
Qed.

Lemma iter_pos_invariant {A : Type} (P : A -> Prop) (f : A -> A) :
  (forall x, P x -> P (f x)) -> forall (n : positive) (x : A), P x -> P (iter_pos f n x).
Proof.
  intros Hf. induction n as [n IH|n IH|]; intros x Hx; cbn.
  - apply IH, IH, Hf, Hx.
  - apply IH, IH, Hx.
  - apply Hf, Hx.
Qed.

Lemma shr_nonneg (mrs : shr_record) (e n : Z) :
  0 <= shr_m mrs -> 0 <= shr_m (fst (shr mrs e n)).
Proof.
  intros H. unfold shr. destruct n as [|p|p]; cbn [fst]; try exact H.
  apply (iter_pos_invariant (fun r => 0 <= shr_m r)); [apply shr_1_nonneg | exact H].
Qed.

Lemma shr_record_of_loc_m (m : Z) (l : location) : shr_m (shr_record_of_loc m l) = m.
Proof. destruct l as [|[| |]]; reflexivity. Qed.

Lemma shr_fexp_nonneg (m e : Z) (l : location) :
  0 <= m -> 0 <= shr_m (fst (shr_fexp prec emax m e l)).
Proof.
  intros H. unfold shr_fexp. apply shr_nonneg. rewrite shr_record_of_loc_m. exact H.
Qed.

Lemma round_nearest_even_nonneg (m : Z) (l : location) :
  0 <= m -> 0 <= round_nearest_even m l.
Proof.
  intros H. destruct l as [|[| |]]; cbn; try lia. destruct (Z.even m); lia.
Qed.

Lemma binary_round_aux_signed (s : bool) (m e : Z) (l : location) :
  0 <= m -> sf_signed s (binary_round_aux prec emax s m e l) = true.
Proof.
  intros H. unfold binary_round_aux.
  pose proof (shr_fexp_nonneg m e l H) as H1.
  destruct (shr_fexp prec emax m e l) as [mrs' e'].  cbn [fst] in H1.
  pose proof (shr_fexp_nonneg _ e' loc_Exact
                (round_nearest_even_nonneg _ (loc_of_shr_record mrs') H1)) as H2.
  destruct (shr_fexp prec emax _ e' loc_Exact) as [mrs'' e'']. cbn [fst] in H2.
  destruct (shr_m mrs'') as [|p|p].
  - cbn. apply eqb_reflx.
  - destruct (e'' <=? emax - prec); cbn; apply eqb_reflx.
  - lia.
Qed.

Lemma binary_round_signed (s : bool) (m : positive) (e : Z) :
  sf_signed s (binary_round prec emax s m e) = true.
Proof.
  unfold binary_round.
  destruct (shl_align m e _) as [mz ez].
  apply binary_round_aux_signed. lia.
Qed.

Lemma SFdiv_signed (sx sy : bool) (x y : spec_float) :
  sf_signed sx x = true ->
  forall my ey, y = S754_finite sy my ey ->
  sf_signed (xorb sx sy) (SFdiv prec emax x y) = true.
Proof.
  intros Hx my ey ->.
  destruct x as [s|s| |s mx ex]; cbn in Hx; try discriminate;
    apply eqb_prop in Hx; subst s.
  - cbn. apply eqb_reflx.
  - cbn. apply eqb_reflx.
  - unfold SFdiv.
    destruct (SFdiv_core_binary prec emax (Z.pos mx) ex (Z.pos my) ey) as [[mz ez] lz] eqn:E.
    apply binary_round_aux_signed.
    unfold SFdiv_core_binary in E.
    set (m' := match _ - _ - _ with Z.pos _ => _ | 0 => _ | Z.neg _ => _ end) in E.
    assert (Hm' : 0 <= m').
    { subst m'. destruct (_ - _ - _) as [|q|q]; try lia. apply Z.shiftl_nonneg. lia. }
    pose proof (Z.div_pos m' (Z.pos my) Hm' ltac:(lia)) as Hq.
    unfold Z.div in Hq.
    destruct (Z.div_eucl m' (Z.pos my)) as [q r]. cbn [fst] in Hq.
    injection E as <- _ _. exact Hq.
Qed.

Lemma SFmul_signed (sx sy : bool) (x y : spec_float) :
  sf_signed sx x = true ->
  forall my ey, y = S754_finite sy my ey ->
  sf_signed (xorb sx sy) (SFmul prec emax x y) = true.
Proof.
  intros Hx my ey ->.
  destruct x as [s|s| |s mx ex]; cbn in Hx; try discriminate;
    apply eqb_prop in Hx; subst s; cbn [SFmul].
  - cbn. apply eqb_reflx.
  - cbn. apply eqb_reflx.
  - apply binary_round_aux_signed. lia.
Qed.

Lemma SFldexp_signed (s : bool) (x : spec_float) (e : Z) :
  sf_signed s x = true -> sf_signed s (SFldexp prec emax x e) = true.
Proof.
  destruct x as [s'|s'| |s' m ex]; cbn [SFldexp]; try (intros H; exact H).
  cbn. intros H. apply eqb_prop in H. subst s'. apply binary_round_signed.
Qed.

Lemma SFopp_signed (s : bool) (x : spec_float) :
  sf_signed s x = true -> sf_signed (negb s) (SFopp x) = true.
Proof.
  destruct x as [s'|s'| |s' m ex]; cbn; try discriminate;
    intros H; apply eqb_prop in H; subst s'; apply eqb_reflx.
Qed.

Lemma SF2Prim_signed (s : bool) (x : spec_float) :
  sf_signed s x = true -> sf_signed s (Prim2SF (SF2Prim x)) = true.
Proof.
  destruct x as [s'|s'| |s' m e]; cbn [sf_signed]; try discriminate;
    intros H; apply eqb_prop in H; subst s'.
  - destruct s; reflexivity.
  - destruct s; reflexivity.
  - unfold SF2Prim.
    assert (Hf : sf_signed false
              (Prim2SF (Z.ldexp (of_uint63 (Uint63Axioms.of_Z (Z.pos m))) e)) = true).
    { rewrite Z_ldexp_spec. apply SFldexp_signed. rewrite of_uint63_spec.
      pose proof (Uint63.to_Z_bounded (Uint63Axioms.of_Z (Z.pos m))) as Hb.
      unfold binary_normalize.
      destruct (Uint63Axioms.to_Z _) as [|q|q].
      - reflexivity.
      - apply binary_round_signed.
      - lia. }
    destruct s; [|exact Hf].
    rewrite opp_spec. apply (SFopp_signed false). exact Hf.
Qed.

Lemma round_sf_signed (s : bool) (m : positive) (e nd : Z) :
  0 <= nd -> sf_signed s (round_sf s m e nd) = true.
Proof.
  intros Hnd. unfold round_sf.
  destruct (rhe_div _ _) as [|k|k]; try (cbn; apply eqb_reflx).
  replace s with (xorb s false) at 1 by (destruct s; reflexivity).
  eapply SFdiv_signed; [cbn; apply eqb_reflx | reflexivity].
Qed.

Lemma py_round_signed (s : bool) (x : float) (nd : Z) :
  0 <= nd -> sf_signed s (Prim2SF x) = true -> sf_signed s (Prim2SF (py_round x nd)) = true.
Proof.
  intros Hnd. unfold py_round.
  destruct (Prim2SF x) as [s'|s'| |s' m e] eqn:E; try (rewrite E; auto; fail).
  cbn [sf_signed]. intros H. apply eqb_prop in H. subst s'.
  apply SF2Prim_signed, round_sf_signed, Hnd.
Qed.

Lemma digits2_pos_bounds (m : positive) :
  2 ^ (Z.pos (digits2_pos m) - 1) <= Z.pos m < 2 ^ Z.pos (digits2_pos m).
Proof.
  induction m as [m IH|m IH|]; cbn [digits2_pos].
  - rewrite Pos2Z.inj_succ.
    replace (Z.succ (Z.pos (digits2_pos m)) - 1) with (Z.succ (Z.pos (digits2_pos m) - 1)) by lia.
    rewrite !Z.pow_succ_r by lia. lia.
  - rewrite Pos2Z.inj_succ.
    replace (Z.succ (Z.pos (digits2_pos m)) - 1) with (Z.succ (Z.pos (digits2_pos m) - 1)) by lia.
    rewrite !Z.pow_succ_r by lia. lia.
  - cbn. lia.
Qed.

Lemma bounded_facts (m : positive) (e : Z) :
  bounded prec emax m e = true ->
  emin <= e /\ Z.pos m < 2 ^ 53 /\ (emin < e -> 2 ^ 52 <= Z.pos m).
Proof.
  unfold bounded, canonical_mantissa, fexp, SpecFloat.emin, prec, emax.
  intros H. apply andb_prop in H. destruct H as [H _]. apply Z.eqb_eq in H.
  pose proof (digits2_pos_bounds m) as [Hlo Hhi].
  set (d := Z.pos (digits2_pos m)) in *.
  assert (Hd : 0 < d) by (subst d; lia).
  split; [lia|]. split.
  - assert (d <= 53) by lia.
    apply Z.lt_le_trans with (1 := Hhi). apply Z.pow_le_mono_r; lia.
  - intros He. assert (d = 53) by lia. replace 52 with (d - 1) by lia. exact Hlo.
Qed.

Lemma magnitude_compare (m1 m2 : positive) (e1 e2 : Z) :
  bounded prec emax m1 e1 = true -> bounded prec emax m2 e2 = true ->
  match e1 ?= e2 with
  | Lt => Lt
  | Gt => Gt
  | Eq => Pos.compare_cont Eq m1 m2
  end = (Z.pos m1 * 2 ^ (e1 - emin) ?= Z.pos m2 * 2 ^ (e2 - emin)).
Proof.
  intros B1 B2.
  apply bounded_facts in B1. destruct B1 as (L1 & U1 & N1).
  apply bounded_facts in B2. destruct B2 as (L2 & U2 & N2).
  destruct (Z.compare_spec e1 e2) as [E|E|E].
  - subst e2. fold (Pos.compare m1 m2).
    assert (0 < 2 ^ (e1 - emin)) by (apply Z.pow_pos_nonneg; lia).
    symmetry. rewrite <- Zmult_compare_compat_r by lia. reflexivity.
  - symmetry. apply Z.compare_lt_iff.
    replace (e2 - emin) with ((e2 - e1) + (e1 - emin)) by lia.
    rewrite Z.pow_add_r by lia.
    assert (HK : 0 < 2 ^ (e1 - emin)) by (apply Z.pow_pos_nonneg; lia).
    assert (HP : 2 ^ 1 <= 2 ^ (e2 - e1)) by (apply Z.pow_le_mono_r; lia).
    specialize (N2 ltac:(lia)).
    change (2 ^ 1) with 2 in HP. change (2 ^ 53) with (2 * 2 ^ 52) in *.
    remember (2 ^ 52) as T eqn:ET. remember (2 ^ (e2 - e1)) as P eqn:EP.
    remember (2 ^ (e1 - emin)) as K eqn:EK. clear ET EP EK.
    assert (H1 : Z.pos m1 * K < 2 * T * K) by (apply Z.mul_lt_mono_pos_r; lia).
    assert (H2 : T * 2 <= Z.pos m2 * P) by (apply Z.mul_le_mono_nonneg; lia).
    assert (H3 : T * 2 * K <= Z.pos m2 * P * K) by (apply Z.mul_le_mono_nonneg_r; lia).
    lia.
  - symmetry. apply Z.compare_gt_iff.
    replace (e1 - emin) with ((e1 - e2) + (e2 - emin)) by lia.
    rewrite Z.pow_add_r by lia.
    assert (HK : 0 < 2 ^ (e2 - emin)) by (apply Z.pow_pos_nonneg; lia).
    assert (HP : 2 ^ 1 <= 2 ^ (e1 - e2)) by (apply Z.pow_le_mono_r; lia).
    specialize (N1 ltac:(lia)).
    change (2 ^ 1) with 2 in HP. change (2 ^ 53) with (2 * 2 ^ 52) in *.
    remember (2 ^ 52) as T eqn:ET. remember (2 ^ (e1 - e2)) as P eqn:EP.
    remember (2 ^ (e2 - emin)) as K eqn:EK. clear ET EP EK.
    assert (H1 : Z.pos m2 * K < 2 * T * K) by (apply Z.mul_lt_mono_pos_r; lia).
    assert (H2 : T * 2 <= Z.pos m1 * P) by (apply Z.mul_le_mono_nonneg; lia).
    assert (H3 : T * 2 * K <= Z.pos m1 * P * K) by (apply Z.mul_le_mono_nonneg_r; lia).
    lia.
Qed.

Lemma units_pos (m : positive) (e : Z) : emin <= e -> 0 < Z.pos m * 2 ^ (e - emin).
Proof. intros H. assert (0 < 2 ^ (e - emin)) by (apply Z.pow_pos_nonneg; lia). lia. Qed.

(** On zeros and finite floats the comparison is the comparison of values. *)
Lemma SFcompare_units (x y : spec_float) :
  valid_binary x = true -> valid_binary y = true ->
  sf_finite x = true -> sf_finite y = true ->
  SFcompare x y = Some (sf_units x ?= sf_units y).
Proof.
  intros Vx Vy Fx Fy.
  destruct x as [sx|sx| |sx mx ex]; try discriminate;
    destruct y as [sy|sy| |sy my ey]; try discriminate; cbn [SFcompare sf_units].
  - reflexivity.
  - cbn in Vy. pose proof (bounded_facts _ _ Vy) as (L & _ & _).
    pose proof (units_pos my ey L) as Hp.
    destruct sy; cbn [cond_Zopp]; f_equal; symmetry.
    + apply Z.compare_gt_iff. lia.
    + apply Z.compare_lt_iff. lia.
  - cbn in Vx. pose proof (bounded_facts _ _ Vx) as (L & _ & _).
    pose proof (units_pos mx ex L) as Hp.
    destruct sx; cbn [cond_Zopp]; f_equal; symmetry.
    + apply Z.compare_lt_iff. lia.
    + apply Z.compare_gt_iff. lia.
  - cbn in Vx, Vy.
    pose proof (magnitude_compare mx my ex ey Vx Vy) as Hc.
    pose proof (bounded_facts _ _ Vx) as (Lx & _ & _).
    pose proof (bounded_facts _ _ Vy) as (Ly & _ & _).
    pose proof (units_pos mx ex Lx) as Px.
    pose proof (units_pos my ey Ly) as Py.
    destruct sx, sy; cbn [cond_Zopp]; f_equal.
    + rewrite Z.compare_opp, (Z.compare_antisym (Z.pos mx * _)), <- Hc.
      destruct (ex ?= ey); reflexivity.
    + symmetry. apply Z.compare_lt_iff. lia.
    + symmetry. apply Z.compare_gt_iff. lia.
    + exact Hc.
Qed.

(** ** Rounding a non-zero mantissa at an exponent not below [emin] never
    gives zero *)

Lemma Zdigits2_shr_1 (mrs : shr_record) :
  Zdigits2 (shr_m (shr_1 mrs)) = Z.max 0 (Zdigits2 (shr_m mrs) - 1).
Proof.
  destruct mrs as [m r s]. cbn [shr_m].
  destruct m as [|p|p]; [reflexivity | |];
    destruct p; cbn [shr_1 shr_m Zdigits2 digits2_pos]; lia.
Qed.

Lemma Zdigits2_iter_shr_1 (p : positive) :
  forall mrs : shr_record,
    Zdigits2 (shr_m (iter_pos shr_1 p mrs)) = Z.max 0 (Zdigits2 (shr_m mrs) - Z.pos p).
Proof.
  induction p as [p IH|p IH|]; intros mrs; cbn [iter_pos].
  - rewrite !IH, Zdigits2_shr_1. lia.
  - rewrite !IH. lia.
  - apply Zdigits2_shr_1.
Qed.

Lemma Zdigits2_pos_iff (m : Z) : 0 <= m -> (0 < Zdigits2 m <-> 0 < m).
Proof. destruct m as [|p|p]; cbn; lia. Qed.

Lemma shr_fexp_pos (m e : Z) (l : location) :
  0 < m -> emin <= e ->
  0 < shr_m (fst (shr_fexp prec emax m e l)) /\ emin <= snd (shr_fexp prec emax m e l).
Proof.
  intros Hm He.
  pose proof (shr_fexp_nonneg m e l ltac:(lia)) as Hnn.
  unfold shr_fexp in *. unfold shr in *.
  assert (Hd : 0 < Zdigits2 m) by (apply Zdigits2_pos_iff; lia).
  remember (fexp prec emax (Zdigits2 m + e) - e) as n eqn:En.
  unfold fexp, SpecFloat.emin, prec, emax in En.
  unfold SpecFloat.emin, prec, emax in He |- *.
  destruct n as [|p|p]; cbn [fst snd] in *.
  - rewrite shr_record_of_loc_m. lia.
  - split; [|lia].
    apply Zdigits2_pos_iff; [exact Hnn|].
    rewrite Zdigits2_iter_shr_1, shr_record_of_loc_m. lia.
  - rewrite shr_record_of_loc_m. lia.
Qed.

Lemma round_nearest_even_ge (m : Z) (l : location) : m <= round_nearest_even m l.
Proof. destruct l as [|[| |]]; cbn; try lia. destruct (Z.even m); lia. Qed.

Lemma binary_round_aux_strict (s : bool) (m e : Z) (l : location) :
  0 < m -> emin <= e -> sf_strict s (binary_round_aux prec emax s m e l) = true.
Proof.
  intros Hm He. unfold binary_round_aux.
  pose proof (shr_fexp_pos m e l Hm He) as [H1 H1e].
  destruct (shr_fexp prec emax m e l) as [mrs' e']. cbn [fst snd] in H1, H1e.
  pose proof (round_nearest_even_ge (shr_m mrs') (loc_of_shr_record mrs')) as Hr.
  pose proof (shr_fexp_pos (round_nearest_even (shr_m mrs') (loc_of_shr_record mrs'))
                e' loc_Exact ltac:(lia) H1e) as [H2 _].
  destruct (shr_fexp prec emax _ e' loc_Exact) as [mrs'' e'']. cbn [fst] in H2.
  destruct (shr_m mrs'') as [|p|p]; try lia.
  destruct (e'' <=? emax - prec); cbn; apply eqb_reflx.
Qed.

Lemma shift_pos_iter (d m : positive) : Z.pos (Pos.iter xO m d) = Z.pos m * 2 ^ Z.pos d.
Proof.
  rewrite <- Z.shiftl_mul_pow2 by lia. cbn [Z.shiftl].
  apply (Pos.iter_swap_gen _ _ Z.pos xO (Z.mul 2)). reflexivity.
Qed.

Lemma binary_round_strict (s : bool) (m : positive) (e : Z) :
  emin <= e -> sf_strict s (binary_round prec emax s m e) = true.
Proof.
  intros He. unfold binary_round, shl_align.
  remember (fexp prec emax (Z.pos (digits2_pos m) + e)) as e' eqn:E'.
  assert (emin <= e').
  { subst e'. unfold fexp. lia. }
  destruct (e' - e) as [|d|d]; apply binary_round_aux_strict; lia.
Qed.

Lemma binary_normalize_strict (z e : Z) (b : bool) :
  z <> 0 -> emin <= e ->
  sf_strict (z <? 0) (binary_normalize prec emax z e b) = true.
Proof.
  intros Hz He. destruct z as [|p|p]; [lia | |]; cbn [binary_normalize];
    apply binary_round_strict; exact He.
Qed.

Lemma shl_align_units (m : positive) (e ez : Z) :
  ez <= e -> emin <= ez ->
  Z.pos (fst (shl_align m e ez)) * 2 ^ (ez - emin) = Z.pos m * 2 ^ (e - emin).
Proof.
  intros H1 H2. unfold shl_align.
  destruct (ez - e) as [|d|d] eqn:E; cbn [fst].
  - replace ez with e by lia. reflexivity.
  - lia.
  - rewrite shift_pos_iter.
    replace (e - emin) with (Z.pos d + (ez - emin)) by lia.
    rewrite Z.pow_add_r by lia. ring.
Qed.

(** The difference of two zero-or-finite floats has the sign of the
    difference of their values, strictly. *)
Lemma SFsub_strict (x y : spec_float) :
  valid_binary x = true -> valid_binary y = true ->
  sf_finite x = true -> sf_finite y = true ->
  sf_units x <> sf_units y ->
  sf_strict (sf_units x <? sf_units y) (SFsub prec emax x y) = true.
Proof.
  intros Vx Vy Fx Fy Hne.
  destruct x as [sx|sx| |sx mx ex]; try discriminate;
    destruct y as [sy|sy| |sy my ey]; try discriminate; cbn [sf_units] in *.
  - congruence.
  - cbn in Vy. pose proof (bounded_facts _ _ Vy) as (L & _ & _).
    pose proof (units_pos my ey L) as Hp.
    cbn [SFsub sf_strict]. destruct sy; cbn [cond_Zopp negb]; apply eqb_true_iff; lia.
  - cbn in Vx. pose proof (bounded_facts _ _ Vx) as (L & _ & _).
    pose proof (units_pos mx ex L) as Hp.
    cbn [SFsub sf_strict]. destruct sx; cbn [cond_Zopp negb]; apply eqb_true_iff; lia.
  - cbn in Vx, Vy.
    pose proof (bounded_facts _ _ Vx) as (Lx & _ & _).
    pose proof (bounded_facts _ _ Vy) as (Ly & _ & _).
    cbn [SFsub].
    set (ez := Z.min ex ey).
    pose proof (shl_align_units mx ex ez ltac:(lia) ltac:(lia)) as Ax.
    pose proof (shl_align_units my ey ez ltac:(lia) ltac:(lia)) as Ay.
    set (ax := Z.pos (fst (shl_align mx ex ez))) in *.
    set (ay := Z.pos (fst (shl_align my ey ez))) in *.
    assert (HK : 0 < 2 ^ (ez - emin)) by (apply Z.pow_pos_nonneg; lia).
    assert (Hu : sf_units (S754_finite sx mx ex) - sf_units (S754_finite sy my ey)
                 = (cond_Zopp sx ax - cond_Zopp sy ay) * 2 ^ (ez - emin)).
    { cbn [sf_units]. rewrite <- Ax, <- Ay. destruct sx, sy; cbn [cond_Zopp]; ring. }
    cbn [sf_units] in Hu.
    set (ux := cond_Zopp sx (Z.pos mx * 2 ^ (ex - emin))) in *.
    set (uy := cond_Zopp sy (Z.pos my * 2 ^ (ey - emin))) in *.
    set (dz := cond_Zopp sx ax - cond_Zopp sy ay) in *.
    assert (Hdz : dz <> 0) by nia.
    assert (Hs : (ux <? uy) = (dz <? 0)).
    { destruct (Z.ltb_spec ux uy), (Z.ltb_spec dz 0); try reflexivity; nia. }
    rewrite Hs. apply binary_normalize_strict; [exact Hdz | lia].
Qed.

Lemma bounded_units_lt (m : positive) (e : Z) :
  bounded prec emax m e = true -> 0 < Z.pos m * 2 ^ (e - emin) < 2 ^ 2098.
Proof.
  intros B. pose proof (bounded_facts m e B) as (L & U & _).
  unfold bounded in B. apply andb_prop in B. destruct B as [_ B]. apply Z.leb_le in B.
  unfold SpecFloat.emin, prec, emax in *.
  split; [apply (units_pos m e); unfold SpecFloat.emin, prec, emax; lia|].
  assert (H1 : 2 ^ (e - (3 - 1024 - 53)) <= 2 ^ 2045) by (apply Z.pow_le_mono_r; lia).
  assert (H0 : 0 < 2 ^ (e - (3 - 1024 - 53))) by (apply Z.pow_pos_nonneg; lia).
  replace (2 ^ 2098) with (2 ^ 53 * 2 ^ 2045) by (rewrite <- Z.pow_add_r by lia; reflexivity).
  remember (2 ^ (e - (3 - 1024 - 53))) as K. remember (2 ^ 2045) as K'. remember (2 ^ 53) as T.
  assert (Z.pos m * K < T * K) by (apply Z.mul_lt_mono_pos_r; lia).
  assert (T * K <= T * K') by (apply Z.mul_le_mono_nonneg_l; lia).
  lia.
Qed.

Lemma SFcompare_key (x y : spec_float) :
  valid_binary x = true -> valid_binary y = true ->
  sf_is_nan x = false -> sf_is_nan y = false ->
  SFcompare x y = Some (sf_key x ?= sf_key y).
Proof.
  intros Vx Vy Nx Ny.
  destruct x as [sx|sx| |sx mx ex]; try discriminate;
    destruct y as [sy|sy| |sy my ey]; try discriminate;
    try (apply SFcompare_units; auto; fail);
    cbn [SFcompare sf_key sf_units].
  - destruct sy; reflexivity.
  - destruct sx; reflexivity.
  - destruct sx, sy; reflexivity.
  - cbn in Vy. pose proof (bounded_units_lt my ey Vy).
    destruct sx, sy; cbn [cond_Zopp]; f_equal; symmetry;
      (apply Z.compare_lt_iff || apply Z.compare_gt_iff); lia.
  - cbn in Vx. pose proof (bounded_units_lt mx ex Vx).
    destruct sx, sy; cbn [cond_Zopp]; f_equal; symmetry;
      (apply Z.compare_lt_iff || apply Z.compare_gt_iff); lia.
Qed.

Local Open Scope float_scope.

Lemma ltb_true_not_nan (x y : float) :
  (x <? y) = true -> sf_is_nan (Prim2SF x) = false /\ sf_is_nan (Prim2SF y) = false.
Proof.
  rewrite ltb_spec. unfold SFltb.
  destruct (Prim2SF x), (Prim2SF y); cbn; auto; discriminate.
Qed.

Lemma ltb_key (x y : float) :
  (x <? y) = true -> (sf_key (Prim2SF x) < sf_key (Prim2SF y))%Z.
Proof.
  intros H. pose proof (ltb_true_not_nan x y H) as [Nx Ny].
  rewrite ltb_spec in H. unfold SFltb in H.
  rewrite (SFcompare_key _ _ (Prim2SF_valid x) (Prim2SF_valid y) Nx Ny) in H.
  destruct (Z.compare_spec (sf_key (Prim2SF x)) (sf_key (Prim2SF y))); try discriminate.
  assumption.
Qed.

Lemma key_ltb (x y : float) :
  sf_is_nan (Prim2SF x) = false -> sf_is_nan (Prim2SF y) = false ->
  (sf_key (Prim2SF x) < sf_key (Prim2SF y))%Z -> (x <? y) = true.
Proof.
  intros Nx Ny H. rewrite ltb_spec. unfold SFltb.
  rewrite (SFcompare_key _ _ (Prim2SF_valid x) (Prim2SF_valid y) Nx Ny).
  apply Z.compare_lt_iff in H. rewrite H. reflexivity.
Qed.

(** [<] on floats is transitive. *)
Lemma ltb_trans (x y z : float) :
  (x <? y) = true -> (y <? z) = true -> (x <? z) = true.
Proof.
  intros H1 H2.
  pose proof (ltb_true_not_nan _ _ H1) as [Nx _].
  pose proof (ltb_true_not_nan _ _ H2) as [_ Nz].
  apply ltb_key in H1. apply ltb_key in H2.
  apply key_ltb; auto. lia.
Qed.

(** If [x < y] then [x - y] is negative and [y - x] positive: a
    difference of distinct floats does not round to zero. *)
Lemma sub_of_ltb (x y : float) :
  (x <? y) = true -> (x - y <? 0) = true /\ (0 <? y - x) = true.
Proof.
  intros H. pose proof (ltb_true_not_nan _ _ H) as [Nx Ny].
  pose proof (ltb_key _ _ H) as Hk.
  rewrite ltb_neg_0, ltb_0_pos, !sub_spec.
  pose proof (Prim2SF_valid x) as Vx. pose proof (Prim2SF_valid y) as Vy.
  destruct (Prim2SF x) as [sx|sx| |sx mx ex] eqn:Ex; try discriminate;
    destruct (Prim2SF y) as [sy|sy| |sy my ey] eqn:Ey; try discriminate.
  all: try (
    (* both zero or finite *)
    assert (Hu : (sf_units (Prim2SF x) < sf_units (Prim2SF y))%Z)
      by (rewrite Ex, Ey; exact Hk);
    rewrite Ex, Ey in Hu;
    match goal with
    | |- sf_neg (SF64sub ?a ?b) = true /\ sf_pos (SF64sub ?b ?a) = true =>
        pose proof (SFsub_strict a b Vx Vy eq_refl eq_refl ltac:(lia)) as S1;
        pose proof (SFsub_strict b a Vy Vx eq_refl eq_refl ltac:(lia)) as S2;
        replace (sf_units a <? sf_units b)%Z with true in S1 by (symmetry; apply Z.ltb_lt; lia);
        replace (sf_units b <? sf_units a)%Z with false in S2 by (symmetry; apply Z.ltb_ge; lia);
        unfold SF64sub;
        destruct (SFsub prec emax a b) as [?|s1| |s1 ? ?]; try discriminate;
        destruct (SFsub prec emax b a) as [?|s2| |s2 ? ?]; try discriminate;
        cbn in S1, S2 |- *; destruct s1, s2; try discriminate; auto
    end; fail).
  all: unfold SF64sub; cbn [sf_key sf_units] in Hk.
  - destruct sy; cbn [cond_Zopp] in Hk; [lia | split; reflexivity].
  - destruct sx; cbn [cond_Zopp] in Hk; [split; reflexivity | lia].
  - destruct sx, sy; cbn [cond_Zopp] in Hk; try lia. split; reflexivity.
  - cbn in Vy. pose proof (bounded_units_lt my ey Vy).
    destruct sx, sy; cbn [cond_Zopp] in Hk; try lia; split; reflexivity.
  - cbn in Vx. pose proof (bounded_units_lt mx ex Vx).
    destruct sx, sy; cbn [cond_Zopp] in Hk; try lia; split; reflexivity.
Qed.

End Binary64.

(** ** Signs of the engine's quantities *)

Lemma ltb_not_leb (x y : float) : (x <? y) = true -> (y <=? x) = false.
Proof.
  intros H. pose proof (ltb_true_not_nan _ _ H) as [Nx Ny].
  apply ltb_key in H.
  rewrite leb_spec. unfold SFleb.
  rewrite (SFcompare_key _ _ (Prim2SF_valid y) (Prim2SF_valid x) Ny Nx).
  apply Z.compare_gt_iff in H. rewrite H. reflexivity.
Qed.

Lemma ltb_asym (x y : float) : (x <? y) = true -> (y <? x) = false.
Proof.
  intros H. pose proof (ltb_true_not_nan _ _ H) as [Nx Ny].
  apply ltb_key in H.
  rewrite ltb_spec. unfold SFltb.
  rewrite (SFcompare_key _ _ (Prim2SF_valid y) (Prim2SF_valid x) Ny Nx).
  apply Z.compare_gt_iff in H. rewrite H. reflexivity.
Qed.

Lemma pos_signed (x : float) : (0 <? x) = true -> sf_signed false (Prim2SF x) = true.
Proof.
  rewrite ltb_0_pos. destruct (Prim2SF x) as [s|s| |s m e]; cbn; try discriminate;
    destruct s; cbn; auto.
Qed.

Lemma signed_nonneg (x : float) : sf_signed false (Prim2SF x) = true -> (0 <=? x) = true.
Proof.
  rewrite leb_0_nonneg. destruct (Prim2SF x) as [s|s| |s m e]; cbn; try discriminate;
    destruct s; cbn; auto.
Qed.

Lemma div_const_signed (x c : float) (mc : positive) (ec : Z) :
  Prim2SF c = S754_finite false mc ec ->
  sf_signed false (Prim2SF x) = true -> sf_signed false (Prim2SF (x / c)) = true.
Proof.
  intros Hc Hx. rewrite div_spec.
  apply (SFdiv_signed false false _ _ Hx mc ec Hc).
Qed.

Lemma mul_const_signed (x c : float) (mc : positive) (ec : Z) :
  Prim2SF c = S754_finite false mc ec ->
  sf_signed false (Prim2SF x) = true -> sf_signed false (Prim2SF (x * c)) = true.
Proof.
  intros Hc Hx. rewrite mul_spec.
  apply (SFmul_signed false false _ _ Hx mc ec Hc).
Qed.

Ltac float_const := vm_compute; reflexivity.

(** The per-hectare and per-acre quantities of an engine item are not
    negative when the kilograms needed are not. *)
Lemma engine_item_nonneg (nm : string) (needed a : float) (prov : fstring) (c : float) :
  sf_signed false (Prim2SF needed) = true ->
  (0 <=? quantity_kg_per_hectare (engine_item nm needed a prov c)) = true /\
  (0 <=? quantity_kg_per_acre (engine_item nm needed a prov c)) = true.
Proof.
  intros H. cbn [engine_item quantity_kg_per_hectare quantity_kg_per_acre]. split.
  - apply signed_nonneg, py_round_signed; [lia | exact H].
  - apply signed_nonneg, py_round_signed; [lia|].
    eapply mul_const_signed; [float_const | exact H].
Qed.

Lemma n_from_dap_signed (p : float) :
  (0 <? p) = true -> sf_signed false (Prim2SF (n_from_dap p)) = true.
Proof.
  intros H. unfold n_from_dap, dap_needed_kg.
  eapply mul_const_signed; [float_const|].
  eapply div_const_signed; [float_const|].
  apply pos_signed, H.
Qed.

(** No item of a run has a negative quantity. *)
Lemma engine_items_nonneg (n p k a : float) :
  Forall (fun it => (0 <=? quantity_kg_per_hectare it) = true /\
                    (0 <=? quantity_kg_per_acre it) = true)
         (engine_items n p k a).
Proof.
  unfold engine_items.
  apply Forall_app; split; [|apply Forall_app; split].
  - destruct (0 <? p) eqn:Hp; constructor; [|constructor].
    apply engine_item_nonneg. unfold dap_needed_kg.
    eapply div_const_signed; [float_const | apply pos_signed, Hp].
  - destruct (0 <? k) eqn:Hk; constructor; [|constructor].
    apply engine_item_nonneg.
    eapply div_const_signed; [float_const | apply pos_signed, Hk].
  - destruct (0 <? nitrogen_after_dap n p) eqn:Hn; constructor; [|constructor].
    apply engine_item_nonneg.
    eapply div_const_signed; [float_const | apply pos_signed, Hn].
Qed.

(** With no nitrogen requested, none is owed after the DAP step. *)
Lemma no_nitrogen_owed (n p : float) :
  (n =? 0) = true -> (0 <? nitrogen_after_dap n p) = false.
Proof.
  rewrite eqb_0_zero. intros Hn. unfold nitrogen_after_dap.
  destruct (0 <? p) eqn:Hp.
  - pose proof (n_from_dap_signed p Hp) as Hs.
    rewrite ltb_0_pos, sub_spec.
    destruct (Prim2SF n) as [sn|sn| |sn mn en]; try discriminate.
    destruct (Prim2SF (n_from_dap p)) as [s|s| |s m e]; cbn in Hs; try discriminate;
      destruct s; try discriminate; destruct sn; reflexivity.
  - rewrite ltb_0_pos. destruct (Prim2SF n); try discriminate. reflexivity.
Qed.

Lemma zero_not_pos (x : float) : (x =? 0) && (0 <? x) = false.
Proof.
  rewrite eqb_0_zero, ltb_0_pos. destruct (Prim2SF x); reflexivity.
Qed.

Lemma emits_engine_items (n p k a : float) :
  emits DAP_NAME (engine_items n p k a) = (0 <? p) /\
  emits MOP_NAME (engine_items n p k a) = (0 <? k) /\
  emits UREA_NAME (engine_items n p k a) = (0 <? nitrogen_after_dap n p).
Proof.
  unfold engine_items.
  destruct (0 <? p), (0 <? k), (0 <? nitrogen_after_dap n p); repeat split; reflexivity.
Qed.

(** ** Which items the engine emits *)

(** C3.  For all inputs the engine returns, and it emits a DAP item iff
    required_p > 0, an MOP item iff required_k > 0 and a Urea item iff the
    nitrogen remaining after the DAP step is > 0; each emitted item is
    emitted once, in the order DAP, MOP, Urea.  A nutrient that is exactly 0
    gets no item: required_p = 0 excludes DAP, required_k = 0 excludes MOP,
    required_n = 0 excludes Urea. *)
Theorem engine_emits_per_nutrient :
  forall n p k a : float,
    exists (st1 : EngineState) (r : Recommendations),
      dap_step a (initial_state n p k) = Some st1 /\
      n_remaining st1 = nitrogen_after_dap n p /\
      recommend_fertilizers n p k a = Some r /\
      fertilizers r =
        (if 0 <? p then [dap_item a p] else []) ++
        (if 0 <? k then [mop_item a k] else []) ++
        (if 0 <? n_remaining st1 then [urea_item a (n_remaining st1)] else []) /\
      emits DAP_NAME (fertilizers r) = (0 <? p) /\
      emits MOP_NAME (fertilizers r) = (0 <? k) /\
      emits UREA_NAME (fertilizers r) = (0 <? n_remaining st1) /\
      (p =? 0) && emits DAP_NAME (fertilizers r) = false /\
      (k =? 0) && emits MOP_NAME (fertilizers r) = false /\
      (n =? 0) && emits UREA_NAME (fertilizers r) = false.
Proof.
  intros n p k a.
  destruct (recommend_fertilizers_items n p k a) as (r & Hr & Hf).
  pose proof (emits_engine_items n p k a) as (Ed & Em & Eu).
  eexists. exists r.
  split; [apply dap_step_eq|].
  assert (Hn : n_remaining
                 (if 0 <? p_remaining (initial_state n p k)
                  then mkEngineState
                         (recommendations (initial_state n p k) ++
                            [dap_item a (p_remaining (initial_state n p k))])
                         (total_cost_acc (initial_state n p k) +
                            dap_needed_kg (p_remaining (initial_state n p k)) * 27)
                         (n_remaining (initial_state n p k) -
                            n_from_dap (p_remaining (initial_state n p k)))
                         0 (k_remaining (initial_state n p k))
                  else initial_state n p k) = nitrogen_after_dap n p).
  { unfold nitrogen_after_dap. cbn [initial_state p_remaining n_remaining].
    destruct (0 <? p); reflexivity. }
  rewrite Hn, Hf, Ed, Em, Eu.
  repeat split; try assumption; try reflexivity.
  - apply zero_not_pos.
  - apply zero_not_pos.
  - destruct (n =? 0) eqn:E; [|reflexivity]. cbn [andb]. apply no_nitrogen_owed, E.
Qed.

(** ** Nitrogen carried by DAP against the nitrogen requested *)

(** C4, as stated, fails: for required_n = 10 and required_p = 60 the DAP
    quantity carries 23.5 kg N (to one decimal), more than the 10 kg
    requested, and the nitrogen owed after the DAP step is negative, not 0. *)
Lemma dap_nitrogen_exceeds_request :
  (0 <? 60) = true /\
  (n_from_dap 60 <=? 10) = false /\
  exists (st1 : EngineState) (it : LineItem),
    dap_step 1 (initial_state 10 60 0) = Some st1 /\
    recommendations st1 = [it] /\
    provides it = [FFloat 23.5; FText " kg N + "; FFloat 60; FText " kg P₂O₅"] /\
    n_remaining st1 = 10 - n_from_dap 60 /\
    (n_remaining st1 <? 0) = true /\
    (n_remaining st1 =? 0) = false.
Proof.
  split; [reflexivity|]. split; [vm_compute; reflexivity|].
  eexists. eexists.
  split; [vm_compute; reflexivity|].
  repeat split; vm_compute; reflexivity.
Qed.

(** C4, amended.  With required_p > 0, when the nitrogen carried by the DAP
    quantity exceeds the nitrogen requested, the nitrogen owed after the DAP
    step is the negative difference (it is not reset to 0); the Urea step,
    which runs only when nitrogen is owed, is skipped, so no Urea item is
    emitted; and no emitted item has a negative per-hectare or per-acre
    quantity. *)
Theorem dap_nitrogen_overshoot :
  forall n p k a : float,
    (0 <? p) = true ->
    (n <? n_from_dap p) = true ->
    exists (st1 : EngineState) (r : Recommendations),
      dap_step a (initial_state n p k) = Some st1 /\
      n_remaining st1 = n - n_from_dap p /\
      (n_remaining st1 <? 0) = true /\
      (0 <? n_remaining st1) = false /\
      recommend_fertilizers n p k a = Some r /\
      emits UREA_NAME (fertilizers r) = false /\
      Forall (fun it => (0 <=? quantity_kg_per_hectare it) = true /\
                        (0 <=? quantity_kg_per_acre it) = true)
             (fertilizers r).
Proof.
  intros n p k a Hp Hlt.
  destruct (recommend_fertilizers_items n p k a) as (r & Hr & Hf).
  pose proof (emits_engine_items n p k a) as (_ & _ & Eu).
  pose proof (sub_of_ltb _ _ Hlt) as [Hneg _].
  assert (Hnot : (0 <? n - n_from_dap p) = false) by (apply ltb_asym, Hneg).
  eexists. exists r.
  split; [apply dap_step_eq|].
  cbn [initial_state p_remaining n_remaining]. rewrite Hp. cbn [n_remaining].
  repeat split; try assumption.
  - rewrite Hf, Eu. unfold nitrogen_after_dap. rewrite Hp. exact Hnot.
  - rewrite Hf. apply engine_items_nonneg.
Qed.

(** The overshoot at required_n = 10, required_p = 60. *)
Lemma dap_nitrogen_overshoot_witness :
  exists (st1 : EngineState) (r : Recommendations),
    dap_step 1 (initial_state 10 60 30) = Some st1 /\
    n_remaining st1 = 10 - n_from_dap 60 /\
    (n_remaining st1 <? 0) = true /\
    (0 <? n_remaining st1) = false /\
    recommend_fertilizers 10 60 30 1 = Some r /\
    emits UREA_NAME (fertilizers r) = false /\
    Forall (fun it => (0 <=? quantity_kg_per_hectare it) = true /\
                      (0 <=? quantity_kg_per_acre it) = true)
           (fertilizers r).
Proof.
  apply (dap_nitrogen_overshoot 10 60 30 1); vm_compute; reflexivity.
Defined.

(** ** Lime and gypsum quantities *)

(** Every rule after the pH rule only appends. *)
Lemma later_rules_append (ec oc p : option float) (l : list Improvement) :
  exists tail : list Improvement,
    maintenance_rule (green_manure_rule (phosphorus_rule p (oc_rule oc (ec_rule ec l))))
    = l ++ tail.
Proof.
  assert (He : exists t, ec_rule ec l = l ++ t).
  { unfold ec_rule. destruct ec as [e|]; [|exists []; symmetry; apply app_nil_r].
    destruct (float_truthy e && (2.0 <? e)); eexists; [reflexivity|].
    symmetry. apply app_nil_r. }
  destruct He as [t1 ->].
  assert (Ho : exists t, oc_rule oc (l ++ t1) = l ++ t).
  { unfold oc_rule. destruct oc as [c|]; [|exists t1; reflexivity].
    destruct (c <? 0.5); [rewrite <- app_assoc; eexists; reflexivity|].
    destruct ((0.5 <=? c) && (c <? 0.75)); [rewrite <- app_assoc|];
      eexists; reflexivity. }
  destruct Ho as [t2 ->].
  assert (Hp : exists t, phosphorus_rule p (l ++ t2) = l ++ t).
  { unfold phosphorus_rule. destruct p as [v|]; [|exists t2; reflexivity].
    destruct (v <? 10); [rewrite <- app_assoc|]; eexists; reflexivity. }
  destruct Hp as [t3 ->].
  assert (Hg : exists t, green_manure_rule (l ++ t3) = l ++ t).
  { unfold green_manure_rule.
    destruct (2 <=? List.length (l ++ t3))%nat; [rewrite <- app_assoc|];
      eexists; reflexivity. }
  destruct Hg as [t4 ->].
  unfold maintenance_rule.
  destruct (l ++ t4) eqn:E; [|exists t4; symmetry; exact E].
  apply app_eq_nil in E. destruct E as [-> ->]. eexists. reflexivity.
Qed.

Lemma advisor_head (ph : float) (ec oc n p k : option float) (first : Improvement) :
  ph_rule ph [] = Some [first] ->
  exists rest : list Improvement,
    get_soil_improvements ph ec oc n p k = Some (first :: rest).
Proof.
  intros H. unfold get_soil_improvements, threshold_rules. rewrite H. cbn [bind].
  destruct (later_rules_append ec oc p [first]) as [tail ->].
  exists tail. reflexivity.
Qed.

(** Below pH 5.5 the increase needed to reach 6.5 is positive. *)
Lemma lime_increase_positive (ph : float) :
  (ph <? 5.5) = true -> (6.5 - ph <=? 0) = false.
Proof.
  intros H.
  assert (H65 : (ph <? 6.5) = true) by (apply (ltb_trans ph 5.5 6.5); [exact H | reflexivity]).
  apply sub_of_ltb in H65. destruct H65 as [_ Hpos].
  apply ltb_not_leb, Hpos.
Qed.

(** C6, as stated, fails: at pH 5.0625 the product 1000 * (6.5 - pH) is
    1437.5, inside the clamp's range, and the advisor recommends 1437 kg/ha;
    at pH 5.4 the float product is just below 1100 and the advisor
    recommends 1099 kg/ha. *)
Lemma lime_quantity_is_truncated :
  (5.0625 <? 5.5) = true /\
  1000 * (6.5 - 5.0625) = 1437.5 /\
  (500 <=? 1437.5) && (1437.5 <=? 3000) = true /\
  calculate_lime_requirement 5.0625 = Some 1437%Z /\
  Z2float 1437 <> 1437.5 /\
  get_soil_improvements 5.0625 None None None None None = Some [lime_improvement 1437] /\
  quantity (lime_improvement 1437) = "1437 kg/ha" /\
  calculate_lime_requirement 5.4 = Some 1099%Z.
Proof.
  repeat match goal with |- _ /\ _ => split end; try (vm_compute; reflexivity).
  vm_compute. intros H.
  apply (f_equal Prim2SF) in H. vm_compute in H. discriminate H.
Qed.

(** The white space [strip] removes is Python's, not only ASCII's: a
    display name with a no-break space (U+00A0) or an em space (U+2003)
    before the parenthesis has the plain base name. *)
Remark base_name_strips_unicode_space :
  let nbsp := String (ascii_of_nat 194) (String (ascii_of_nat 160) EmptyString) in
  let emsp :=
    String (ascii_of_nat 226) (String (ascii_of_nat 128)
      (String (ascii_of_nat 131) EmptyString)) in
  base_name ("Urea" ++ nbsp ++ "(Neem coated)") = "Urea" /\
  base_name (emsp ++ " DAP" ++ emsp ++ nbsp ++ "(18-46-0)") = "DAP" /\
  dict_mem FERTILIZER_PRICES_INR (base_name ("Urea" ++ nbsp ++ "(Neem coated)")) = true.
Proof.
  repeat split.
Qed.

(** The text stored for an unlisted product, and the base names of a
    listed and of an unlisted display name. *)
Remark price_sentinel_text :
  PRICE_NOT_AVAILABLE = "Govt. price not available" /\
  contains "price not available" PRICE_NOT_AVAILABLE = true /\
  base_name "DAP (Diammonium Phosphate)" = "DAP" /\
  base_name "NPK 29-5-5" = "NPK 29-5-5" /\
  dict_mem FERTILIZER_PRICES_INR "NPK 29-5-5" = false.
Proof.
  repeat split.
Qed.


(** ** The biofertilizer item *)

Lemma sum_verified_costs_snoc_unverified (t : float) (l : list LineItem) (it : LineItem) :
  verified it = false -> sum_verified_costs t (l ++ [it]) = sum_verified_costs t l.
Proof.
  intros H. unfold sum_verified_costs. rewrite filter_app. cbn [filter]. rewrite H.
  rewrite app_nil_r. reflexivity.
Qed.

(** C5.  When the repricing loop returns, the biofertilizer item is
    appended iff organic_carbon is known and below 0.75; it is appended
    once, after the repriced items, with 2.0 kg per hectare, quantity_total
    2.0 * field_area, cost 0, is_verified false and application stage "Seed
    Treatment"; the recalculated total is the loop's total, to which the
    item adds nothing. *)
Theorem biofertilizer_rule :
  forall (recs : Recommendations) (a : float) (oc : option float)
         (ferts : list LineItem) (total : float),
    reprice_loop a (fertilizers recs) 0.0 = Some (ferts, total) ->
    exists (recs' : Recommendations) (needed : bool),
      price_fertilizers recs a oc = Some (recs', needed) /\
      (needed = true <-> exists v : float, oc = Some v /\ (v <? 0.75) = true) /\
      fertilizers recs' = ferts ++ (if needed then [biofertilizer_item a] else []) /\
      total_cost recs' = total /\
      total_cost recs' = sum_verified_costs 0.0 (fertilizers recs') /\
      fertilizer (biofertilizer_item a) = "Biofertilizer (Rhizobium/Azotobacter)" /\
      quantity_kg_per_hectare (biofertilizer_item a) = 2.0 /\
      quantity_total (biofertilizer_item a) = Some (2.0 * a) /\
      cost (biofertilizer_item a) = PyInt 0 /\
      is_verified (biofertilizer_item a) = Some false /\
      application_stage (biofertilizer_item a) = Some "Seed Treatment".
Proof.
  intros recs a oc ferts total Hloop.
  pose proof (repricing_sum a (fertilizers recs)) as Hsum.
  rewrite Hloop in Hsum.
  unfold price_fertilizers. rewrite Hloop. cbn [bind fst snd].
  eexists. eexists. split; [reflexivity|].
  cbn [fertilizers total_cost].
  split; [|split; [|split; [|split]]].
  - unfold biofertilizer_condition. destruct oc as [v|].
    + split; [intros H; exists v; auto | intros (v' & [= <-] & H); exact H].
    + split; [discriminate | intros (v' & [=] & _)].
  - destruct (biofertilizer_condition oc); [reflexivity | symmetry; apply app_nil_r].
  - reflexivity.
  - destruct (biofertilizer_condition oc); [|exact Hsum].
    rewrite sum_verified_costs_snoc_unverified; [exact Hsum | reflexivity].
  - repeat split.
Qed.

(** Scenario E on the items of Scenario A: organic carbon 0.4. *)
Lemma biofertilizer_rule_witness :
  exists (recs' : Recommendations) (needed : bool),
    price_fertilizers scenario_A 1 (Some 0.4) = Some (recs', needed) /\
    (needed = true <-> exists v : float, Some 0.4 = Some v /\ (v <? 0.75) = true) /\
    fertilizers recs' =
      fst (match reprice_loop 1 (fertilizers scenario_A) 0.0 with
           | Some r => r
           | None => ([], 0)
           end) ++ (if needed then [biofertilizer_item 1] else []) /\
    total_cost recs' = 7080 /\
    total_cost recs' = sum_verified_costs 0.0 (fertilizers recs') /\
    fertilizer (biofertilizer_item 1) = "Biofertilizer (Rhizobium/Azotobacter)" /\
    quantity_kg_per_hectare (biofertilizer_item 1) = 2.0 /\
    quantity_total (biofertilizer_item 1) = Some (2.0 * 1) /\
    cost (biofertilizer_item 1) = PyInt 0 /\
    is_verified (biofertilizer_item 1) = Some false /\
    application_stage (biofertilizer_item 1) = Some "Seed Treatment".
Proof.
  apply (biofertilizer_rule scenario_A 1 (Some 0.4)).
  vm_compute. reflexivity.
Defined.

(** ** Engine items against the price table *)

Lemma engine_items_listed (n p k a : float) :
  Forall engine_name_listed (engine_items n p k a).
Proof.
  assert (Hd : engine_name_listed (dap_item a p)) by (split; [left|]; reflexivity).
  assert (Hm : engine_name_listed (mop_item a k)) by (split; [right; left|]; reflexivity).
  assert (Hu : engine_name_listed (urea_item a (nitrogen_after_dap n p)))
    by (split; [right; right|]; reflexivity).
  unfold engine_items.
  destruct (0 <? p), (0 <? k), (0 <? nitrogen_after_dap n p); cbn [app];
    repeat (apply Forall_cons; [assumption|]); apply Forall_nil.
Qed.

Lemma repriced_listed (a : float) (it it' : LineItem) :
  repriced a it it' -> engine_name_listed it -> priced_from_table it it'.
Proof.
  unfold repriced, engine_name_listed, priced_from_table, dict_mem.
  intros (bags & _ & Hn & _ & _ & H) (_ & Hm).
  destruct (dict_get FERTILIZER_PRICES_INR (base_name (fertilizer it))) as [entry|];
    [|discriminate].
  destruct H as (Hp & _ & Hv). split; [exact Hn|]. split; [exact Hv|].
  eexists. exact Hp.
Qed.

Lemma Forall2_listed (a : float) (l l' : list LineItem) :
  Forall2 (repriced a) l l' -> Forall engine_name_listed l ->
  Forall2 priced_from_table l l'.
Proof.
  induction 1 as [|it it' l l' Hr _ IH]; intros Hl; [constructor|].
  inversion Hl; subst. constructor; [apply (repriced_listed a); assumption | apply IH; assumption].
Qed.

Lemma Forall2_verified (l l' : list LineItem) :
  Forall2 priced_from_table l l' -> Forall (fun it' => verified it' = true) l'.
Proof.
  induction 1 as [|it it' l l' (_ & Hv & _) _ IH]; constructor; [|exact IH].
  unfold verified. rewrite Hv. reflexivity.
Qed.

(** C10.  The base names of the engine's three display names are "DAP",
    "MOP" and "Urea", all keys of FERTILIZER_PRICES_INR.  The engine always
    returns, every item it returns carries one of the three names, and the
    pricing pass over its result either raises (on [math.ceil] or on the
    float conversion of a cost) or leaves every engine item with
    is_verified = true and an integer price: the not-found branch is never
    taken for them, and an item of the final list that is not verified is
    the appended biofertilizer item. *)
Theorem engine_items_are_priced :
  forall n p k a : float,
    base_name DAP_NAME = "DAP" /\
    base_name MOP_NAME = "MOP" /\
    base_name UREA_NAME = "Urea" /\
    dict_mem FERTILIZER_PRICES_INR "DAP" = true /\
    dict_mem FERTILIZER_PRICES_INR "MOP" = true /\
    dict_mem FERTILIZER_PRICES_INR "Urea" = true /\
    exists r : Recommendations,
      recommend_fertilizers n p k a = Some r /\
      Forall engine_name_listed (fertilizers r) /\
      forall oc : option float,
        match price_fertilizers r a oc with
        | Some (recs', needed) =>
            exists ferts : list LineItem,
              fertilizers recs' = ferts ++ (if needed then [biofertilizer_item a] else []) /\
              Forall2 priced_from_table (fertilizers r) ferts /\
              (forall it' : LineItem,
                 In it' (fertilizers recs') -> verified it' = false ->
                 needed = true /\ it' = biofertilizer_item a)
        | None => Exists (reprice_raises a) (fertilizers r)
        end.
Proof.
  intros n p k a.
  repeat match goal with |- _ = _ /\ _ => split; [reflexivity|] end.
  destruct (recommend_fertilizers_items n p k a) as (r & Hr & Hf).
  exists r. split; [exact Hr|].
  pose proof (engine_items_listed n p k a) as Hl. rewrite <- Hf in Hl.
  split; [exact Hl|].
  intros oc. unfold price_fertilizers.
  pose proof (reprice_loop_spec a (fertilizers r) 0.0) as Hs.
  destruct (reprice_loop a (fertilizers r) 0.0) as [[ferts total]|]; cbn [bind fst snd];
    [|exact Hs].
  destruct Hs as (H2 & _ & _).
  pose proof (Forall2_listed a _ _ H2 Hl) as Hp.
  pose proof (Forall2_verified _ _ Hp) as Hv.
  exists ferts. cbn [fertilizers].
  split; [destruct (biofertilizer_condition oc); [reflexivity | symmetry; apply app_nil_r]|].
  split; [exact Hp|].
  intros it' Hin Hun. rewrite Forall_forall in Hv.
  destruct (biofertilizer_condition oc).
  - apply in_app_or in Hin. destruct Hin as [Hin|[<-|[]]].
    + specialize (Hv it' Hin). congruence.
    + auto.
  - specialize (Hv it' Hin). congruence.
Qed.

(** The pricing of Scenario A with organic carbon 0.4: the three engine
    items are verified, the biofertilizer item is not. *)
Lemma engine_items_are_priced_witness :
  exists r recs',
    recommend_fertilizers 120 60 30 1 = Some r /\
    price_fertilizers r 1 (Some 0.4) = Some (recs', true) /\
    map verified (fertilizers recs') = [true; true; true; false] /\
    exists ferts : list LineItem,
      fertilizers recs' = ferts ++ [biofertilizer_item 1] /\
      Forall2 priced_from_table (fertilizers r) ferts.
Proof.
  destruct (engine_items_are_priced 120 60 30 1) as (_ & _ & _ & _ & _ & _ & r & Hr & _ & H).
  specialize (H (Some 0.4)).
  assert (Er : r = scenario_A).
  { unfold scenario_A. rewrite Hr. reflexivity. }
  subst r.
  destruct (price_fertilizers scenario_A 1 (Some 0.4)) as [[recs' needed]|] eqn:E.
  - assert (En : needed = true) by (vm_compute in E; congruence).
    subst needed.
    exists scenario_A, recs'. split; [exact Hr|]. split; [exact E|].
    split; [vm_compute in E; injection E as <-; reflexivity|].
    destruct H as (ferts & H1 & H2 & _). exists ferts. auto.
  - vm_compute in E. discriminate E.
Defined.

(** * Further properties of the pipeline *)

Import NumberType Inference StoredRecord Observe2.

(** ** The engine's result in full *)

Lemma recommend_fertilizers_eq (n p k a : float) :
  recommend_fertilizers n p k a =
  Some (mkRecommendations (engine_items n p k a)
          (py_round (engine_total n p k) 2)
          (_get_application_timing n p k)
          _get_application_method).
Proof.
  unfold recommend_fertilizers, engine_items, engine_total, nitrogen_after_dap.
  rewrite dap_step_eq. cbn [bind p_remaining].
  rewrite mop_step_eq. cbn [bind]. rewrite urea_step_eq. cbn [bind].
  destruct (0 <? p); cbn [bind k_remaining n_remaining recommendations app total_cost_acc];
    destruct (0 <? k); cbn [bind k_remaining n_remaining recommendations app total_cost_acc];
    match goal with |- context [0 <? ?x] => destruct (0 <? x) end;
    reflexivity.
Qed.

(** X1.  Per-hectare results do not depend on the field area.  Two runs that
    differ only in field_area_hectares emit the same products with the same
    per-hectare and per-acre quantities, nutrient texts and rough costs, the
    same rough total cost and the same timing and method texts; only
    quantity_total can differ. *)
Theorem engine_area_independent :
  forall n p k a a' : float,
    exists r r' : Recommendations,
      recommend_fertilizers n p k a = Some r /\
      recommend_fertilizers n p k a' = Some r' /\
      map per_hectare_fields (fertilizers r) = map per_hectare_fields (fertilizers r') /\
      total_cost r = total_cost r' /\
      application_timing r = application_timing r' /\
      application_method r = application_method r'.
Proof.
  intros n p k a a'. rewrite !recommend_fertilizers_eq.
  eexists. eexists. split; [reflexivity|]. split; [reflexivity|].
  cbn [fertilizers total_cost application_timing application_method].
  repeat split.
  unfold engine_items.
  destruct (0 <? p), (0 <? k), (0 <? nitrogen_after_dap n p); reflexivity.
Qed.

(** ** Timing text against the emitted items *)

Lemma timing_text_cases (n p k : float) :
  contains "of Urea" (_get_application_timing n p k) = (0 <? n) /\
  contains "Apply all DAP and MOP" (_get_application_timing n p k) = (0 <? p) || (0 <? k) /\
  (_get_application_timing n p k =? "")%string = negb ((0 <? n) || (0 <? p) || (0 <? k)).
Proof.
  unfold _get_application_timing.
  destruct (0 <? n), (0 <? p), (0 <? k); repeat split; reflexivity.
Qed.

(** A float that is not positive is NaN, a zero, or negative. *)
Lemma not_pos_cases (x : float) :
  (0 <? x) = false ->
  sf_is_nan (Prim2SF x) = true \/ (x =? 0) = true \/ (x <? 0) = true.
Proof.
  rewrite ltb_0_pos, eqb_0_zero, ltb_neg_0.
  destruct (Prim2SF x) as [s|s| |s m e]; cbn; auto; destruct s; cbn; auto; discriminate.
Qed.

Lemma sub_nan_l (x y : float) :
  sf_is_nan (Prim2SF x) = true -> (0 <? x - y) = false.
Proof.
  intros H. rewrite ltb_0_pos, sub_spec.
  destruct (Prim2SF x); try discriminate. reflexivity.
Qed.

(** Nitrogen is owed after the DAP step only if nitrogen was requested. *)
Lemma owed_needs_request (n p : float) :
  (0 <? nitrogen_after_dap n p) = true -> (0 <? n) = true.
Proof.
  intros H. destruct (0 <? n) eqn:Hn; [reflexivity|]. exfalso.
  unfold nitrogen_after_dap in H. destruct (0 <? p) eqn:Hp; [|congruence].
  destruct (not_pos_cases n Hn) as [Hnan|[Hz|Hneg]].
  - rewrite (sub_nan_l n _ Hnan) in H. discriminate.
  - pose proof (no_nitrogen_owed n p Hz) as H0. unfold nitrogen_after_dap in H0.
    rewrite Hp in H0. congruence.
  - pose proof (n_from_dap_signed p Hp) as Hs.
    assert (Hlt : (n <? n_from_dap p) = true).
    { pose proof (ltb_true_not_nan _ _ Hneg) as [Nn _].
      apply ltb_key in Hneg. change (sf_key (Prim2SF 0)) with 0%Z in Hneg.
      apply key_ltb; [exact Nn | |].
      - destruct (Prim2SF (n_from_dap p)); try discriminate; reflexivity.
      - pose proof (Prim2SF_valid (n_from_dap p)) as V.
        destruct (Prim2SF (n_from_dap p)) as [s|s| |s m e]; cbn in Hs; try discriminate;
          destruct s; try discriminate; cbn [sf_key sf_units cond_Zopp].
        + lia.
        + assert (0 < 2 ^ 2098)%Z by (apply Z.pow_pos_nonneg; lia). lia.
        + cbn in V. pose proof (bounded_units_lt m e V). lia. }
    apply sub_of_ltb in Hlt. destruct Hlt as [Hlt _].
    apply ltb_asym in Hlt. congruence.
Qed.

(** X2.  The timing text against the items.  The basal line for DAP and MOP is
    in the timing text iff a DAP or an MOP item is emitted; the three Urea
    lines are there iff required_n > 0, which every run that emits a Urea
    item satisfies; the text is empty iff no item is emitted and no
    nitrogen was requested.  The Urea lines do not need a Urea item: for
    required_n = 10 and required_p = 60 the text splits the Urea dose and
    no Urea item is emitted. *)
Theorem timing_matches_items :
  forall n p k a : float,
    exists r : Recommendations,
      recommend_fertilizers n p k a = Some r /\
      contains "Apply all DAP and MOP" (application_timing r)
        = emits DAP_NAME (fertilizers r) || emits MOP_NAME (fertilizers r) /\
      contains "of Urea" (application_timing r) = (0 <? n) /\
      emits UREA_NAME (fertilizers r) && negb (contains "of Urea" (application_timing r))
        = false /\
      (application_timing r =? "")%string
        = negb (0 <? n) && negb (emits DAP_NAME (fertilizers r))
          && negb (emits MOP_NAME (fertilizers r)) /\
      exists r0 : Recommendations,
        recommend_fertilizers 10 60 0 a = Some r0 /\
        contains "of Urea" (application_timing r0) = true /\
        emits UREA_NAME (fertilizers r0) = false.
Proof.
  intros n p k a. rewrite recommend_fertilizers_eq. eexists. split; [reflexivity|].
  cbn [fertilizers application_timing].
  pose proof (emits_engine_items n p k a) as (Ed & Em & Eu).
  pose proof (timing_text_cases n p k) as (Tu & Tb & Te).
  rewrite Ed, Em, Eu, Tu, Tb, Te.
  split; [reflexivity|]. split; [reflexivity|]. split.
  - destruct (0 <? nitrogen_after_dap n p) eqn:E; [|reflexivity].
    rewrite (owed_needs_request n p E). reflexivity.
  - split.
    + destruct (0 <? n), (0 <? p), (0 <? k); reflexivity.
    + rewrite recommend_fertilizers_eq. eexists. split; [reflexivity|].
      cbn [fertilizers application_timing].
      pose proof (emits_engine_items 10 60 0 a) as (_ & _ & Eu0).
      pose proof (timing_text_cases 10 60 0) as (Tu0 & _ & _).
      rewrite Eu0, Tu0. split; vm_compute; reflexivity.
Qed.

(** ** Clamped predictions *)

Lemma max0_nonneg (x : float) : (0 <=? max0 x) = true.
Proof.
  unfold max0. destruct (0 <? x) eqn:E; [|reflexivity].
  apply signed_nonneg, pos_signed, E.
Qed.

Lemma max0_pos (x : float) : (0 <? max0 x) = (0 <? x).
Proof.
  unfold max0. destruct (0 <? x) eqn:E; [exact E | reflexivity].
Qed.

(** X3.  Whatever the model predicts, the requirements [predict_nutrients]
    returns are at least 0 (never negative, never NaN).  With them the
    engine emits DAP iff the model's phosphorus output is > 0 and MOP iff
    its potassium output is > 0, and a Urea item only if its nitrogen output
    is > 0; when no output is > 0 (negative, zero or NaN) the engine returns
    no item, a total cost of 0 and an empty timing text. *)
Theorem clamped_prediction_allocation :
  forall out_n out_p out_k a : float,
    exists (n p k : float) (r : Recommendations),
      predict_nutrients (out_n, out_p, out_k) = (n, p, k) /\
      (0 <=? n) = true /\ (0 <=? p) = true /\ (0 <=? k) = true /\
      recommend_fertilizers n p k a = Some r /\
      emits DAP_NAME (fertilizers r) = (0 <? out_p) /\
      emits MOP_NAME (fertilizers r) = (0 <? out_k) /\
      emits UREA_NAME (fertilizers r) && negb (0 <? out_n) = false /\
      ((0 <? out_n) || (0 <? out_p) || (0 <? out_k) = false ->
         fertilizers r = [] /\ total_cost r = 0 /\ application_timing r = "").
Proof.
  intros out_n out_p out_k a.
  exists (max0 out_n), (max0 out_p), (max0 out_k).
  rewrite recommend_fertilizers_eq. eexists.
  split; [reflexivity|].
  split; [apply max0_nonneg|]. split; [apply max0_nonneg|]. split; [apply max0_nonneg|].
  split; [reflexivity|].
  cbn [fertilizers total_cost application_timing].
  pose proof (emits_engine_items (max0 out_n) (max0 out_p) (max0 out_k) a) as (Ed & Em & Eu).
  rewrite Ed, Em, Eu, !max0_pos.
  split; [reflexivity|]. split; [reflexivity|]. split.
  - destruct (0 <? nitrogen_after_dap (max0 out_n) (max0 out_p)) eqn:E; [|reflexivity].
    apply owed_needs_request in E. rewrite max0_pos in E. rewrite E. reflexivity.
  - intros H.
    apply orb_false_elim in H. destruct H as [H Hk].
    apply orb_false_elim in H. destruct H as [Hn Hp].
    unfold max0. rewrite Hn, Hp, Hk. vm_compute. auto.
Qed.

(** The model predicting -3.2, NaN and 0: nothing is allocated. *)
Lemma clamped_prediction_allocation_witness :
  exists r : Recommendations,
    predict_nutrients (-3.2, nan, 0) = (0, 0, 0) /\
    recommend_fertilizers 0 0 0 2.5 = Some r /\
    fertilizers r = [] /\ total_cost r = 0 /\ application_timing r = "".
Proof.
  destruct (clamped_prediction_allocation (-3.2) nan 0 2.5)
    as (n & p & k & r & Hp & _ & _ & _ & Hr & _ & _ & _ & H).
  vm_compute in Hp. injection Hp as <- <- <-.
  exists r. split; [reflexivity|]. split; [exact Hr|]. apply H. reflexivity.
Defined.

(** ** Shape of every schedule *)

Lemma schedule_is_listed (crop : string) (n p k : float) :
  In (get_application_schedule crop n p k)
     [ get_rice_schedule; get_wheat_schedule; get_maize_schedule; get_cotton_schedule;
       get_sugarcane_schedule; get_potato_schedule; get_tomato_schedule;
       get_default_schedule ].
Proof.
  unfold get_application_schedule.
  repeat match goal with
         | |- In (if ?c then _ else _) _ => destruct c
         end; cbn; auto 10.
Qed.

(** X4.  For every crop name the schedule has exactly three stages; the
    first is the basal stage, which applies DAP and MOP, the other two apply
    Urea; and the percentages of the stages that apply Urea add up to 100,
    so the nitrogen dose is always split completely. *)
Theorem schedule_shape :
  forall (crop : string) (n p k : float),
    let schedule := get_application_schedule crop n p k in
    List.length schedule = 3%nat /\
    map (fun s => String.prefix "Basal" (stage s)) schedule = [true; false; false] /\
    map (fun s => contains "DAP + MOP" (stage_fertilizer s)) schedule = [true; false; false] /\
    map applies_urea (tl schedule) = [true; true] /\
    urea_percent_total schedule = 100.
Proof.
  intros crop n p k schedule. subst schedule.
  pose proof (schedule_is_listed crop n p k) as H.
  cbn [In] in H.
  repeat (destruct H as [<-|H]; [repeat split; vm_compute; reflexivity|]).
  destruct H.
Qed.

(** ** Which advisories the advisor returns *)

Lemma not_ltb_leb (x y : float) :
  sf_is_nan (Prim2SF x) = false -> sf_is_nan (Prim2SF y) = false ->
  (x <? y) = false -> (y <=? x) = true.
Proof.
  intros Nx Ny H. rewrite ltb_spec in H. rewrite leb_spec.
  unfold SFltb in H. unfold SFleb.
  rewrite (SFcompare_key _ _ (Prim2SF_valid x) (Prim2SF_valid y) Nx Ny) in H.
  rewrite (SFcompare_key _ _ (Prim2SF_valid y) (Prim2SF_valid x) Ny Nx).
  rewrite Z.compare_antisym.
  destruct (sf_key (Prim2SF x) ?= sf_key (Prim2SF y))%Z; try discriminate; reflexivity.
Qed.

Lemma alkaline_not_acidic (ph : float) :
  (7.5 <? ph) = negb (ph <? 5.5) && (7.5 <? ph).
Proof.
  destruct (7.5 <? ph) eqn:E; [|apply eq_sym, andb_false_r].
  assert (H : (ph <? 5.5) = false).
  { apply ltb_asym. apply (ltb_trans 5.5 7.5 ph); [reflexivity | exact E]. }
  rewrite H. reflexivity.
Qed.

Lemma saline_is_truthy (e : float) :
  (2.0 <? e) = float_truthy e && (2.0 <? e).
Proof.
  unfold float_truthy. rewrite eqb_0_zero, ltb_spec.
  destruct (Prim2SF e) as [s|s| |s m x]; try reflexivity.
Qed.

Lemma organic_carbon_bands (c : float) :
  (c <? 0.75) = (c <? 0.5) || ((0.5 <=? c) && (c <? 0.75)).
Proof.
  destruct (c <? 0.5) eqn:E5.
  - cbn. apply (ltb_trans c 0.5 0.75); [exact E5 | reflexivity].
  - cbn. destruct (c <? 0.75) eqn:E7; [|apply eq_sym, andb_false_r].
    pose proof (ltb_true_not_nan _ _ E7) as [Nc _].
    rewrite (not_ltb_leb c 0.5 Nc eq_refl E5). reflexivity.
Qed.

Lemma advisor_contents_cases :
  forall (ph : float) (ec oc n p k : option float) (l : list Improvement),
    get_soil_improvements ph ec oc n p k = Some l ->
    (1 <= List.length l <= 5)%nat /\
    existsb is_lime l = (ph <? 5.5) /\
    existsb is_gypsum l = (7.5 <? ph) /\
    existsb is_lime l && existsb is_gypsum l = false /\
    existsb is_salinity l = match ec with Some e => 2.0 <? e | None => false end /\
    existsb is_organic_matter l = match oc with Some c => c <? 0.75 | None => false end /\
    (List.length (filter is_organic_matter l) <= 1)%nat /\
    existsb (fun i => String.eqb (issue i) "Very Low Phosphorus") l
      = match p with Some v => v <? 10 | None => false end.
Proof.
  intros ph ec oc n p k l.
  rewrite (alkaline_not_acidic ph).
  assert (Hec : match ec with Some e => 2.0 <? e | None => false end
                = match ec with Some e => float_truthy e && (2.0 <? e) | None => false end)
    by (destruct ec; [apply saline_is_truthy | reflexivity]).
  assert (Hoc : match oc with Some c => c <? 0.75 | None => false end
                = match oc with
                  | Some c => (c <? 0.5) || ((0.5 <=? c) && (c <? 0.75))
                  | None => false
                  end)
    by (destruct oc; [apply organic_carbon_bands | reflexivity]).
  rewrite Hec, Hoc. clear Hec Hoc.
  unfold get_soil_improvements, threshold_rules, ph_rule, ec_rule, oc_rule,
    phosphorus_rule, green_manure_rule, maintenance_rule.
  destruct (ph <? 5.5);
    [destruct (calculate_lime_requirement ph) as [q|]; [|discriminate] | destruct (7.5 <? ph)];
    cbn [bind app];
    (destruct ec as [e|]; [destruct (float_truthy e && (2.0 <? e))|]);
    (destruct oc as [c|];
       [destruct (c <? 0.5); [|destruct ((0.5 <=? c) && (c <? 0.75))]|]);
    (destruct p as [v|]; [destruct (v <? 10)|]);
    cbn [app List.length Nat.leb];
    intros [= <-];
    cbn; repeat split; lia.
Qed.

(** X5.  Which advisories are returned.  Whenever the advisor returns, its
    list holds between 1 and 5 advisories; the lime advisory is there iff
    pH < 5.5 and the gypsum advisory iff pH > 7.5, never both; the salinity
    advisory iff EC is known and > 2.0; one organic matter advisory (low or
    moderate, never both) iff organic carbon is known and < 0.75; the
    phosphorus advisory iff phosphorus is known and < 10. *)
Theorem advisor_contents :
  forall (ph : float) (ec oc n p k : option float) (l : list Improvement),
    get_soil_improvements ph ec oc n p k = Some l ->
    (1 <= List.length l <= 5)%nat /\
    existsb is_lime l = (ph <? 5.5) /\
    existsb is_gypsum l = (7.5 <? ph) /\
    existsb is_lime l && existsb is_gypsum l = false /\
    existsb is_salinity l = match ec with Some e => 2.0 <? e | None => false end /\
    existsb is_organic_matter l = match oc with Some c => c <? 0.75 | None => false end /\
    (List.length (filter is_organic_matter l) <= 1)%nat /\
    existsb (fun i => String.eqb (issue i) "Very Low Phosphorus") l
      = match p with Some v => v <? 10 | None => false end.
Proof.
  intros ph ec oc n p k l H. exact (advisor_contents_cases ph ec oc n p k l H).
Qed.

(** An acidic, saline soil low in organic carbon and phosphorus: five
    advisories. *)
Lemma advisor_contents_witness :
  exists l : list Improvement,
    get_soil_improvements 5.0 (Some 2.5) (Some 0.4) None (Some 5) None = Some l /\
    List.length l = 5%nat /\
    existsb is_lime l = true /\ existsb is_gypsum l = false /\
    existsb is_salinity l = true /\ existsb is_organic_matter l = true.
Proof.
  destruct (get_soil_improvements 5.0 (Some 2.5) (Some 0.4) None (Some 5) None)
    as [l|] eqn:E; [|vm_compute in E; discriminate E].
  pose proof (advisor_contents _ _ _ _ _ _ l E) as (_ & H1 & H2 & _ & H3 & H4 & _).
  exists l. split; [reflexivity|].
  split; [vm_compute in E; injection E as <-; reflexivity|].
  rewrite H1, H2, H3, H4. repeat split.
Defined.

(** ** Binary64 facts: results that stay finite *)

Section Finiteness.

Local Open Scope Z_scope.

Lemma Zdigits2_nonneg (m : Z) : 0 <= Zdigits2 m.
Proof. destruct m; cbn; lia. Qed.

Lemma Zdigits2_le (m k : Z) : 0 <= m -> 0 <= k -> m < 2 ^ k -> Zdigits2 m <= k.
Proof.
  intros Hm Hk H. destruct m as [|q|q]; cbn [Zdigits2]; [exact Hk | | lia].
  pose proof (digits2_pos_bounds q) as [Hlo _].
  assert (Hlt : 2 ^ (Z.pos (digits2_pos q) - 1) < 2 ^ k) by lia.
  apply Z.pow_lt_mono_r_iff in Hlt; lia.
Qed.

Lemma Zdigits2_lt_pow (m : Z) : 0 <= m -> m < 2 ^ Zdigits2 m.
Proof.
  intros Hm. destruct m as [|q|q]; cbn [Zdigits2]; [reflexivity | | lia].
  apply digits2_pos_bounds.
Qed.

Lemma Zdigits2_succ (m : Z) : 0 <= m -> Zdigits2 (m + 1) <= Zdigits2 m + 1.
Proof.
  intros Hm. pose proof (Zdigits2_lt_pow m Hm) as H. pose proof (Zdigits2_nonneg m) as Hd.
  apply Zdigits2_le; try lia.
  rewrite Z.pow_add_r by lia. change (2 ^ 1) with 2. lia.
Qed.

Lemma Zdigits2_mul (a b : positive) :
  Zdigits2 (Z.pos (a * b)) <= Zdigits2 (Z.pos a) + Zdigits2 (Z.pos b).
Proof.
  pose proof (Zdigits2_lt_pow (Z.pos a) ltac:(lia)) as Ha.
  pose proof (Zdigits2_lt_pow (Z.pos b) ltac:(lia)) as Hb.
  pose proof (Zdigits2_nonneg (Z.pos a)). pose proof (Zdigits2_nonneg (Z.pos b)).
  apply Zdigits2_le; try lia.
  rewrite Z.pow_add_r by lia. rewrite Pos2Z.inj_mul.
  apply Z.mul_lt_mono_nonneg; lia.
Qed.

Lemma round_nearest_even_le (m : Z) (l : location) : round_nearest_even m l <= m + 1.
Proof. destruct l as [|[| |]]; cbn; try lia. destruct (Z.even m); lia. Qed.

Lemma Zdigits2_mono (a b : Z) : 0 <= a <= b -> Zdigits2 a <= Zdigits2 b.
Proof.
  intros H. pose proof (Zdigits2_lt_pow b ltac:(lia)). pose proof (Zdigits2_nonneg b).
  apply Zdigits2_le; lia.
Qed.

Lemma shr_fexp_within (K m e : Z) (l : location) :
  0 <= m -> emin <= K -> within K m e ->
  within K (shr_m (fst (shr_fexp prec emax m e l))) (snd (shr_fexp prec emax m e l)).
Proof.
  intros Hm HK [He Hd]. unfold within, shr_fexp, shr.
  remember (fexp prec emax (Zdigits2 m + e) - e) as sh eqn:En.
  unfold fexp, SpecFloat.emin, prec, emax in En.
  unfold SpecFloat.emin, prec, emax in HK.
  destruct sh as [|q|q]; cbn [fst snd].
  - rewrite shr_record_of_loc_m. lia.
  - rewrite Zdigits2_iter_shr_1, shr_record_of_loc_m. lia.
  - rewrite shr_record_of_loc_m. lia.
Qed.

(** Rounding a value below [2^K], with [K] well inside the exponent range,
    gives a zero or a finite float below [2^(K+1)]. *)
Lemma binary_round_aux_finite (K : Z) (s : bool) (m e : Z) (l : location) :
  0 <= m -> emin <= K -> K + 1 <= emax - prec -> within K m e ->
  match binary_round_aux prec emax s m e l with
  | S754_zero _ => True
  | S754_finite _ m' e' => within (K + 1) (Z.pos m') e'
  | _ => False
  end.
Proof.
  intros Hm HK HK' Hw. unfold binary_round_aux.
  pose proof (shr_fexp_within K m e l Hm HK Hw) as H1.
  pose proof (shr_fexp_nonneg m e l Hm) as N1.
  destruct (shr_fexp prec emax m e l) as [mrs' e']. cbn [fst snd] in H1, N1.
  set (m2 := round_nearest_even (shr_m mrs') (loc_of_shr_record mrs')).
  assert (N2 : 0 <= m2) by (apply round_nearest_even_nonneg, N1).
  assert (W2 : within (K + 1) m2 e').
  { destruct H1 as [H1e H1d]. split; [lia|].
    pose proof (round_nearest_even_le (shr_m mrs') (loc_of_shr_record mrs')) as Hle.
    pose proof (Zdigits2_mono m2 (shr_m mrs' + 1) ltac:(subst m2; lia)) as Hmono.
    pose proof (Zdigits2_succ (shr_m mrs') N1). lia. }
  pose proof (shr_fexp_within (K + 1) m2 e' loc_Exact N2 ltac:(lia) W2) as H3.
  pose proof (shr_fexp_nonneg m2 e' loc_Exact N2) as N3.
  destruct (shr_fexp prec emax m2 e' loc_Exact) as [mrs'' e'']. cbn [fst snd] in H3, N3.
  destruct (shr_m mrs'') as [|q|q]; [exact I | | lia].
  destruct H3 as [H3e H3d].
  assert (Hle : (e'' <=? emax - prec) = true) by (apply Z.leb_le; lia).
  rewrite Hle. split; assumption.
Qed.

Lemma digits2_pos_shift (m d : positive) :
  digits2_pos (Pos.iter xO m d) = (digits2_pos m + d)%positive.
Proof.
  rewrite (Pos.iter_swap_gen _ _ digits2_pos xO Pos.succ) by reflexivity.
  induction d as [|d IH] using Pos.peano_ind.
  - cbn. lia.
  - rewrite Pos.iter_succ, IH. lia.
Qed.

Lemma shl_align_within (K : Z) (m : positive) (e e' : Z) :
  within K (Z.pos m) e ->
  within K (Z.pos (fst (shl_align m e e'))) (snd (shl_align m e e')).
Proof.
  intros [He Hd]. unfold within, shl_align.
  destruct (e' - e) as [|d|d] eqn:E; cbn [fst snd Zdigits2] in *; try (split; assumption).
  rewrite digits2_pos_shift. lia.
Qed.

Lemma binary_round_finite (K : Z) (s : bool) (m : positive) (e : Z) :
  emin <= K -> K + 1 <= emax - prec -> within K (Z.pos m) e ->
  match binary_round prec emax s m e with
  | S754_zero _ => True
  | S754_finite _ m' e' => within (K + 1) (Z.pos m') e'
  | _ => False
  end.
Proof.
  intros HK HK' Hw. unfold binary_round.
  pose proof (shl_align_within K m e (fexp prec emax (Z.pos (digits2_pos m) + e)) Hw) as H.
  destruct (shl_align m e _) as [mz ez]. cbn [fst snd] in H.
  apply (binary_round_aux_finite K); try assumption. lia.
Qed.

Lemma shl_align_digits (m : positive) (e ez : Z) :
  ez <= e ->
  Zdigits2 (Z.pos (fst (shl_align m e ez))) + ez = Zdigits2 (Z.pos m) + e.
Proof.
  intros H. unfold shl_align.
  destruct (ez - e) as [|d|d] eqn:E; cbn [fst Zdigits2]; try lia.
  rewrite digits2_pos_shift. lia.
Qed.

(** Subtracting a non-negative finite float from a larger positive one
    below [2^K] gives a finite float below [2^(K+1)]. *)
Lemma SFsub_finite (K : Z) (mx my : positive) (ex ey : Z) :
  emin <= K -> K + 1 <= emax - prec ->
  bounded prec emax mx ex = true -> bounded prec emax my ey = true ->
  within K (Z.pos mx) ex ->
  sf_units (S754_finite false my ey) < sf_units (S754_finite false mx ex) ->
  match SFsub prec emax (S754_finite false mx ex) (S754_finite false my ey) with
  | S754_zero _ => True
  | S754_finite _ m' e' => within (K + 1) (Z.pos m') e'
  | _ => False
  end.
Proof.
  intros HK HK' Bx By [Hxe Hxd] Hlt. cbn [SFsub cond_Zopp].
  pose proof (bounded_facts _ _ Bx) as (Lx & _ & _).
  pose proof (bounded_facts _ _ By) as (Ly & _ & _).
  set (ez := Z.min ex ey).
  pose proof (shl_align_units mx ex ez ltac:(lia) ltac:(lia)) as Ax.
  pose proof (shl_align_units my ey ez ltac:(lia) ltac:(lia)) as Ay.
  pose proof (shl_align_digits mx ex ez ltac:(lia)) as Dx.
  cbn [sf_units cond_Zopp] in Hlt. rewrite <- Ax, <- Ay in Hlt.
  set (ax := Z.pos (fst (shl_align mx ex ez))) in *.
  set (ay := Z.pos (fst (shl_align my ey ez))) in *.
  assert (HKz : 0 < 2 ^ (ez - emin)) by (apply Z.pow_pos_nonneg; lia).
  assert (Hd : 0 < ax - ay) by nia.
  assert (Hay : 0 < ay) by (subst ay; lia).
  destruct (ax - ay) as [|dz|dz] eqn:Edz; try lia.
  cbn [binary_normalize].
  apply (binary_round_finite K); try assumption.
  split; [lia|].
  pose proof (Zdigits2_mono (Z.pos dz) ax ltac:(lia)). lia.
Qed.

(** Multiplying two finite floats below [2^Kx] and [2^Ky] gives a finite
    float when [Kx + Ky] is well inside the exponent range. *)
Lemma SFmul_finite (Kx Ky : Z) (sx sy : bool) (mx my : positive) (ex ey : Z) :
  emin <= Kx + Ky -> Kx + Ky + 1 <= emax - prec ->
  within Kx (Z.pos mx) ex -> within Ky (Z.pos my) ey ->
  Zdigits2 (Z.pos my) + ey <= Ky -> ex + ey <= Kx + Ky ->
  sf_finite (SFmul prec emax (S754_finite sx mx ex) (S754_finite sy my ey)) = true.
Proof.
  intros HK HK' [Hxe Hxd] [Hye Hyd] _ Hsum. cbn [SFmul].
  pose proof (Zdigits2_mul mx my) as Hm.
  pose proof (binary_round_aux_finite (Kx + Ky) (xorb sx sy) (Z.pos (mx * my)) (ex + ey)
                loc_Exact ltac:(lia) HK HK' ltac:(split; lia)) as H.
  destruct (binary_round_aux prec emax (xorb sx sy) (Z.pos (mx * my)) (ex + ey) loc_Exact);
    try contradiction; reflexivity.
Qed.

End Finiteness.

(** ** The advisor returns on every non-negative pH *)

Lemma py_int_finite (x : float) :
  sf_finite (Prim2SF x) = true -> exists t : Z, py_int x = Some t.
Proof.
  unfold py_int. destruct (Prim2SF x); try discriminate; intros _; eexists; reflexivity.
Qed.

(** For [0 <= ph < 5.5] the difference [6.5 - ph] is a zero or a finite
    float below [2^4]. *)
Lemma lime_increase_within (ph : float) :
  (0 <=? ph) = true -> (ph <? 5.5) = true ->
  match Prim2SF (6.5 - ph) with
  | S754_zero _ => True
  | S754_finite _ m e => within 4 (Z.pos m) e
  | _ => False
  end.
Proof.
  intros H0 H5.
  assert (H65 : (ph <? 6.5) = true) by (apply (ltb_trans ph 5.5 6.5); [exact H5 | reflexivity]).
  pose proof (ltb_key _ _ H65) as Hk.
  pose proof (Prim2SF_valid ph) as Vp.
  rewrite leb_0_nonneg in H0. rewrite sub_spec.
  assert (E65 : Prim2SF 6.5 = S754_finite false 7318349394477056 (-50)) by (vm_compute; reflexivity).
  rewrite E65 in Hk |- *.
  destruct (Prim2SF ph) as [s|s| |s mp ep]; try discriminate.
  - cbn. unfold within. cbn. lia.
  - destruct s; [discriminate|]. cbn [sf_key cond_Zopp sf_units] in Hk.
    assert (Hb : (0 < Z.pos 7318349394477056 * 2 ^ (-50 - emin) < 2 ^ 2098)%Z)
      by (apply bounded_units_lt; vm_compute; reflexivity).
    lia.
  - destruct s; [discriminate|].
    apply (SFsub_finite 3 7318349394477056 mp (-50) ep).
    + unfold SpecFloat.emin, prec, emax. lia.
    + unfold prec, emax. lia.
    + vm_compute. reflexivity.
    + exact Vp.
    + unfold within. cbn. lia.
    + exact Hk.
Qed.

Lemma lime_product_is_integer (ph : float) :
  (0 <=? ph) = true -> (ph <? 5.5) = true ->
  exists t : Z, py_int ((6.5 - ph) * 1000) = Some t.
Proof.
  intros H0 H5. apply py_int_finite. rewrite mul_spec.
  pose proof (lime_increase_within ph H0 H5) as Hw.
  assert (E1000 : Prim2SF 1000 = S754_finite false 8796093022208000 (-43))
    by (vm_compute; reflexivity).
  rewrite E1000.
  destruct (Prim2SF (6.5 - ph)) as [s|s| |s m e]; try contradiction.
  - reflexivity.
  - apply (SFmul_finite 4 10).
    + unfold SpecFloat.emin, prec, emax. lia.
    + unfold prec, emax. lia.
    + exact Hw.
    + unfold within. cbn. lia.
    + cbn. lia.
    + destruct Hw as [He _]. lia.
Qed.

(** C6, amended.  For every pH with 0 <= pH < 5.5 the advisor's first entry
    is the lime recommendation with quantity clamp(int(1000 * (6.5 - pH)),
    500, 3000) kg/ha, where int truncates the float product toward zero.
    For a negative pH the same holds as long as the product is finite; when
    it overflows to an infinity int raises and the advisor returns nothing.
    For every pH above 7.5 the first entry is the gypsum recommendation with
    750 kg/ha when pH > 8.5, 500 kg/ha when 8.0 < pH <= 8.5, and 350 kg/ha
    otherwise. *)
Theorem ph_amendment_quantities :
  forall (ph : float) (ec oc n p k : option float),
    ((0 <=? ph) = true -> (ph <? 5.5) = true ->
       exists t : Z,
         py_int ((6.5 - ph) * 1000) = Some t /\
         calculate_lime_requirement ph = Some (Z.min (Z.max t 500) 3000) /\
         exists rest : list Improvement,
           get_soil_improvements ph ec oc n p k
           = Some (lime_improvement (Z.min (Z.max t 500) 3000) :: rest)) /\
    ((ph <? 5.5) = true ->
       match py_int ((6.5 - ph) * 1000) with
       | Some t =>
           calculate_lime_requirement ph = Some (Z.min (Z.max t 500) 3000) /\
           exists rest : list Improvement,
             get_soil_improvements ph ec oc n p k
             = Some (lime_improvement (Z.min (Z.max t 500) 3000) :: rest)
       | None =>
           (ph <? 0) = true /\
           calculate_lime_requirement ph = None /\
           get_soil_improvements ph ec oc n p k = None
       end) /\
    ((7.5 <? ph) = true ->
       let gypsum_kg := (if 8.5 <? ph then 750%Z else if 8.0 <? ph then 500%Z else 350%Z) in
       calculate_gypsum_requirement ph = gypsum_kg /\
       exists rest : list Improvement,
         get_soil_improvements ph ec oc n p k
         = Some (gypsum_improvement gypsum_kg :: rest)) /\
    (forall q : Z,
       quantity (lime_improvement q) = (str_of_int q ++ " kg/ha")%string /\
       quantity (gypsum_improvement q) = (str_of_int q ++ " kg/ha")%string).
Proof.
  intros ph ec oc n p k.
  assert (Hsome : forall t : Z,
             (ph <? 5.5) = true -> py_int ((6.5 - ph) * 1000) = Some t ->
             calculate_lime_requirement ph = Some (Z.min (Z.max t 500) 3000) /\
             exists rest : list Improvement,
               get_soil_improvements ph ec oc n p k
               = Some (lime_improvement (Z.min (Z.max t 500) 3000) :: rest)).
  { intros t Hph Ht.
    assert (Hl : calculate_lime_requirement ph = Some (Z.min (Z.max t 500) 3000)).
    { unfold calculate_lime_requirement. rewrite (lime_increase_positive ph Hph).
      rewrite Ht. reflexivity. }
    split; [exact Hl|].
    apply advisor_head. unfold ph_rule. rewrite Hph, Hl. reflexivity. }
  split; [|split; [|split]].
  - intros H0 Hph. destruct (lime_product_is_integer ph H0 Hph) as [t Ht].
    exists t. split; [exact Ht|]. apply (Hsome t Hph Ht).
  - intros Hph. destruct (py_int ((6.5 - ph) * 1000)) as [t|] eqn:Ht.
    + apply (Hsome t Hph eq_refl).
    + assert (Hneg : (ph <? 0) = true).
      { destruct (ph <? 0) eqn:E; [reflexivity|]. exfalso.
        pose proof (ltb_true_not_nan _ _ Hph) as [Nph _].
        pose proof (not_ltb_leb ph 0 Nph eq_refl E) as H0.
        destruct (lime_product_is_integer ph H0 Hph) as [t Ht']. congruence. }
      assert (Hl : calculate_lime_requirement ph = None).
      { unfold calculate_lime_requirement. rewrite (lime_increase_positive ph Hph).
        rewrite Ht. reflexivity. }
      split; [exact Hneg|]. split; [exact Hl|].
      unfold get_soil_improvements, threshold_rules, ph_rule. rewrite Hph, Hl. reflexivity.
  - intros Hph gypsum_kg.
    assert (Hg : calculate_gypsum_requirement ph = gypsum_kg).
    { unfold calculate_gypsum_requirement. rewrite (ltb_not_leb _ _ Hph). reflexivity. }
    split; [exact Hg|].
    apply advisor_head. unfold ph_rule.
    assert (H55 : (ph <? 5.5) = false).
    { apply ltb_asym. apply (ltb_trans 5.5 7.5 ph); [reflexivity | exact Hph]. }
    rewrite H55, Hph, Hg. reflexivity.
  - intros q. split; reflexivity.
Qed.

(** Scenario B (pH 5.0: 1500 kg/ha of lime), the truncating case pH 5.0625,
    a pH so negative that the product overflows, and Scenario C (pH 8.8:
    750 kg/ha of gypsum) with the two lower tiers. *)
Lemma ph_amendment_quantities_witness :
  (exists rest, get_soil_improvements 5.0 None None None None None
                = Some (lime_improvement 1500 :: rest)) /\
  (exists rest, get_soil_improvements 5.0625 None None None None None
                = Some (lime_improvement 1437 :: rest)) /\
  ((-1e306 <? 0) = true /\
   get_soil_improvements (-1e306) None None None None None = None) /\
  (exists rest, get_soil_improvements 8.8 None None None None None
                = Some (gypsum_improvement 750 :: rest)) /\
  (exists rest, get_soil_improvements 8.25 None None None None None
                = Some (gypsum_improvement 500 :: rest)) /\
  (exists rest, get_soil_improvements 7.75 None None None None None
                = Some (gypsum_improvement 350 :: rest)).
Proof.
  split; [|split; [|split; [|split; [|split]]]].
  - destruct (proj1 (ph_amendment_quantities 5.0 None None None None None) eq_refl eq_refl)
      as (t & Ht & _ & H).
    vm_compute in Ht. injection Ht as <-. exact H.
  - destruct (proj1 (ph_amendment_quantities 5.0625 None None None None None) eq_refl eq_refl)
      as (t & Ht & _ & H).
    vm_compute in Ht. injection Ht as <-. exact H.
  - pose proof (proj1 (proj2 (ph_amendment_quantities (-1e306) None None None None None))
                  eq_refl) as H.
    assert (E : py_int ((6.5 - -1e306) * 1000) = None) by (vm_compute; reflexivity).
    rewrite E in H. destruct H as (H1 & _ & H2). split; assumption.
  - apply (proj1 (proj2 (proj2 (ph_amendment_quantities 8.8 None None None None None)))
             eq_refl).
  - apply (proj1 (proj2 (proj2 (ph_amendment_quantities 8.25 None None None None None)))
             eq_refl).
  - apply (proj1 (proj2 (proj2 (ph_amendment_quantities 7.75 None None None None None)))
             eq_refl).
Defined.

(** The pH rule returns on a pH that is not negative. *)
Lemma ph_rule_returns (ph : float) :
  (0 <=? ph) = true -> exists t : list Improvement, ph_rule ph [] = Some t.
Proof.
  intros H0. unfold ph_rule. destruct (ph <? 5.5) eqn:H5.
  - destruct (lime_product_is_integer ph H0 H5) as [t Ht].
    unfold calculate_lime_requirement.
    rewrite (lime_increase_positive ph H5), Ht. cbn [bind]. eexists. reflexivity.
  - destruct (7.5 <? ph); eexists; reflexivity.
Qed.

(** X6.  The advisor returns on every pH that is not negative, whatever the
    other measurements are: on the whole validated range 3.5 to 9.5 the lime
    computation cannot raise, and the result is not empty. *)
Theorem advisor_returns_on_valid_ph :
  forall (ph : float) (ec oc n p k : option float),
    (0 <=? ph) = true ->
    exists l : list Improvement,
      get_soil_improvements ph ec oc n p k = Some l /\ l <> [].
Proof.
  intros ph ec oc n p k H0.
  destruct (ph_rule_returns ph H0) as [t Ht].
  unfold get_soil_improvements, threshold_rules. rewrite Ht. cbn [bind].
  eexists. split; [reflexivity|].
  unfold maintenance_rule.
  destruct (green_manure_rule (phosphorus_rule p (oc_rule oc (ec_rule ec t)))) eqn:E;
    cbn; discriminate.
Qed.

(** The ends of the validated range and an acidic soil. *)
Lemma advisor_returns_on_valid_ph_witness :
  (exists l, get_soil_improvements 3.5 None None None None None = Some l /\ l <> []) /\
  (exists l, get_soil_improvements 9.5 (Some 2.5) (Some 0.4) None (Some 5) None = Some l
             /\ l <> []) /\
  (exists l, get_soil_improvements 0 None None None None None = Some l /\ l <> []).
Proof.
  split; [|split].
  - apply (advisor_returns_on_valid_ph 3.5). reflexivity.
  - apply (advisor_returns_on_valid_ph 9.5). reflexivity.
  - apply (advisor_returns_on_valid_ph 0). reflexivity.
Defined.

(** ** Quantities of lime and gypsum stay in range *)

Lemma lime_requirement_range (ph : float) (q : Z) :
  calculate_lime_requirement ph = Some q -> (q = 0 \/ 500 <= q <= 3000)%Z.
Proof.
  unfold calculate_lime_requirement.
  destruct (6.5 - ph <=? 0); [intros [= <-]; auto|].
  destruct (py_int ((6.5 - ph) * 1000)) as [t|]; cbn [bind]; [|discriminate].
  intros [= <-]. right. lia.
Qed.

(** X7.  The quantities of the pH advisories stay in range.  Whatever the pH,
    [calculate_lime_requirement] returns 0 or a value from 500 to 3000 and
    [calculate_gypsum_requirement] returns 0, 350, 500 or 750, and 0 exactly
    when pH <= 7.5; for 0 <= pH < 5.5 the advisor's first entry is the lime
    advisory with between 500 and 3000 kg/ha, never 0. *)
Theorem ph_quantities_in_range :
  forall (ph : float) (ec oc n p k : option float),
    (forall q : Z, calculate_lime_requirement ph = Some q -> (q = 0 \/ 500 <= q <= 3000)%Z) /\
    In (calculate_gypsum_requirement ph) [0; 350; 500; 750]%Z /\
    ((calculate_gypsum_requirement ph =? 0)%Z = (ph <=? 7.5)) /\
    ((0 <=? ph) = true -> (ph <? 5.5) = true ->
       exists (q : Z) (rest : list Improvement),
         get_soil_improvements ph ec oc n p k = Some (lime_improvement q :: rest) /\
         (500 <= q <= 3000)%Z).
Proof.
  intros ph ec oc n p k.
  split; [intros q; apply lime_requirement_range|].
  split; [unfold calculate_gypsum_requirement;
          destruct (ph <=? 7.5), (8.5 <? ph), (8.0 <? ph); cbn; auto 10|].
  split; [unfold calculate_gypsum_requirement;
          destruct (ph <=? 7.5), (8.5 <? ph), (8.0 <? ph); reflexivity|].
  intros H0 H5.
  destruct (lime_product_is_integer ph H0 H5) as [t Ht].
  assert (Hl : calculate_lime_requirement ph = Some (Z.min (Z.max t 500) 3000)).
  { unfold calculate_lime_requirement. rewrite (lime_increase_positive ph H5), Ht.
    reflexivity. }
  destruct (advisor_head ph ec oc n p k (lime_improvement (Z.min (Z.max t 500) 3000)))
    as [rest Hrest].
  { unfold ph_rule. rewrite H5, Hl. reflexivity. }
  exists (Z.min (Z.max t 500) 3000), rest. split; [exact Hrest | lia].
Qed.

(** pH 5.0: 1500 kg/ha; pH 2.0: the cap of 3000 kg/ha; a direct call at
    pH 6.2: the floor of 500 kg/ha. *)
Lemma ph_quantities_in_range_witness :
  (exists q rest, get_soil_improvements 5.0 None None None None None
                  = Some (lime_improvement q :: rest) /\ (500 <= q <= 3000)%Z) /\
  (exists q rest, get_soil_improvements 2.0 None None None None None
                  = Some (lime_improvement q :: rest) /\ (500 <= q <= 3000)%Z) /\
  calculate_lime_requirement 2.0 = Some 3000%Z /\
  calculate_lime_requirement 6.2 = Some 500%Z.
Proof.
  split; [|split; [|split]].
  - apply (ph_quantities_in_range 5.0 None None None None None); reflexivity.
  - apply (ph_quantities_in_range 2.0 None None None None None); reflexivity.
  - vm_compute. reflexivity.
  - vm_compute. reflexivity.
Defined.

(** ** The assembled recommendation *)

Lemma generate_recommendation_Some (farmer : Farmer) (soil : SoilData) (n p k : float)
    (r : Recommendations) (ad : AdditionalData) :
  generate_recommendation farmer soil n p k = Some (r, ad) ->
  exists (l : list Improvement) (ferts : list LineItem) (total : float),
    get_soil_improvements (ph soil) (ec soil) (organic_carbon soil)
      (Some (nitrogen soil)) (Some (phosphorus soil)) (Some (potassium soil)) = Some l /\
    reprice_loop (field_area farmer) (engine_items n p k (field_area farmer)) 0.0
      = Some (ferts, total) /\
    r = mkRecommendations
          (ferts ++ (if biofertilizer_condition (organic_carbon soil)
                     then [biofertilizer_item (field_area farmer)] else []))
          total (_get_application_timing n p k) _get_application_method /\
    ad = mkAdditionalData l (get_application_schedule (crop_name farmer) n p k)
           (fertilizers r) (biofertilizer_condition (organic_carbon soil)).
Proof.
  unfold generate_recommendation. rewrite recommend_fertilizers_eq. cbn [bind].
  destruct (get_soil_improvements _ _ _ _ _ _) as [l|]; cbn [bind]; [|discriminate].
  unfold price_fertilizers. cbn [fertilizers application_timing application_method].
  destruct (reprice_loop _ _ _) as [[ferts total]|]; cbn [bind fst snd]; [|discriminate].
  intros [= <- <-]. exists l, ferts, total.
  split; [reflexivity|]. split; [reflexivity|].
  cbn [fertilizers].
  destruct (biofertilizer_condition (organic_carbon soil)); split;
    try reflexivity; rewrite ?app_nil_r; reflexivity.
Qed.

Lemma repriced_names (a : float) (l l' : list LineItem) :
  Forall2 (repriced a) l l' -> map fertilizer l' = map fertilizer l.
Proof.
  induction 1 as [|it it' l l' (bags & _ & Hn & _) _ IH]; [reflexivity|].
  cbn [map]. rewrite Hn, IH. reflexivity.
Qed.

Lemma emits_by_names (nm : string) (l l' : list LineItem) :
  map fertilizer l' = map fertilizer l -> emits nm l' = emits nm l.
Proof.
  revert l'. induction l as [|it l IH]; intros [|it' l'] H; try discriminate; [reflexivity|].
  cbn [map] in H. injection H as Hh Ht. unfold emits in *. cbn [existsb].
  rewrite Hh, (IH l' Ht). reflexivity.
Qed.

Lemma emits_app (nm : string) (l1 l2 : list LineItem) :
  emits nm (l1 ++ l2) = emits nm l1 || emits nm l2.
Proof. unfold emits. apply existsb_app. Qed.

Lemma engine_never_emits_biofertilizer (n p k a : float) :
  emits BIO_NAME (engine_items n p k a) = false.
Proof.
  unfold engine_items.
  destruct (0 <? p), (0 <? k), (0 <? nitrogen_after_dap n p); reflexivity.
Qed.

Lemma priced_engine_items (n p k a : float) (ferts : list LineItem) (total : float) :
  reprice_loop a (engine_items n p k a) 0.0 = Some (ferts, total) ->
  map fertilizer ferts = map fertilizer (engine_items n p k a) /\
  total = sum_verified_costs 0.0 ferts.
Proof.
  intros H. pose proof (reprice_loop_spec a (engine_items n p k a) 0.0) as Hs.
  rewrite H in Hs. destruct Hs as (H2 & Ht & _).
  split; [apply (repriced_names a), H2 | exact Ht].
Qed.

(** X8.  The biofertilizer flag, the organic matter advisory and the extra
    line item go together.  Whenever the assembled recommendation is
    returned, biofertilizer_recommended is true iff the soil improvements
    include an organic matter advisory (low or moderate) iff
    fertilizer_details contains the biofertilizer item, which then is its
    last entry; the engine itself never emits that product. *)
Theorem biofertilizer_follows_organic_advisory :
  forall (farmer : Farmer) (soil : SoilData) (n p k : float)
         (r : Recommendations) (ad : AdditionalData),
    generate_recommendation farmer soil n p k = Some (r, ad) ->
    biofertilizer_recommended ad = existsb is_organic_matter (soil_improvements ad) /\
    biofertilizer_recommended ad = emits BIO_NAME (fertilizer_details ad) /\
    (biofertilizer_recommended ad = true ->
       exists ferts : list LineItem,
         fertilizer_details ad = ferts ++ [biofertilizer_item (field_area farmer)] /\
         map fertilizer ferts = map fertilizer (engine_items n p k (field_area farmer))) /\
    fertilizer_details ad = fertilizers r.
Proof.
  intros farmer soil n p k r ad H.
  destruct (generate_recommendation_Some _ _ _ _ _ _ _ H)
    as (l & ferts & total & Hl & Hp & -> & ->).
  cbn [biofertilizer_recommended soil_improvements fertilizer_details fertilizers].
  pose proof (advisor_contents_cases _ _ _ _ _ _ l Hl) as (_ & _ & _ & _ & _ & Hoc & _).
  destruct (priced_engine_items _ _ _ _ _ _ Hp) as [Hnames _].
  pose proof (emits_by_names BIO_NAME _ _ Hnames) as Hb.
  rewrite engine_never_emits_biofertilizer in Hb.
  split; [rewrite Hoc; reflexivity|].
  split; [rewrite emits_app, Hb; destruct (biofertilizer_condition (organic_carbon soil));
          reflexivity|].
  split; [|reflexivity].
  intros Hbio. rewrite Hbio. exists ferts. split; [reflexivity | exact Hnames].
Qed.

(** Scenario A on an acidic soil with organic carbon 0.4. *)
Lemma biofertilizer_follows_organic_advisory_witness :
  exists (r : Recommendations) (ad : AdditionalData),
    generate_recommendation scenario_farmer scenario_soil 120 60 30 = Some (r, ad) /\
    biofertilizer_recommended ad = true /\
    existsb is_organic_matter (soil_improvements ad) = true /\
    emits BIO_NAME (fertilizer_details ad) = true /\
    map fertilizer (fertilizer_details ad) = [DAP_NAME; MOP_NAME; UREA_NAME; BIO_NAME].
Proof.
  destruct (generate_recommendation scenario_farmer scenario_soil 120 60 30)
    as [[r ad]|] eqn:E; [|vm_compute in E; discriminate E].
  pose proof (biofertilizer_follows_organic_advisory _ _ _ _ _ r ad E) as (H1 & H2 & _).
  assert (Hb : biofertilizer_recommended ad = true)
    by (vm_compute in E; injection E as _ <-; reflexivity).
  exists r, ad. split; [reflexivity|].
  split; [exact Hb|]. split; [rewrite <- H1; exact Hb|]. split; [rewrite <- H2; exact Hb|].
  vm_compute in E. injection E as _ <-. reflexivity.
Defined.

(** ** The stored columns *)

Lemma names_without_biofertilizer (n p k a : float) :
  contains "Biofertilizer" (join ", " (map fertilizer (engine_items n p k a))) = false.
Proof.
  unfold engine_items.
  destruct (0 <? p), (0 <? k), (0 <? nitrogen_after_dap n p); reflexivity.
Qed.

(** On Python floats the definitions with the number type as an argument
    are those of [FertilizerEngine], [Recommendations] and [StoredRecord]. *)
Remark python_float_instance (farmer : Farmer) (soil : SoilData) (n p k a : float) :
  recommend_fertilizers_as python_float n p k a = recommend_fertilizers n p k a /\
  engine_items_as python_float n p k a = engine_items n p k a /\
  generate_recommendation_as python_float farmer soil n p k
  = generate_recommendation farmer soil n p k /\
  generate_recommendation_stored_as python_float farmer soil n p k
  = generate_recommendation_stored farmer soil n p k.
Proof.
  repeat split.
Qed.

(** The steps on either number type, resolved against the catalog. *)
Lemma dap_step_as_eq (ty : float_type) (a : float) (st : EngineState) :
  dap_step_as ty a st =
  Some (if 0 <? p_remaining st
        then mkEngineState
               (recommendations st ++ [dap_item_as ty a (p_remaining st)])
               (total_cost_acc st + dap_needed_kg (p_remaining st) * 27)
               (n_remaining st - n_from_dap (p_remaining st))
               0
               (k_remaining st)
        else st).
Proof.
  unfold dap_step_as. destruct (0 <? p_remaining st); reflexivity.
Qed.

Lemma mop_step_as_eq (ty : float_type) (a : float) (st : EngineState) :
  mop_step_as ty a st =
  Some (if 0 <? k_remaining st
        then mkEngineState
               (recommendations st ++ [mop_item_as ty a (k_remaining st)])
               (total_cost_acc st + k_remaining st / 0.6 * 17)
               (n_remaining st)
               (p_remaining st)
               0
        else st).
Proof.
  unfold mop_step_as. destruct (0 <? k_remaining st); reflexivity.
Qed.

Lemma urea_step_as_eq (ty : float_type) (a : float) (st : EngineState) :
  urea_step_as ty a st =
  Some (if 0 <? n_remaining st
        then mkEngineState
               (recommendations st ++ [urea_item_as ty a (n_remaining st)])
               (total_cost_acc st + n_remaining st / 0.46 * 6)
               0
               (p_remaining st)
               (k_remaining st)
        else st).
Proof.
  unfold urea_step_as. destruct (0 <? n_remaining st); reflexivity.
Qed.

(** The engine never raises on either number type, and its items are
    [engine_items_as]. *)
Lemma recommend_fertilizers_as_eq (ty : float_type) (n p k a : float) :
  recommend_fertilizers_as ty n p k a =
  Some (mkRecommendations (engine_items_as ty n p k a)
          (round_as ty (engine_total n p k) 2)
          (_get_application_timing n p k)
          _get_application_method).
Proof.
  unfold recommend_fertilizers_as, engine_items_as, engine_total, nitrogen_after_dap.
  rewrite dap_step_as_eq. cbn [bind p_remaining].
  rewrite mop_step_as_eq. cbn [bind]. rewrite urea_step_as_eq. cbn [bind].
  destruct (0 <? p); cbn [bind k_remaining n_remaining recommendations app total_cost_acc];
    destruct (0 <? k); cbn [bind k_remaining n_remaining recommendations app total_cost_acc];
    match goal with |- context [0 <? ?x] => destruct (0 <? x) end;
    reflexivity.
Qed.

(** The products of a run do not depend on the number type. *)
Lemma engine_items_as_names (ty : float_type) (n p k a : float) :
  map fertilizer (engine_items_as ty n p k a) = map fertilizer (engine_items n p k a).
Proof.
  unfold engine_items_as, engine_items.
  destruct (0 <? p), (0 <? k), (0 <? nitrogen_after_dap n p); reflexivity.
Qed.

(** X9.  The stored columns against the details, as the route computes
    them, on numpy.float64 values.  Whenever the record is produced,
    fertilizer_name joins the names of the engine's items only and never
    mentions the biofertilizer, and the stored quantity per hectare is the
    sum of the engine's per-hectare quantities rounded as numpy rounds, both
    taken before the biofertilizer item is appended; fertilizer_details
    lists the same products followed by the biofertilizer when it is
    recommended; and estimated_cost is the repriced total, the sum over the
    verified details, not the engine's rough total. *)
Theorem stored_columns :
  forall (farmer : Farmer) (soil : SoilData) (n p k : float)
         (sf : StoredFields) (ad : AdditionalData),
    generate_recommendation_stored_as numpy_float64 farmer soil n p k = Some (sf, ad) ->
    let items := engine_items_as numpy_float64 n p k (field_area farmer) in
    fertilizer_name sf = join ", " (map fertilizer items) /\
    contains "Biofertilizer" (fertilizer_name sf) = false /\
    stored_quantity_kg_per_hectare sf
      = np_round (py_sum (map quantity_kg_per_hectare items)) 2 /\
    stored_quantity_kg_per_acre sf
      = np_round (py_sum (map quantity_kg_per_hectare items) * 0.4047) 2 /\
    map fertilizer (fertilizer_details ad)
      = map fertilizer items ++ (if biofertilizer_recommended ad then [BIO_NAME] else []) /\
    estimated_cost sf = sum_verified_costs 0.0 (fertilizer_details ad).
Proof.
  intros farmer soil n p k sf ad H items. subst items.
  unfold generate_recommendation_stored_as, generate_recommendation_as in H.
  rewrite recommend_fertilizers_as_eq in H. cbn [bind] in H.
  destruct (get_soil_improvements _ _ _ _ _ _) as [l|]; cbn [bind] in H; [|discriminate].
  unfold price_fertilizers in H.
  cbn [fertilizers application_timing application_method] in H.
  destruct (reprice_loop _ _ _) as [[ferts total]|] eqn:Hp;
    cbn [bind fst snd] in H; [|discriminate].
  injection H as <- <-.
  pose proof (reprice_loop_spec (field_area farmer)
                (engine_items_as numpy_float64 n p k (field_area farmer)) 0.0) as Hs.
  rewrite Hp in Hs. destruct Hs as (H2 & Htotal & _).
  pose proof (repriced_names _ _ _ H2) as Hnames.
  cbn [stored_fields fertilizer_name stored_quantity_kg_per_hectare
       stored_quantity_kg_per_acre estimated_cost fertilizer_details
       biofertilizer_recommended fertilizers total_cost round_as].
  unfold fertilizer_names, total_quantity_per_hectare. cbn [fertilizers].
  split; [reflexivity|].
  split; [rewrite engine_items_as_names; apply names_without_biofertilizer|].
  split; [reflexivity|]. split; [reflexivity|].
  destruct (biofertilizer_condition (organic_carbon soil)); split.
  - rewrite map_app, Hnames. reflexivity.
  - rewrite sum_verified_costs_snoc_unverified; [exact Htotal | reflexivity].
  - rewrite app_nil_r. exact Hnames.
  - exact Htotal.
Qed.

(** A phosphorus requirement of 115 on one hectare: 250 kg/ha of DAP are
    stored and 101.18 kg/acre, where CPython's rounding of the same product
    gives 101.17; the details hold the DAP and the biofertilizer, the cost
    is 6750.  Scenario A stores three names and 390.26 kg/ha. *)
Lemma stored_columns_witness :
  (exists (sf : StoredFields) (ad : AdditionalData),
     generate_recommendation_stored_as numpy_float64 scenario_farmer scenario_soil 0 115 0
     = Some (sf, ad) /\
     fertilizer_name sf = "DAP (Diammonium Phosphate)" /\
     stored_quantity_kg_per_hectare sf = 250 /\
     stored_quantity_kg_per_acre sf = 101.18 /\
     py_round (250 * 0.4047) 2 = 101.17 /\
     map fertilizer (fertilizer_details ad) = [DAP_NAME; BIO_NAME] /\
     estimated_cost sf = 6750 /\
     estimated_cost sf = sum_verified_costs 0.0 (fertilizer_details ad)) /\
  (exists (sf : StoredFields) (ad : AdditionalData),
     generate_recommendation_stored_as numpy_float64 scenario_farmer scenario_soil 120 60 30
     = Some (sf, ad) /\
     fertilizer_name sf = "DAP (Diammonium Phosphate), MOP (Muriate of Potash), Urea" /\
     stored_quantity_kg_per_hectare sf = 390.26 /\
     map fertilizer (fertilizer_details ad) = [DAP_NAME; MOP_NAME; UREA_NAME; BIO_NAME] /\
     estimated_cost sf = 7080 /\
     estimated_cost sf = sum_verified_costs 0.0 (fertilizer_details ad)).
Proof.
  split.
  - destruct (generate_recommendation_stored_as numpy_float64 scenario_farmer scenario_soil
                0 115 0) as [[sf ad]|] eqn:E; [|vm_compute in E; discriminate E].
    pose proof (stored_columns _ _ _ _ _ sf ad E) as (_ & _ & _ & _ & _ & Hc).
    exists sf, ad. split; [reflexivity|].
    split; [vm_compute in E; injection E as <- _; reflexivity|].
    split; [vm_compute in E; injection E as <- _; reflexivity|].
    split; [vm_compute in E; injection E as <- _; reflexivity|].
    split; [vm_compute; reflexivity|].
    split; [vm_compute in E; injection E as _ <-; reflexivity|].
    split; [vm_compute in E; injection E as <- _; reflexivity | exact Hc].
  - destruct (generate_recommendation_stored_as numpy_float64 scenario_farmer scenario_soil
                120 60 30) as [[sf ad]|] eqn:E; [|vm_compute in E; discriminate E].
    pose proof (stored_columns _ _ _ _ _ sf ad E) as (_ & _ & _ & _ & _ & Hc).
    exists sf, ad. split; [reflexivity|].
    split; [vm_compute in E; injection E as <- _; reflexivity|].
    split; [vm_compute in E; injection E as <- _; reflexivity|].
    split; [vm_compute in E; injection E as _ <-; reflexivity|].
    split; [vm_compute in E; injection E as <- _; reflexivity | exact Hc].
Defined.

(** ** When repricing raises, and repricing twice *)

Lemma reprice_item_raises (a : float) (it : LineItem) (t : float) :
  reprice_raises a it -> reprice_item a it t = None.
Proof.
  unfold reprice_raises, reprice_item, priced_quantity.
  destruct it as [nm qh qa qt pv c pr ver nt stg].
  cbn [fertilizer quantity_total quantity_kg_per_hectare].
  destruct qt as [q|]; cbn [quantity_total set_quantity_total quantity_kg_per_hectare];
    (intros [H|(bags & entry & Hc & Hg & Hf)];
     [rewrite H; reflexivity | rewrite Hc, Hg; cbn [bind]; rewrite Hf; reflexivity]).
Qed.

Lemma reprice_loop_raises (a : float) (ferts : list LineItem) :
  forall t0 : float, Exists (reprice_raises a) ferts -> reprice_loop a ferts t0 = None.
Proof.
  induction ferts as [|it rest IH]; intros t0 H; [inversion H|].
  cbn [reprice_loop].
  destruct (reprice_item a it t0) as [[it' t1]|] eqn:E; cbn [bind fst snd]; [|reflexivity].
  inversion H as [? ? Hh|? ? Ht]; subst.
  - rewrite (reprice_item_raises a it t0 Hh) in E. discriminate.
  - rewrite (IH t1 Ht). reflexivity.
Qed.

Lemma py_ceil_None (x : float) : py_ceil x = None <-> sf_finite (Prim2SF x) = false.
Proof.
  unfold py_ceil. destruct (Prim2SF x); cbn; split; intros H; try discriminate; reflexivity.
Qed.

(** X10.  When the repricing pass raises.  The pass over a list raises iff
    the loop body raises on one of its items, and the body raises on an item
    exactly when the bag count cannot be taken because quantity_total / 50
    is NaN or an infinity, or when the item is listed and its cost is too
    large to be added to the float total; on any other list every item is
    repriced. *)
Theorem repricing_raises_exactly :
  forall (a : float) (ferts : list LineItem) (t0 : float),
    (reprice_loop a ferts t0 = None <-> Exists (reprice_raises a) ferts) /\
    (forall it : LineItem,
       reprice_raises a it <->
       (sf_finite (Prim2SF (priced_quantity a it / 50)) = false \/
        exists (bags : Z) (entry : PriceEntry),
          py_ceil (priced_quantity a it / 50) = Some bags /\
          dict_get FERTILIZER_PRICES_INR (base_name (fertilizer it)) = Some entry /\
          is_infinity (Z2float (bags * entry_price_per_50kg entry)) = true)).
Proof.
  intros a ferts t0. split.
  - split.
    + intros H. pose proof (reprice_loop_spec a ferts t0) as Hs. rewrite H in Hs. exact Hs.
    + apply reprice_loop_raises.
  - intros it. unfold reprice_raises. rewrite py_ceil_None.
    split; (intros [H|(bags & entry & Hc & Hg & Hf)]; [left; exact H|]);
      right; exists bags, entry; (split; [exact Hc|]); (split; [exact Hg|]).
    + unfold float_of_int in Hf.
      destruct (is_infinity (Z2float (bags * entry_price_per_50kg entry)));
        [reflexivity | discriminate].
    + unfold float_of_int. rewrite Hf. reflexivity.
Qed.

(** An item whose total quantity is an infinity stops the pass, also behind
    an item that is priced. *)
Lemma repricing_raises_exactly_witness :
  reprice_loop 1 (fertilizers scenario_A ++ [set_quantity_total infinity unlisted_item]) 0.0
  = None.
Proof.
  apply (proj1 (repricing_raises_exactly 1 _ 0.0)).
  apply Exists_exists. exists (set_quantity_total infinity unlisted_item).
  split; [vm_compute; auto 10 | left; vm_compute; reflexivity].
Defined.

Ltac item_simpl :=
  cbn [fertilizer quantity_kg_per_hectare quantity_kg_per_acre quantity_total provides
       cost price_per_50kg is_verified note application_stage set_quantity_total
       set_price_per_50kg set_cost set_is_verified set_note].

Lemma reprice_item_again (a : float) (it it' : LineItem) (t t' : float) :
  reprice_item a it t = Some (it', t') -> reprice_item a it' t = Some (it', t').
Proof.
  unfold reprice_item.
  destruct it as [nm qh qa qt pv c pr ver nt stg].
  cbn [fertilizer quantity_total quantity_kg_per_hectare].
  destruct qt as [q|]; cbn [quantity_total set_quantity_total quantity_kg_per_hectare].
  - destruct (py_ceil (q / 50)) as [bags|] eqn:Ec; cbn [bind]; [|discriminate].
    destruct (dict_get FERTILIZER_PRICES_INR (base_name nm)) as [entry|] eqn:Eg.
    + destruct (float_of_int (bags * entry_price_per_50kg entry)) as [cf|] eqn:Ef;
        cbn [bind]; [|discriminate].
      intros [= <- <-]. item_simpl. rewrite Ec. cbn [bind]. rewrite Eg, Ef. reflexivity.
    + intros [= <- <-]. item_simpl. rewrite Ec. cbn [bind]. rewrite Eg. reflexivity.
  - destruct (py_ceil (qh * a / 50)) as [bags|] eqn:Ec; cbn [bind]; [|discriminate].
    destruct (dict_get FERTILIZER_PRICES_INR (base_name nm)) as [entry|] eqn:Eg.
    + destruct (float_of_int (bags * entry_price_per_50kg entry)) as [cf|] eqn:Ef;
        cbn [bind]; [|discriminate].
      intros [= <- <-]. item_simpl. rewrite Ec. cbn [bind]. rewrite Eg, Ef. reflexivity.
    + intros [= <- <-]. item_simpl. rewrite Ec. cbn [bind]. rewrite Eg. reflexivity.
Qed.

(** X11.  Repricing is idempotent.  Running the pass again over its own
    result, from the same starting total, returns the same items and the
    same total: prices, costs, flags and notes are overwritten with the
    values they already have. *)
Theorem repricing_twice :
  forall (a : float) (ferts ferts' : list LineItem) (t0 total : float),
    reprice_loop a ferts t0 = Some (ferts', total) ->
    reprice_loop a ferts' t0 = Some (ferts', total).
Proof.
  intros a ferts. induction ferts as [|it rest IH]; intros ferts' t0 total; cbn [reprice_loop].
  - intros [= <- <-]. reflexivity.
  - destruct (reprice_item a it t0) as [[it' t1]|] eqn:E1; cbn [bind fst snd]; [|discriminate].
    destruct (reprice_loop a rest t1) as [[rest' t2]|] eqn:E2; cbn [bind fst snd];
      [|discriminate].
    intros [= <- <-]. cbn [reprice_loop].
    rewrite (reprice_item_again a it it' t0 t1 E1). cbn [bind fst snd].
    rewrite (IH rest' t1 t2 E2). reflexivity.
Qed.

(** The items of Scenario A and the unlisted product, priced twice. *)
Lemma repricing_twice_witness :
  exists (ferts' : list LineItem) (total : float),
    reprice_loop 1 (fertilizers scenario_A ++ [unlisted_item]) 0.0 = Some (ferts', total) /\
    reprice_loop 1 ferts' 0.0 = Some (ferts', total) /\
    total = 7080.
Proof.
  destruct (reprice_loop 1 (fertilizers scenario_A ++ [unlisted_item]) 0.0)
    as [[ferts' total]|] eqn:E; [|vm_compute in E; discriminate E].
  exists ferts', total. split; [reflexivity|].
  split; [apply (repricing_twice 1 _ ferts' 0.0 total E)|].
  vm_compute in E. injection E as _ <-. reflexivity.
Defined.

(** ** The narrative against the advisor *)

Lemma append_cancel_l (s a b : string) : (s ++ a = s ++ b)%string -> a = b.
Proof.
  induction s as [|c s IH]; cbn; [auto|]. intros [= H]. apply IH, H.
Qed.

Lemma ph_lines_differ (x : float) :
  acidic_line x <> alkaline_line x /\ acidic_line x <> neutral_line x /\
  alkaline_line x <> neutral_line x.
Proof.
  unfold acidic_line, alkaline_line, neutral_line.
  repeat split; intros H; apply append_cancel_l in H; apply append_cancel_l in H;
    discriminate H.
Qed.

Lemma ph_line_cases (x : float) :
  (ph_line x = acidic_line x <-> (x <? 5.5) = true) /\
  (ph_line x = alkaline_line x <-> (7.5 <? x) = true) /\
  (ph_line x = neutral_line x <-> (x <? 5.5) = false /\ (7.5 <? x) = false).
Proof.
  destruct (ph_lines_differ x) as (D1 & D2 & D3).
  rewrite (alkaline_not_acidic x). unfold ph_line.
  destruct (x <? 5.5), (7.5 <? x); cbn [negb andb];
    repeat split; intros; try discriminate; try reflexivity; try congruence;
    try (exfalso; auto; fail);
    try (match goal with H : _ /\ _ |- _ => destruct H; discriminate end).
Qed.

(** X12.  The narrative and the advisor agree.  The pH line of the narrative
    (always its fifth part) says ACIDIC exactly when the advisor returns the
    lime advisory, ALKALINE exactly when it returns the gypsum advisory and
    NEUTRAL exactly when it returns neither; the narrative has its EC line
    (as sixth part) exactly when the advisor returns the salinity advisory;
    it has 10 parts then and 9 otherwise. *)
Theorem narrative_agrees_with_advisor :
  forall (sv : SoilValues) (crop season : string) (rn rp rk : float)
         (oc n p k : option float) (l : list Improvement),
    get_soil_improvements (sv_ph sv) (sv_ec sv) oc n p k = Some l ->
    let parts := reasoning_parts sv crop season rn rp rk in
    (nth 4 parts "" = acidic_line (sv_ph sv) <-> existsb is_lime l = true) /\
    (nth 4 parts "" = alkaline_line (sv_ph sv) <-> existsb is_gypsum l = true) /\
    (nth 4 parts "" = neutral_line (sv_ph sv) <->
       existsb is_lime l = false /\ existsb is_gypsum l = false) /\
    ((exists e : float, sv_ec sv = Some e /\ nth 5 parts "" = ec_high_line e) <->
       existsb is_salinity l = true) /\
    List.length parts = (if existsb is_salinity l then 10 else 9)%nat.
Proof.
  intros sv crop season rn rp rk oc n p k l H parts. subst parts.
  pose proof (advisor_contents_cases _ _ _ _ _ _ l H) as (_ & Hl & Hg & _ & Hs & _).
  rewrite Hl, Hg, Hs.
  destruct (ph_line_cases (sv_ph sv)) as (P1 & P2 & P3).
  unfold reasoning_parts. cbn [app nth].
  split; [exact P1|]. split; [exact P2|]. split; [exact P3|].
  unfold ec_lines. destruct (sv_ec sv) as [e|].
  - rewrite <- (saline_is_truthy e).
    destruct (2.0 <? e); cbn [app nth List.length]; split; try reflexivity.
    + split; [reflexivity | intros _; exists e; auto].
    + split; [intros (e' & [= <-] & He); discriminate He | discriminate].
  - cbn [app nth List.length]. split; [|reflexivity].
    split; [intros (e' & [=] & _) | discriminate].
Qed.

(** An acidic, saline soil: ACIDIC, the EC line and ten parts. *)
Lemma narrative_agrees_with_advisor_witness :
  exists l : list Improvement,
    get_soil_improvements 5.4 (Some 2.5) None None None None = Some l /\
    existsb is_lime l = true /\ existsb is_salinity l = true /\
    nth 4 (reasoning_parts (mkSoilValues 18 12.3 30 5.4 (Some 2.5)) "Rice" "Kharif" 120 60 0) ""
      = "- Soil pH (5.4) is ACIDIC. Consider liming to improve nutrient availability." /\
    List.length
      (reasoning_parts (mkSoilValues 18 12.3 30 5.4 (Some 2.5)) "Rice" "Kharif" 120 60 0)
      = 10%nat.
Proof.
  destruct (get_soil_improvements 5.4 (Some 2.5) None None None None) as [l|] eqn:E;
    [|vm_compute in E; discriminate E].
  pose proof (narrative_agrees_with_advisor
                (mkSoilValues 18 12.3 30 5.4 (Some 2.5)) "Rice" "Kharif" 120 60 0
                None None None None l E) as (H1 & _ & _ & H4 & H5).
  cbv zeta in H1, H4, H5.
  assert (Hs : existsb is_salinity l = true).
  { apply H4. exists 2.5. split; reflexivity. }
  exists l. split; [reflexivity|].
  split; [apply H1; reflexivity|]. split; [exact Hs|].
  split; [reflexivity|]. rewrite H5, Hs. reflexivity.
Defined.

(** ** The arguments handed to the predictor *)

Lemma or_default_not_zero (x : option float) (d : float) :
  (d =? 0) = false -> (or_default x d =? 0) = false.
Proof.
  intros Hd. unfold or_default, float_truthy. destruct x as [v|]; [|exact Hd].
  destruct (v =? 0) eqn:E; cbn [negb]; [exact Hd | exact E].
Qed.

(** X13.  What the predictor is called with.  The request is refused with
    404 when the farmer is missing, with 404 when the farmer exists and the
    soil record is missing, and with 400 exactly when both exist and one of
    nitrogen, phosphorus, potassium, pH is missing.  Otherwise the predictor
    gets the four values as stored, and an EC and a moisture that are never
    0: a missing or zero EC is replaced by 1.0, a missing or zero moisture
    by 30.0. *)
Theorem predictor_arguments :
  forall (farmer : option Farmer) (soil : option SoilRow),
    (predictor_input farmer soil = inl NotFound_farmer <-> farmer = None) /\
    (predictor_input farmer soil = inl NotFound_soil_data <->
       farmer <> None /\ soil = None) /\
    (predictor_input farmer soil = inl BadRequest_missing_values <->
       farmer <> None /\
       exists row, soil = Some row /\
         (row_nitrogen row = None \/ row_phosphorus row = None \/
          row_potassium row = None \/ row_ph row = None)) /\
    (forall f row args,
       predictor_input farmer soil = inr (f, row, args) ->
       farmer = Some f /\ soil = Some row /\
       row_nitrogen row = Some (in_nitrogen args) /\
       row_phosphorus row = Some (in_phosphorus args) /\
       row_potassium row = Some (in_potassium args) /\
       row_ph row = Some (in_ph args) /\
       (in_ec args =? 0) = false /\ (in_moisture args =? 0) = false /\
       in_ec args = or_default (row_ec row) 1.0 /\
       in_moisture args = or_default (row_moisture row) 30.0) /\
    or_default None 1.0 = 1.0 /\ or_default (Some 0) 1.0 = 1.0 /\
    or_default (Some (-0)) 1.0 = 1.0.
Proof.
  intros farmer soil. unfold predictor_input.
  destruct farmer as [f|]; [destruct soil as [row|];
    [destruct (row_nitrogen row) as [vn|] eqn:En; destruct (row_phosphorus row) as [vp|] eqn:Ep;
     destruct (row_potassium row) as [vk|] eqn:Ek; destruct (row_ph row) as [vh|] eqn:Eh | ] | ].
  all: repeat match goal with |- _ /\ _ => split end.
  all: try reflexivity.
  all: try (intros f' row' args H; discriminate H).
  all: try (split; intros H;
            [ try discriminate H; repeat split; try discriminate; try reflexivity;
              try (eexists; split; [reflexivity | auto 6])
            | try reflexivity; exfalso;
              repeat match goal with
                     | H : _ /\ _ |- _ => destruct H
                     | H : exists _, _ |- _ => destruct H
                     | H : _ \/ _ |- _ => destruct H
                     end; congruence ]; fail).
  intros f' row' args [= <- <- <-]. cbn.
  rewrite En, Ep, Ek, Eh.
  repeat split; apply or_default_not_zero; reflexivity.
Qed.

(** ** Nothing the engine returns is negative *)

Lemma SFadd_signed (x y : spec_float) :
  sf_signed false x = true -> sf_signed false y = true ->
  sf_signed false (SFadd prec emax x y) = true.
Proof.
  destruct x as [sx|sx| |sx mx ex]; cbn [sf_signed]; try discriminate;
    destruct y as [sy|sy| |sy my ey]; cbn [sf_signed]; try discriminate;
    destruct sx; try discriminate; destruct sy; try discriminate; intros _ _;
    try reflexivity.
  cbn [SFadd cond_Zopp Z.add binary_normalize]. apply binary_round_signed.
Qed.

Lemma add_signed (x y : float) :
  sf_signed false (Prim2SF x) = true -> sf_signed false (Prim2SF y) = true ->
  sf_signed false (Prim2SF (x + y)) = true.
Proof. intros Hx Hy. rewrite add_spec. apply SFadd_signed; assumption. Qed.

Lemma positive_finite (a : float) :
  (0 <? a) = true -> (a <? infinity) = true ->
  exists (ma : positive) (ea : Z), Prim2SF a = S754_finite false ma ea.
Proof.
  rewrite ltb_0_pos, ltb_spec.
  destruct (Prim2SF a) as [s|s| |s m e]; cbn [sf_pos]; try discriminate;
    destruct s; try discriminate; intros _ H; try discriminate H.
  exists m, e. reflexivity.
Qed.

Lemma engine_item_all_nonneg (nm : string) (needed a : float) (prov : fstring) (c : float)
    (ma mc : positive) (ea ec : Z) :
  Prim2SF a = S754_finite false ma ea ->
  Prim2SF c = S754_finite false mc ec ->
  sf_signed false (Prim2SF needed) = true ->
  let it := engine_item nm needed a prov c in
  (0 <=? quantity_kg_per_hectare it) = true /\
  (0 <=? quantity_kg_per_acre it) = true /\
  (0 <=? total_or_nan it) = true /\
  (0 <=? cost_to_float (cost it)) = true.
Proof.
  intros Ha Hc Hn it. subst it.
  destruct (engine_item_nonneg nm needed a prov c Hn) as [H1 H2].
  split; [exact H1|]. split; [exact H2|].
  cbn [engine_item total_or_nan quantity_total cost cost_to_float]. split.
  - apply signed_nonneg, py_round_signed; [lia|].
    apply (mul_const_signed needed a ma ea Ha Hn).
  - apply signed_nonneg, py_round_signed; [lia|].
    apply (mul_const_signed needed c mc ec Hc Hn).
Qed.

Lemma engine_total_signed (n p k : float) :
  sf_signed false (Prim2SF (engine_total n p k)) = true.
Proof.
  unfold engine_total.
  assert (H0 : sf_signed false (Prim2SF 0) = true) by reflexivity.
  assert (H1 : sf_signed false
                 (Prim2SF (if 0 <? p then 0 + dap_needed_kg p * 27 else 0)) = true).
  { destruct (0 <? p) eqn:Hp; [|exact H0]. apply add_signed; [exact H0|].
    eapply mul_const_signed; [float_const|]. unfold dap_needed_kg.
    eapply div_const_signed; [float_const | apply pos_signed, Hp]. }
  set (t1 := if 0 <? p then 0 + dap_needed_kg p * 27 else 0) in *.
  assert (H2 : sf_signed false
                 (Prim2SF (if 0 <? k then t1 + k / 0.6 * 17 else t1)) = true).
  { destruct (0 <? k) eqn:Hk; [|exact H1]. apply add_signed; [exact H1|].
    eapply mul_const_signed; [float_const|].
    eapply div_const_signed; [float_const | apply pos_signed, Hk]. }
  set (t2 := if 0 <? k then t1 + k / 0.6 * 17 else t1) in *.
  destruct (0 <? nitrogen_after_dap n p) eqn:Hn; [|exact H2].
  apply add_signed; [exact H2|].
  eapply mul_const_signed; [float_const|].
  eapply div_const_signed; [float_const | apply pos_signed, Hn].
Qed.

(** X14.  Nothing the engine returns is negative.  For every requirement
    triple (also negative ones and NaN) and every field area that is positive
    and finite, each emitted item has a per-hectare quantity, a per-acre
    quantity, a total quantity and a rough cost that are >= 0 (so none is
    NaN), and the rough total cost is >= 0. *)
Theorem engine_output_nonnegative :
  forall n p k a : float,
    (0 <? a) = true -> (a <? infinity) = true ->
    exists r : Recommendations,
      recommend_fertilizers n p k a = Some r /\
      Forall (fun it =>
                (0 <=? quantity_kg_per_hectare it) = true /\
                (0 <=? quantity_kg_per_acre it) = true /\
                (0 <=? total_or_nan it) = true /\
                (0 <=? cost_to_float (cost it)) = true)
             (fertilizers r) /\
      (0 <=? total_cost r) = true.
Proof.
  intros n p k a Ha Hfin.
  destruct (positive_finite a Ha Hfin) as (ma & ea & Ea).
  rewrite recommend_fertilizers_eq. eexists. split; [reflexivity|].
  cbn [fertilizers total_cost]. split.
  - unfold engine_items.
    apply Forall_app; split; [|apply Forall_app; split].
    + destruct (0 <? p) eqn:Hp; constructor; [|constructor].
      eapply (engine_item_all_nonneg _ _ a _ 27); [exact Ea | float_const |].
      unfold dap_needed_kg. eapply div_const_signed; [float_const | apply pos_signed, Hp].
    + destruct (0 <? k) eqn:Hk; constructor; [|constructor].
      eapply (engine_item_all_nonneg _ _ a _ 17); [exact Ea | float_const |].
      eapply div_const_signed; [float_const | apply pos_signed, Hk].
    + destruct (0 <? nitrogen_after_dap n p) eqn:Hn; constructor; [|constructor].
      eapply (engine_item_all_nonneg _ _ a _ 6); [exact Ea | float_const |].
      eapply div_const_signed; [float_const | apply pos_signed, Hn].
  - apply signed_nonneg, py_round_signed; [lia | apply engine_total_signed].
Qed.

(** A negative nitrogen requirement and a NaN potassium requirement on 2.5
    hectares. *)
Lemma engine_output_nonnegative_witness :
  exists r : Recommendations,
    recommend_fertilizers (-40) 60 nan 2.5 = Some r /\
    Forall (fun it =>
              (0 <=? quantity_kg_per_hectare it) = true /\
              (0 <=? quantity_kg_per_acre it) = true /\
              (0 <=? total_or_nan it) = true /\
              (0 <=? cost_to_float (cost it)) = true)
           (fertilizers r) /\
    (0 <=? total_cost r) = true.
Proof.
  apply (engine_output_nonnegative (-40) 60 nan 2.5); reflexivity.
Defined.

(** ** No cost of a recommendation is negative *)










(** ** The route returns on bounded input *)

Section Magnitude.

Local Open Scope Z_scope.



















End Magnitude.











